(** * Finance-Tracker: the in-memory storage layer ([MemStorage])

    A shallow embedding of the storage module (interface [IStorage], class
    [MemStorage]) and of the parts of the schema module ([@shared/schema])
    it relies on, together with the properties the specification states
    about backup, restore, the spending aggregations and the identifier
    discipline.

    Conventions of the embedding.
    - A JavaScript [Map<number, V>] is an association list in insertion
      order ([JsMap.t]): [set] on a key already present keeps its position,
      [set] on a new key appends, [values] enumerates in that order.
    - Identifiers, user identifiers and the id counters are integers ([Z]);
      the counters of the program are doubles, exact up to 2^53.
    - A [Date] is its [getTime()] value, an integer number of milliseconds.
    - A JavaScript [number] used as an amount is an instance of the
      interface [JsNumber]; the program itself runs at the instance
      [float64] (IEEE binary64); [exact] is the instance of exact rational
      arithmetic, used to state what holds when no rounding takes place.
    - [new Date()] reads the system clock: every operation that evaluates it
      takes the reading as an argument.
    - Every method is [async] but awaits nothing except other methods of
      the same object: a call runs to completion, and is modelled as a
      function from the store to a result and the next store.
    - Rows and arguments have the shapes their TypeScript types give them;
      the elements of a restore payload, typed [any], are taken to be
      row-shaped objects.

    The development then goes on to the callers of the storage layer: the
    routes of the REST API ([registerRoutes]) and some helpers of the
    client ([lib/utils], the statistics of the dashboard), with the
    properties the code of these shows. *)

From Stdlib Require Import ZArith List String Ascii DecimalString Bool Lia.
From Stdlib Require Import Permutation Sorted.
From Stdlib Require Import QArith Qcanon Qround Qabs Lqa.
From Stdlib Require Import Floats.
Import ListNotations.

Local Open Scope Z_scope.
Local Open Scope list_scope.

Set Implicit Arguments.
Set Maximal Implicit Insertion.
Set Warnings "-inexact-float".

(* ================================================================== *)
(** * JavaScript [Map<number, V>] *)
(* ================================================================== *)

Module JsMap.
Section Defs.
Context {V : Type}.

Definition t := list (Z * V).

Definition empty : t := [].

Fixpoint get (k : Z) (m : t) : option V :=
  match m with
  | [] => None
  | (k', v) :: m' => if k' =? k then Some v else get k m'
  end.

Definition has (k : Z) (m : t) : bool :=
  match get k m with Some _ => true | None => false end.

Fixpoint set (k : Z) (v : V) (m : t) : t :=
  match m with
  | [] => [(k, v)]
  | (k', v') :: m' =>
      if k' =? k then (k, v) :: m' else (k', v') :: set k v m'
  end.

Definition delete (k : Z) (m : t) : t :=
  filter (fun e => negb (fst e =? k)) m.

Definition keys (m : t) : list Z := map fst m.
Definition values (m : t) : list V := map snd m.

(** Representation invariant: a key occurs once. *)
Definition wf (m : t) : Prop := NoDup (keys m).
End Defs.
Arguments t : clear implicits.
End JsMap.

(** [Map<string, V>], same discipline. *)
Module StrMap.
Section Defs.
Context {V : Type}.

Definition t := list (string * V).

Definition empty : t := [].

Fixpoint get (k : string) (m : t) : option V :=
  match m with
  | [] => None
  | (k', v) :: m' => if String.eqb k' k then Some v else get k m'
  end.

Fixpoint set (k : string) (v : V) (m : t) : t :=
  match m with
  | [] => [(k, v)]
  | (k', v') :: m' =>
      if String.eqb k' k then (k, v) :: m' else (k', v') :: set k v m'
  end.

Definition entries (m : t) : list (string * V) := m.
Definition keys (m : t) : list string := map fst m.
End Defs.
Arguments t : clear implicits.
End StrMap.

(* ================================================================== *)
(** * [Array.prototype.sort] *)
(* ================================================================== *)

(** [jsSort after l] is [l.sort(cmp)] where [after a b] holds when
    [cmp(a, b) > 0], that is when [a] has to come after [b].  The sort of
    the language is stable; a stable insertion sort computes the same array
    whenever the comparator is a total preorder. *)
Section Sort.
Context {T : Type}.
Variable after : T -> T -> bool.

Fixpoint insertSorted (x : T) (l : list T) : list T :=
  match l with
  | [] => [x]
  | y :: l' => if after x y then y :: insertSorted x l' else x :: l
  end.

Fixpoint jsSort (l : list T) : list T :=
  match l with
  | [] => []
  | x :: l' => insertSorted x (jsSort l')
  end.
End Sort.

(* ================================================================== *)
(** * JavaScript numbers *)
(* ================================================================== *)

(** The operations on [number] that the storage layer uses. *)
Class JsNumber (N : Type) : Type := {
  num_zero : N;                     (* the literal 0 *)
  num_hundred : N;                  (* the literal 100 *)
  num_add : N -> N -> N;            (* a + b *)
  num_sub : N -> N -> N;            (* a - b *)
  num_mul : N -> N -> N;            (* a * b *)
  num_div : N -> N -> N;            (* a / b *)
  num_round : N -> N;               (* Math.round(a) *)
  num_truthy : N -> bool;           (* ToBoolean(a), as in a || b *)
  num_gt : N -> N -> bool           (* a > b *)
}.

(** [a || b] on numbers. *)
Definition num_or {N} `{JsNumber N} (a b : N) : N :=
  if num_truthy a then a else b.

(** ** IEEE binary64: the numbers of the program *)

Module Float64.
Local Open Scope float_scope.

(** Nearest integer, ties to even, for [|x| < 2^52]. *)
Definition rint (x : float) : float :=
  if PrimFloat.ltb x 0 then (x - 0x1p52) + 0x1p52 else (x + 0x1p52) - 0x1p52.

(** Largest integer not above [x]; from 2^52 on every double is an
    integer. *)
Definition floor (x : float) : float :=
  if PrimFloat.ltb (PrimFloat.abs x) 0x1p52 then
    let r := rint x in
    if PrimFloat.ltb x r then r - 1 else r
  else x.

(** [Math.round]: the integer nearest to [x], ties towards +infinity;
    NaN, the infinities and the integers are returned as they are.  (The
    sign of a zero result is not tracked.) *)
Definition round (x : float) : float :=
  let f := floor x in
  if PrimFloat.leb 0.5 (x - f) then f + 1 else f.

(** [ToBoolean]: false for +0, -0 and NaN. *)
Definition truthy (x : float) : bool :=
  PrimFloat.eqb x x && negb (PrimFloat.eqb x 0).
End Float64.

#[export] Instance float64 : JsNumber float := {
  num_zero := 0%float;
  num_hundred := 100%float;
  num_add := PrimFloat.add;
  num_sub := PrimFloat.sub;
  num_mul := PrimFloat.mul;
  num_div := PrimFloat.div;
  num_round := Float64.round;
  num_truthy := Float64.truthy;
  num_gt := fun a b => PrimFloat.ltb b a
}.

(** ** Exact rational arithmetic *)

Module Exact.
Definition half : Qc := Q2Qc (1 # 2).

(** [Math.round] on an exact rational: floor (x + 1/2). *)
Definition round (x : Qc) : Qc :=
  Q2Qc (inject_Z (Qfloor (this (x + half)%Qc))).

Definition truthy (x : Qc) : bool := negb (Qeq_bool (this x) 0).

Definition gt (a b : Qc) : bool :=
  match (this b ?= this a)%Q with Lt => true | _ => false end.
End Exact.

#[export] Instance exact : JsNumber Qc := {
  num_zero := Q2Qc 0;
  num_hundred := Q2Qc (inject_Z 100);
  num_add := Qcplus;
  num_sub := Qcminus;
  num_mul := Qcmult;
  num_div := Qcdiv;
  num_round := Exact.round;
  num_truthy := Exact.truthy;
  num_gt := Exact.gt
}.

(* ================================================================== *)
(** * The data model ([shared/schema.ts]) *)
(* ================================================================== *)

Definition Date := Z.

(** [{...a, ...b}] at one property: the property of [b] when [b] has it. *)
Definition spreadOver {A : Type} (b : option A) (a : A) : A :=
  match b with Some x => x | None => a end.

(** [s || d] for an optional string: [undefined], [null] and the empty
    string are falsy. *)
Definition str_or (s : option string) (d : option string) : option string :=
  match s with
  | Some EmptyString => d
  | Some x => Some x
  | None => d
  end.

(** [b || false] for an optional boolean. *)
Definition bool_or_false (b : option bool) : bool :=
  match b with Some true => true | _ => false end.

Section Model.
Context (N : Type) {num : JsNumber N}.

(** ** Rows: the [$inferSelect] types *)

Record User := {
  user_id : Z;
  user_username : string;
  user_name : string;
  user_email : string;
  user_password : string;
  user_createdAt : Date
}.

Record Notification := {
  notif_id : Z;
  notif_userId : Z;
  notif_message : string;
  notif_read : bool;
  notif_createdAt : Date
}.

Record Transaction := {
  tx_id : Z;
  tx_userId : Z;
  tx_amount : N;
  tx_category : string;
  tx_description : string;
  tx_date : Date;
  tx_type : string;                 (* "income" or "expense" *)
  tx_recurring : option bool;       (* boolean | null *)
  tx_note : option string           (* string | null *)
}.

Record Category := {
  cat_id : Z;
  cat_userId : Z;
  cat_name : string;
  cat_type : option string;         (* string | null *)
  cat_createdAt : Date
}.

Record Income := {
  inc_id : Z;
  inc_userId : Z;
  inc_source : string;
  inc_amount : N;
  inc_date : Date;
  inc_recurring : option bool
}.

Record Budget := {
  bud_id : Z;
  bud_userId : Z;
  bud_category : string;
  bud_amount : N;
  bud_period : string
}.

Record Goal := {
  goal_id : Z;
  goal_userId : Z;
  goal_name : string;
  goal_targetAmount : N;
  goal_currentAmount : N;
  goal_deadline : option Date
}.

(** ** Insert types: the insert schemas, [id] (and [createdAt]) omitted.
    An optional or nullable property is an [option]; [None] stands for
    both [undefined] and [null], which [||] does not tell apart. *)

Record InsertUser := {
  iu_username : string;
  iu_name : string;
  iu_email : string;
  iu_password : string
}.

Record InsertNotification := {
  in_userId : Z;
  in_message : string;
  in_read : option bool
}.

Record InsertTransaction := {
  it_userId : Z;
  it_amount : N;
  it_category : string;
  it_description : string;
  it_date : option Date;
  it_type : string;
  it_recurring : option bool;
  it_note : option string
}.

Record InsertCategory := {
  ic_userId : Z;
  ic_name : string;
  ic_type : option string
}.

Record InsertIncome := {
  ii_userId : Z;
  ii_source : string;
  ii_amount : N;
  ii_date : option Date;
  ii_recurring : option bool
}.

Record InsertBudget := {
  ib_userId : Z;
  ib_category : string;
  ib_amount : N;
  ib_period : string
}.

Record InsertGoal := {
  ig_userId : Z;
  ig_name : string;
  ig_targetAmount : N;
  ig_currentAmount : option N;
  ig_deadline : option Date
}.

(** ** [Partial<Row>]: every property of the row, each optional.
    For a nullable property the inner [None] is [null]. *)

Record PartialTransaction := {
  pt_id : option Z;
  pt_userId : option Z;
  pt_amount : option N;
  pt_category : option string;
  pt_description : option string;
  pt_date : option Date;
  pt_type : option string;
  pt_recurring : option (option bool);
  pt_note : option (option string)
}.

Record PartialIncome := {
  pi_id : option Z;
  pi_userId : option Z;
  pi_source : option string;
  pi_amount : option N;
  pi_date : option Date;
  pi_recurring : option (option bool)
}.

Record PartialBudget := {
  pb_id : option Z;
  pb_userId : option Z;
  pb_category : option string;
  pb_amount : option N;
  pb_period : option string
}.

Record PartialGoal := {
  pg_id : option Z;
  pg_userId : option Z;
  pg_name : option string;
  pg_targetAmount : option N;
  pg_currentAmount : option N;
  pg_deadline : option (option Date)
}.

(** ** The analytics results *)

Record CategorySummary := {
  cs_category : string;
  cs_value : N;
  cs_percentage : N
}.

(** ** The backup object and the restore payload.
    [createBackup] returns five arrays of rows.  [restoreBackup] takes
    [data: any]: each of the five properties is either an array or skipped
    ([None]: the property is absent, or is not an array); an element of an
    array is a row-shaped object whose [id] and [userId] may be anything or
    missing. *)

Record Backup := {
  b_transactions : list Transaction;
  b_incomes : list Income;
  b_budgets : list Budget;
  b_goals : list Goal;
  b_categories : list Category
}.

Record TransactionItem := {
  xt_id : option Z;
  xt_userId : option Z;
  xt_amount : N;
  xt_category : string;
  xt_description : string;
  xt_date : option Date;
  xt_type : string;
  xt_recurring : option bool;
  xt_note : option string
}.

Record IncomeItem := {
  xi_id : option Z;
  xi_userId : option Z;
  xi_source : string;
  xi_amount : N;
  xi_date : option Date;
  xi_recurring : option bool
}.

Record BudgetItem := {
  xb_id : option Z;
  xb_userId : option Z;
  xb_category : string;
  xb_amount : N;
  xb_period : string
}.

Record GoalItem := {
  xg_id : option Z;
  xg_userId : option Z;
  xg_name : string;
  xg_targetAmount : N;
  xg_currentAmount : option N;
  xg_deadline : option Date
}.

Record CategoryItem := {
  xc_id : option Z;
  xc_userId : option Z;
  xc_name : string;
  xc_type : option string;
  xc_createdAt : option Date
}.

Record RestoreObject := {
  d_transactions : option (list TransactionItem);
  d_incomes : option (list IncomeItem);
  d_budgets : option (list BudgetItem);
  d_goals : option (list GoalItem);
  d_categories : option (list CategoryItem)
}.

(** [data: any]: [null] and [undefined] have no properties to read. *)
Inductive RestoreData :=
| DataNullish
| DataObject (o : RestoreObject).

(** How a call ends. *)
Inductive Completion := Returned | Threw.

(* ================================================================== *)
(** * [MemStorage] *)
(* ================================================================== *)

Record MemStorage := {
  users : JsMap.t User;
  notifications : JsMap.t Notification;
  transactions : JsMap.t Transaction;
  categories : JsMap.t Category;
  incomes : JsMap.t Income;
  budgets : JsMap.t Budget;
  goals : JsMap.t Goal;
  currentUserId : Z;
  currentNotificationId : Z;
  currentTransactionId : Z;
  currentCategoryId : Z;
  currentIncomeId : Z;
  currentBudgetId : Z;
  currentGoalId : Z
}.

(** Assignments to the fields of [this]. *)

Definition set_users (m : JsMap.t User) (s : MemStorage) : MemStorage :=
  {| users := m;
     notifications := notifications s;
     transactions := transactions s;
     categories := categories s;
     incomes := incomes s;
     budgets := budgets s;
     goals := goals s;
     currentUserId := currentUserId s;
     currentNotificationId := currentNotificationId s;
     currentTransactionId := currentTransactionId s;
     currentCategoryId := currentCategoryId s;
     currentIncomeId := currentIncomeId s;
     currentBudgetId := currentBudgetId s;
     currentGoalId := currentGoalId s |}.

Definition set_notifications (m : JsMap.t Notification) (s : MemStorage) : MemStorage :=
  {| users := users s;
     notifications := m;
     transactions := transactions s;
     categories := categories s;
     incomes := incomes s;
     budgets := budgets s;
     goals := goals s;
     currentUserId := currentUserId s;
     currentNotificationId := currentNotificationId s;
     currentTransactionId := currentTransactionId s;
     currentCategoryId := currentCategoryId s;
     currentIncomeId := currentIncomeId s;
     currentBudgetId := currentBudgetId s;
     currentGoalId := currentGoalId s |}.

Definition set_transactions (m : JsMap.t Transaction) (s : MemStorage) : MemStorage :=
  {| users := users s;
     notifications := notifications s;
     transactions := m;
     categories := categories s;
     incomes := incomes s;
     budgets := budgets s;
     goals := goals s;
     currentUserId := currentUserId s;
     currentNotificationId := currentNotificationId s;
     currentTransactionId := currentTransactionId s;
     currentCategoryId := currentCategoryId s;
     currentIncomeId := currentIncomeId s;
     currentBudgetId := currentBudgetId s;
     currentGoalId := currentGoalId s |}.

Definition set_categories (m : JsMap.t Category) (s : MemStorage) : MemStorage :=
  {| users := users s;
     notifications := notifications s;
     transactions := transactions s;
     categories := m;
     incomes := incomes s;
     budgets := budgets s;
     goals := goals s;
     currentUserId := currentUserId s;
     currentNotificationId := currentNotificationId s;
     currentTransactionId := currentTransactionId s;
     currentCategoryId := currentCategoryId s;
     currentIncomeId := currentIncomeId s;
     currentBudgetId := currentBudgetId s;
     currentGoalId := currentGoalId s |}.

Definition set_incomes (m : JsMap.t Income) (s : MemStorage) : MemStorage :=
  {| users := users s;
     notifications := notifications s;
     transactions := transactions s;
     categories := categories s;
     incomes := m;
     budgets := budgets s;
     goals := goals s;
     currentUserId := currentUserId s;
     currentNotificationId := currentNotificationId s;
     currentTransactionId := currentTransactionId s;
     currentCategoryId := currentCategoryId s;
     currentIncomeId := currentIncomeId s;
     currentBudgetId := currentBudgetId s;
     currentGoalId := currentGoalId s |}.

Definition set_budgets (m : JsMap.t Budget) (s : MemStorage) : MemStorage :=
  {| users := users s;
     notifications := notifications s;
     transactions := transactions s;
     categories := categories s;
     incomes := incomes s;
     budgets := m;
     goals := goals s;
     currentUserId := currentUserId s;
     currentNotificationId := currentNotificationId s;
     currentTransactionId := currentTransactionId s;
     currentCategoryId := currentCategoryId s;
     currentIncomeId := currentIncomeId s;
     currentBudgetId := currentBudgetId s;
     currentGoalId := currentGoalId s |}.

Definition set_goals (m : JsMap.t Goal) (s : MemStorage) : MemStorage :=
  {| users := users s;
     notifications := notifications s;
     transactions := transactions s;
     categories := categories s;
     incomes := incomes s;
     budgets := budgets s;
     goals := m;
     currentUserId := currentUserId s;
     currentNotificationId := currentNotificationId s;
     currentTransactionId := currentTransactionId s;
     currentCategoryId := currentCategoryId s;
     currentIncomeId := currentIncomeId s;
     currentBudgetId := currentBudgetId s;
     currentGoalId := currentGoalId s |}.

Definition set_currentUserId (c : Z) (s : MemStorage) : MemStorage :=
  {| users := users s;
     notifications := notifications s;
     transactions := transactions s;
     categories := categories s;
     incomes := incomes s;
     budgets := budgets s;
     goals := goals s;
     currentUserId := c;
     currentNotificationId := currentNotificationId s;
     currentTransactionId := currentTransactionId s;
     currentCategoryId := currentCategoryId s;
     currentIncomeId := currentIncomeId s;
     currentBudgetId := currentBudgetId s;
     currentGoalId := currentGoalId s |}.

Definition set_currentNotificationId (c : Z) (s : MemStorage) : MemStorage :=
  {| users := users s;
     notifications := notifications s;
     transactions := transactions s;
     categories := categories s;
     incomes := incomes s;
     budgets := budgets s;
     goals := goals s;
     currentUserId := currentUserId s;
     currentNotificationId := c;
     currentTransactionId := currentTransactionId s;
     currentCategoryId := currentCategoryId s;
     currentIncomeId := currentIncomeId s;
     currentBudgetId := currentBudgetId s;
     currentGoalId := currentGoalId s |}.

Definition set_currentTransactionId (c : Z) (s : MemStorage) : MemStorage :=
  {| users := users s;
     notifications := notifications s;
     transactions := transactions s;
     categories := categories s;
     incomes := incomes s;
     budgets := budgets s;
     goals := goals s;
     currentUserId := currentUserId s;
     currentNotificationId := currentNotificationId s;
     currentTransactionId := c;
     currentCategoryId := currentCategoryId s;
     currentIncomeId := currentIncomeId s;
     currentBudgetId := currentBudgetId s;
     currentGoalId := currentGoalId s |}.

Definition set_currentCategoryId (c : Z) (s : MemStorage) : MemStorage :=
  {| users := users s;
     notifications := notifications s;
     transactions := transactions s;
     categories := categories s;
     incomes := incomes s;
     budgets := budgets s;
     goals := goals s;
     currentUserId := currentUserId s;
     currentNotificationId := currentNotificationId s;
     currentTransactionId := currentTransactionId s;
     currentCategoryId := c;
     currentIncomeId := currentIncomeId s;
     currentBudgetId := currentBudgetId s;
     currentGoalId := currentGoalId s |}.

Definition set_currentIncomeId (c : Z) (s : MemStorage) : MemStorage :=
  {| users := users s;
     notifications := notifications s;
     transactions := transactions s;
     categories := categories s;
     incomes := incomes s;
     budgets := budgets s;
     goals := goals s;
     currentUserId := currentUserId s;
     currentNotificationId := currentNotificationId s;
     currentTransactionId := currentTransactionId s;
     currentCategoryId := currentCategoryId s;
     currentIncomeId := c;
     currentBudgetId := currentBudgetId s;
     currentGoalId := currentGoalId s |}.

Definition set_currentBudgetId (c : Z) (s : MemStorage) : MemStorage :=
  {| users := users s;
     notifications := notifications s;
     transactions := transactions s;
     categories := categories s;
     incomes := incomes s;
     budgets := budgets s;
     goals := goals s;
     currentUserId := currentUserId s;
     currentNotificationId := currentNotificationId s;
     currentTransactionId := currentTransactionId s;
     currentCategoryId := currentCategoryId s;
     currentIncomeId := currentIncomeId s;
     currentBudgetId := c;
     currentGoalId := currentGoalId s |}.

Definition set_currentGoalId (c : Z) (s : MemStorage) : MemStorage :=
  {| users := users s;
     notifications := notifications s;
     transactions := transactions s;
     categories := categories s;
     incomes := incomes s;
     budgets := budgets s;
     goals := goals s;
     currentUserId := currentUserId s;
     currentNotificationId := currentNotificationId s;
     currentTransactionId := currentTransactionId s;
     currentCategoryId := currentCategoryId s;
     currentIncomeId := currentIncomeId s;
     currentBudgetId := currentBudgetId s;
     currentGoalId := c |}.

(** The constructor. *)
Definition newMemStorage : MemStorage :=
  {| users := JsMap.empty; notifications := JsMap.empty;
     transactions := JsMap.empty; categories := JsMap.empty;
     incomes := JsMap.empty; budgets := JsMap.empty; goals := JsMap.empty;
     currentUserId := 1; currentNotificationId := 1;
     currentTransactionId := 1; currentCategoryId := 1;
     currentIncomeId := 1; currentBudgetId := 1; currentGoalId := 1 |}.

(** ** User methods *)

Definition getUser (id : Z) (s : MemStorage) : option User :=
  JsMap.get id (users s).

Definition getUserByUsername (username : string) (s : MemStorage) : option User :=
  find (fun user => String.eqb (user_username user) username)
       (JsMap.values (users s)).

Definition getUserByEmail (email : string) (s : MemStorage) : option User :=
  find (fun user => String.eqb (user_email user) email)
       (JsMap.values (users s)).

Definition createUser (now : Date) (insertUser : InsertUser) (s : MemStorage)
  : User * MemStorage :=
  let id := currentUserId s in
  let s := set_currentUserId (id + 1) s in
  let user :=
    {| user_id := id;
       user_username := iu_username insertUser;
       user_name := iu_name insertUser;
       user_email := iu_email insertUser;
       user_password := iu_password insertUser;
       user_createdAt := now |} in
  (user, set_users (JsMap.set id user (users s)) s).

(** ** Notification methods *)

Definition getNotifications (userId : Z) (s : MemStorage) : list Notification :=
  jsSort (fun a b => notif_createdAt a <? notif_createdAt b)
    (filter (fun notification => notif_userId notification =? userId)
            (JsMap.values (notifications s))).

Definition createNotification (now : Date) (insertNotification : InsertNotification)
  (s : MemStorage) : Notification * MemStorage :=
  let id := currentNotificationId s in
  let s := set_currentNotificationId (id + 1) s in
  let notification :=
    {| notif_id := id;
       notif_userId := in_userId insertNotification;
       notif_message := in_message insertNotification;
       notif_read := bool_or_false (in_read insertNotification);
       notif_createdAt := now |} in
  (notification, set_notifications (JsMap.set id notification (notifications s)) s).

Definition markRead (notification : Notification) : Notification :=
  {| notif_id := notif_id notification;
     notif_userId := notif_userId notification;
     notif_message := notif_message notification;
     notif_read := true;
     notif_createdAt := notif_createdAt notification |}.

Definition markNotificationAsRead (id : Z) (s : MemStorage)
  : option Notification * MemStorage :=
  match JsMap.get id (notifications s) with
  | None => (None, s)
  | Some notification =>
      let updatedNotification := markRead notification in
      (Some updatedNotification,
       set_notifications (JsMap.set id updatedNotification (notifications s)) s)
  end.

Definition markAllNotificationsAsRead (userId : Z) (s : MemStorage) : MemStorage :=
  let userNotifications := getNotifications userId s in
  fold_left
    (fun s notification =>
       if negb (notif_read notification)
       then set_notifications
              (JsMap.set (notif_id notification) (markRead notification)
                         (notifications s)) s
       else s)
    userNotifications s.

(** ** Transaction methods *)

Definition getTransactions (userId : Z) (s : MemStorage) : list Transaction :=
  jsSort (fun a b => tx_date a <? tx_date b)
    (filter (fun transaction => tx_userId transaction =? userId)
            (JsMap.values (transactions s))).

Definition createTransaction (now : Date) (insertTransaction : InsertTransaction)
  (s : MemStorage) : Transaction * MemStorage :=
  let id := currentTransactionId s in
  let s := set_currentTransactionId (id + 1) s in
  let transaction :=
    {| tx_id := id;
       tx_userId := it_userId insertTransaction;
       tx_amount := it_amount insertTransaction;
       tx_category := it_category insertTransaction;
       tx_description := it_description insertTransaction;
       tx_date := match it_date insertTransaction with
                  | Some d => d
                  | None => now
                  end;
       tx_type := it_type insertTransaction;
       tx_recurring := Some (bool_or_false (it_recurring insertTransaction));
       tx_note := str_or (it_note insertTransaction) None |} in
  (transaction, set_transactions (JsMap.set id transaction (transactions s)) s).

Definition getTransactionById (id : Z) (s : MemStorage) : option Transaction :=
  JsMap.get id (transactions s).

(** [{ ...transaction, ...transactionUpdate }] *)
Definition spreadTransaction (transaction : Transaction)
  (transactionUpdate : PartialTransaction) : Transaction :=
  {| tx_id := spreadOver (pt_id transactionUpdate) (tx_id transaction);
     tx_userId := spreadOver (pt_userId transactionUpdate) (tx_userId transaction);
     tx_amount := spreadOver (pt_amount transactionUpdate) (tx_amount transaction);
     tx_category := spreadOver (pt_category transactionUpdate) (tx_category transaction);
     tx_description :=
       spreadOver (pt_description transactionUpdate) (tx_description transaction);
     tx_date := spreadOver (pt_date transactionUpdate) (tx_date transaction);
     tx_type := spreadOver (pt_type transactionUpdate) (tx_type transaction);
     tx_recurring := spreadOver (pt_recurring transactionUpdate) (tx_recurring transaction);
     tx_note := spreadOver (pt_note transactionUpdate) (tx_note transaction) |}.

Definition updateTransaction (id : Z) (transactionUpdate : PartialTransaction)
  (s : MemStorage) : option Transaction * MemStorage :=
  match JsMap.get id (transactions s) with
  | None => (None, s)
  | Some transaction =>
      let updatedTransaction := spreadTransaction transaction transactionUpdate in
      (Some updatedTransaction,
       set_transactions (JsMap.set id updatedTransaction (transactions s)) s)
  end.

Definition deleteTransaction (id : Z) (s : MemStorage) : bool * MemStorage :=
  (JsMap.has id (transactions s),
   set_transactions (JsMap.delete id (transactions s)) s).

(** ** Category methods.  ([getCategoryByName], a read-only search modulo
    [toLowerCase], comes with the strings it needs, after the examples.) *)

Definition getCategories (userId : Z) (s : MemStorage) : list Category :=
  filter (fun category => cat_userId category =? userId)
         (JsMap.values (categories s)).

Definition createCategory (now : Date) (insertCategory : InsertCategory)
  (s : MemStorage) : Category * MemStorage :=
  let id := currentCategoryId s in
  let s := set_currentCategoryId (id + 1) s in
  let category :=
    {| cat_id := id;
       cat_userId := ic_userId insertCategory;
       cat_name := ic_name insertCategory;
       cat_type := str_or (ic_type insertCategory) (Some "expense"%string);
       cat_createdAt := now |} in
  (category, set_categories (JsMap.set id category (categories s)) s).

(** ** Income methods *)

Definition getIncomes (userId : Z) (s : MemStorage) : list Income :=
  jsSort (fun a b => inc_date a <? inc_date b)
    (filter (fun income => inc_userId income =? userId)
            (JsMap.values (incomes s))).

Definition createIncome (now : Date) (insertIncome : InsertIncome)
  (s : MemStorage) : Income * MemStorage :=
  let id := currentIncomeId s in
  let s := set_currentIncomeId (id + 1) s in
  let income :=
    {| inc_id := id;
       inc_userId := ii_userId insertIncome;
       inc_source := ii_source insertIncome;
       inc_amount := ii_amount insertIncome;
       inc_date := match ii_date insertIncome with
                   | Some d => d
                   | None => now
                   end;
       inc_recurring := Some (bool_or_false (ii_recurring insertIncome)) |} in
  (income, set_incomes (JsMap.set id income (incomes s)) s).

Definition spreadIncome (income : Income) (incomeUpdate : PartialIncome) : Income :=
  {| inc_id := spreadOver (pi_id incomeUpdate) (inc_id income);
     inc_userId := spreadOver (pi_userId incomeUpdate) (inc_userId income);
     inc_source := spreadOver (pi_source incomeUpdate) (inc_source income);
     inc_amount := spreadOver (pi_amount incomeUpdate) (inc_amount income);
     inc_date := spreadOver (pi_date incomeUpdate) (inc_date income);
     inc_recurring := spreadOver (pi_recurring incomeUpdate) (inc_recurring income) |}.

Definition updateIncome (id : Z) (incomeUpdate : PartialIncome) (s : MemStorage)
  : option Income * MemStorage :=
  match JsMap.get id (incomes s) with
  | None => (None, s)
  | Some income =>
      let updatedIncome := spreadIncome income incomeUpdate in
      (Some updatedIncome, set_incomes (JsMap.set id updatedIncome (incomes s)) s)
  end.

Definition deleteIncome (id : Z) (s : MemStorage) : bool * MemStorage :=
  (JsMap.has id (incomes s), set_incomes (JsMap.delete id (incomes s)) s).

(** ** Budget methods *)

Definition getBudgets (userId : Z) (s : MemStorage) : list Budget :=
  filter (fun budget => bud_userId budget =? userId) (JsMap.values (budgets s)).

Definition createBudget (insertBudget : InsertBudget) (s : MemStorage)
  : Budget * MemStorage :=
  let id := currentBudgetId s in
  let s := set_currentBudgetId (id + 1) s in
  let budget :=
    {| bud_id := id;
       bud_userId := ib_userId insertBudget;
       bud_category := ib_category insertBudget;
       bud_amount := ib_amount insertBudget;
       bud_period := ib_period insertBudget |} in
  (budget, set_budgets (JsMap.set id budget (budgets s)) s).

Definition spreadBudget (budget : Budget) (budgetUpdate : PartialBudget) : Budget :=
  {| bud_id := spreadOver (pb_id budgetUpdate) (bud_id budget);
     bud_userId := spreadOver (pb_userId budgetUpdate) (bud_userId budget);
     bud_category := spreadOver (pb_category budgetUpdate) (bud_category budget);
     bud_amount := spreadOver (pb_amount budgetUpdate) (bud_amount budget);
     bud_period := spreadOver (pb_period budgetUpdate) (bud_period budget) |}.

Definition updateBudget (id : Z) (budgetUpdate : PartialBudget) (s : MemStorage)
  : option Budget * MemStorage :=
  match JsMap.get id (budgets s) with
  | None => (None, s)
  | Some budget =>
      let updatedBudget := spreadBudget budget budgetUpdate in
      (Some updatedBudget, set_budgets (JsMap.set id updatedBudget (budgets s)) s)
  end.

Definition deleteBudget (id : Z) (s : MemStorage) : bool * MemStorage :=
  (JsMap.has id (budgets s), set_budgets (JsMap.delete id (budgets s)) s).

(** ** Goal methods *)

Definition getGoals (userId : Z) (s : MemStorage) : list Goal :=
  filter (fun goal => goal_userId goal =? userId) (JsMap.values (goals s)).

Definition createGoal (insertGoal : InsertGoal) (s : MemStorage)
  : Goal * MemStorage :=
  let id := currentGoalId s in
  let s := set_currentGoalId (id + 1) s in
  let goal :=
    {| goal_id := id;
       goal_userId := ig_userId insertGoal;
       goal_name := ig_name insertGoal;
       goal_targetAmount := ig_targetAmount insertGoal;
       goal_currentAmount := match ig_currentAmount insertGoal with
                             | Some a => num_or a num_zero
                             | None => num_zero
                             end;
       goal_deadline := ig_deadline insertGoal |} in
  (goal, set_goals (JsMap.set id goal (goals s)) s).

Definition spreadGoal (goal : Goal) (goalUpdate : PartialGoal) : Goal :=
  {| goal_id := spreadOver (pg_id goalUpdate) (goal_id goal);
     goal_userId := spreadOver (pg_userId goalUpdate) (goal_userId goal);
     goal_name := spreadOver (pg_name goalUpdate) (goal_name goal);
     goal_targetAmount := spreadOver (pg_targetAmount goalUpdate) (goal_targetAmount goal);
     goal_currentAmount :=
       spreadOver (pg_currentAmount goalUpdate) (goal_currentAmount goal);
     goal_deadline := spreadOver (pg_deadline goalUpdate) (goal_deadline goal) |}.

Definition updateGoal (id : Z) (goalUpdate : PartialGoal) (s : MemStorage)
  : option Goal * MemStorage :=
  match JsMap.get id (goals s) with
  | None => (None, s)
  | Some goal =>
      let updatedGoal := spreadGoal goal goalUpdate in
      (Some updatedGoal, set_goals (JsMap.set id updatedGoal (goals s)) s)
  end.

Definition deleteGoal (id : Z) (s : MemStorage) : bool * MemStorage :=
  (JsMap.has id (goals s), set_goals (JsMap.delete id (goals s)) s).

(** ** Analytics methods *)

(** The callback of the [forEach] of [getSpendingByCategory], on the map
    from category to summed amount and the running total. *)
Definition spendingStep (acc : StrMap.t N * N) (transaction : Transaction)
  : StrMap.t N * N :=
  let '(categoryMap, totalSpent) := acc in
  let category := tx_category transaction in
  let amount := tx_amount transaction in
  let currentAmount :=
    match StrMap.get category categoryMap with
    | Some v => num_or v num_zero
    | None => num_zero
    end in
  (StrMap.set category (num_add currentAmount amount) categoryMap,
   num_add totalSpent amount).

Definition accumulateSpending (expenseTransactions : list Transaction)
  : StrMap.t N * N :=
  fold_left spendingStep expenseTransactions (StrMap.empty, num_zero).

Definition getSpendingByCategory (userId : Z) (s : MemStorage)
  : list CategorySummary :=
  let transactions := getTransactions userId s in
  let expenseTransactions :=
    filter (fun t => String.eqb (tx_type t) "expense") transactions in
  let '(categoryMap, totalSpent) := accumulateSpending expenseTransactions in
  let result :=
    map (fun (e : string * N) =>
           let '(category, value) := e in
           {| cs_category := category;
              cs_value := value;
              cs_percentage :=
                if num_gt totalSpent num_zero
                then num_round (num_mul (num_div value totalSpent) num_hundred)
                else num_zero |})
        (StrMap.entries categoryMap) in
  jsSort (fun a b => num_gt (num_sub (cs_value b) (cs_value a)) num_zero) result.

(** [getSpendingReport] accumulates into a plain object literal [{}], whose
    prototype is [Object.prototype].  What a property of such an object can
    hold here: a number; a string (the result of [+] with a non-number
    operand; its text is not tracked, it is never empty); or a member
    inherited from the prototype (a function or an object). *)
Inductive JsValue :=
| VNumber (n : N)
| VText
| VInherited.

(** The property names of [Object.prototype]. *)
Definition objectPrototypeNames : list string :=
  [ "constructor"; "__defineGetter__"; "__defineSetter__"; "hasOwnProperty";
    "__lookupGetter__"; "__lookupSetter__"; "isPrototypeOf";
    "propertyIsEnumerable"; "toString"; "valueOf"; "__proto__";
    "toLocaleString" ]%string.

Definition onObjectPrototype (k : string) : bool :=
  existsb (String.eqb k) objectPrototypeNames.

(** The own properties of the object, in creation order. *)
Definition JsObject := StrMap.t JsValue.

(** [o[k]]: own property, else the prototype's, else [undefined]. *)
Definition objGet (k : string) (o : JsObject) : option JsValue :=
  match StrMap.get k o with
  | Some v => Some v
  | None => if onObjectPrototype k then Some VInherited else None
  end.

(** [o[k] = v] for a primitive [v].  Writing ["__proto__"] runs the
    prototype's setter, which ignores a value that is not an object;
    any other name becomes (or stays) an own property. *)
Definition objSet (k : string) (v : JsValue) (o : JsObject) : JsObject :=
  if String.eqb k "__proto__" then o else StrMap.set k v o.

(** [(x || 0) + amount]: a number is added; anything else that is truthy
    (a function, an object, a non-empty string) is concatenated. *)
Definition orZeroPlus (x : option JsValue) (amount : N) : JsValue :=
  match x with
  | None => VNumber (num_add num_zero amount)
  | Some (VNumber n) => VNumber (num_add (num_or n num_zero) amount)
  | Some VText => VText
  | Some VInherited => VText
  end.

Record SpendingReport := {
  total : N;
  byCategory : JsObject
}.

(** The reducer of [getSpendingReport]. *)
Definition reportStep (acc : SpendingReport) (expense : Transaction)
  : SpendingReport :=
  {| total := num_add (total acc) (tx_amount expense);
     byCategory :=
       objSet (tx_category expense)
         (orZeroPlus (objGet (tx_category expense) (byCategory acc))
                     (tx_amount expense))
         (byCategory acc) |}.

Definition getSpendingReport (userId : Z) (s : MemStorage) : SpendingReport :=
  let transactions := getTransactions userId s in
  let expenseTransactions :=
    filter (fun t => String.eqb (tx_type t) "expense") transactions in
  let report :=
    fold_left reportStep expenseTransactions
      {| total := num_zero; byCategory := StrMap.empty |} in
  report.

(** ** Backup and restore *)

Definition createBackup (userId : Z) (s : MemStorage) : Backup :=
  {| b_transactions := getTransactions userId s;
     b_incomes := getIncomes userId s;
     b_budgets := getBudgets userId s;
     b_goals := getGoals userId s;
     b_categories := getCategories userId s |}.

(** [{ ...item, userId }], then read at the insert type.  The [id] of the
    item (and the [createdAt] of a category) travel along as excess
    properties; each [create] method writes its own [id] (and [createdAt])
    after spreading its argument, so they are not part of the insert
    records. *)
Definition transactionToInsert (transaction : TransactionItem) (userId : Z)
  : InsertTransaction :=
  {| it_userId := userId;
     it_amount := xt_amount transaction;
     it_category := xt_category transaction;
     it_description := xt_description transaction;
     it_date := xt_date transaction;
     it_type := xt_type transaction;
     it_recurring := xt_recurring transaction;
     it_note := xt_note transaction |}.

Definition incomeToInsert (income : IncomeItem) (userId : Z) : InsertIncome :=
  {| ii_userId := userId;
     ii_source := xi_source income;
     ii_amount := xi_amount income;
     ii_date := xi_date income;
     ii_recurring := xi_recurring income |}.

Definition budgetToInsert (budget : BudgetItem) (userId : Z) : InsertBudget :=
  {| ib_userId := userId;
     ib_category := xb_category budget;
     ib_amount := xb_amount budget;
     ib_period := xb_period budget |}.

Definition goalToInsert (goal : GoalItem) (userId : Z) : InsertGoal :=
  {| ig_userId := userId;
     ig_name := xg_name goal;
     ig_targetAmount := xg_targetAmount goal;
     ig_currentAmount := xg_currentAmount goal;
     ig_deadline := xg_deadline goal |}.

Definition categoryToInsert (category : CategoryItem) (userId : Z)
  : InsertCategory :=
  {| ic_userId := userId;
     ic_name := xc_name category;
     ic_type := xc_type category |}.

(** The five [for ... of] loops.  [clock k] is the reading of the system
    clock while the [k]-th element of the payload (counted over the five
    arrays) is inserted; the loops thread the count. *)
Definition restoreTransactions (clock : nat -> Date) (userId : Z)
  (items : list TransactionItem) (sk : MemStorage * nat) : MemStorage * nat :=
  fold_left
    (fun (sk : MemStorage * nat) transaction =>
       (snd (createTransaction (clock (snd sk))
               (transactionToInsert transaction userId) (fst sk)),
        S (snd sk)))
    items sk.

Definition restoreIncomes (clock : nat -> Date) (userId : Z)
  (items : list IncomeItem) (sk : MemStorage * nat) : MemStorage * nat :=
  fold_left
    (fun (sk : MemStorage * nat) income =>
       (snd (createIncome (clock (snd sk)) (incomeToInsert income userId) (fst sk)),
        S (snd sk)))
    items sk.

Definition restoreBudgets (userId : Z)
  (items : list BudgetItem) (sk : MemStorage * nat) : MemStorage * nat :=
  fold_left
    (fun (sk : MemStorage * nat) budget =>
       (snd (createBudget (budgetToInsert budget userId) (fst sk)), S (snd sk)))
    items sk.

Definition restoreGoals (userId : Z)
  (items : list GoalItem) (sk : MemStorage * nat) : MemStorage * nat :=
  fold_left
    (fun (sk : MemStorage * nat) goal =>
       (snd (createGoal (goalToInsert goal userId) (fst sk)), S (snd sk)))
    items sk.

Definition restoreCategories (clock : nat -> Date) (userId : Z)
  (items : list CategoryItem) (sk : MemStorage * nat) : MemStorage * nat :=
  fold_left
    (fun (sk : MemStorage * nat) category =>
       (snd (createCategory (clock (snd sk))
               (categoryToInsert category userId) (fst sk)),
        S (snd sk)))
    items sk.

(** [if (data.xs && Array.isArray(data.xs)) { ... }] *)
Definition whenArray {A : Type} (xs : option (list A))
  (loop : list A -> MemStorage * nat -> MemStorage * nat)
  (sk : MemStorage * nat) : MemStorage * nat :=
  match xs with
  | Some items => loop items sk
  | None => sk
  end.

(** "Remove existing data": the five [forEach] loops, which delete by the
    [id] property of the rows read at the start. *)
Definition removeExisting (userId : Z) (s : MemStorage) : MemStorage :=
  let userTransactions := getTransactions userId s in
  let userIncomes := getIncomes userId s in
  let userBudgets := getBudgets userId s in
  let userGoals := getGoals userId s in
  let userCategories := getCategories userId s in
  let s := fold_left
             (fun s t => set_transactions (JsMap.delete (tx_id t) (transactions s)) s)
             userTransactions s in
  let s := fold_left
             (fun s i => set_incomes (JsMap.delete (inc_id i) (incomes s)) s)
             userIncomes s in
  let s := fold_left
             (fun s b => set_budgets (JsMap.delete (bud_id b) (budgets s)) s)
             userBudgets s in
  let s := fold_left
             (fun s g => set_goals (JsMap.delete (goal_id g) (goals s)) s)
             userGoals s in
  let s := fold_left
             (fun s c => set_categories (JsMap.delete (cat_id c) (categories s)) s)
             userCategories s in
  s.

(** "Restore from backup". *)
Definition restoreFrom (clock : nat -> Date) (userId : Z) (o : RestoreObject)
  (s : MemStorage) : MemStorage :=
  let sk := (s, 0%nat) in
  let sk := whenArray (d_transactions o) (restoreTransactions clock userId) sk in
  let sk := whenArray (d_incomes o) (restoreIncomes clock userId) sk in
  let sk := whenArray (d_budgets o) (restoreBudgets userId) sk in
  let sk := whenArray (d_goals o) (restoreGoals userId) sk in
  let sk := whenArray (d_categories o) (restoreCategories clock userId) sk in
  fst sk.

(** [restoreBackup]: the deletions come first; reading [data.transactions]
    throws a [TypeError] when [data] is [null] or [undefined], and the
    deletions are then already done. *)
Definition restoreBackup (clock : nat -> Date) (userId : Z) (data : RestoreData)
  (s : MemStorage) : Completion * MemStorage :=
  let s := removeExisting userId s in
  match data with
  | DataNullish => (Threw, s)
  | DataObject o => (Returned, restoreFrom clock userId o s)
  end.

(** ** The operations that change the store, and their runs *)

Inductive Op :=
| OpCreateUser (now : Date) (u : InsertUser)
| OpCreateNotification (now : Date) (n : InsertNotification)
| OpMarkNotificationAsRead (id : Z)
| OpMarkAllNotificationsAsRead (userId : Z)
| OpCreateTransaction (now : Date) (t : InsertTransaction)
| OpUpdateTransaction (id : Z) (p : PartialTransaction)
| OpDeleteTransaction (id : Z)
| OpCreateCategory (now : Date) (c : InsertCategory)
| OpCreateIncome (now : Date) (i : InsertIncome)
| OpUpdateIncome (id : Z) (p : PartialIncome)
| OpDeleteIncome (id : Z)
| OpCreateBudget (b : InsertBudget)
| OpUpdateBudget (id : Z) (p : PartialBudget)
| OpDeleteBudget (id : Z)
| OpCreateGoal (g : InsertGoal)
| OpUpdateGoal (id : Z) (p : PartialGoal)
| OpDeleteGoal (id : Z)
| OpRestoreBackup (clock : nat -> Date) (userId : Z) (data : RestoreData).

Definition step (s : MemStorage) (op : Op) : MemStorage :=
  match op with
  | OpCreateUser now u => snd (createUser now u s)
  | OpCreateNotification now n => snd (createNotification now n s)
  | OpMarkNotificationAsRead id => snd (markNotificationAsRead id s)
  | OpMarkAllNotificationsAsRead userId => markAllNotificationsAsRead userId s
  | OpCreateTransaction now t => snd (createTransaction now t s)
  | OpUpdateTransaction id p => snd (updateTransaction id p s)
  | OpDeleteTransaction id => snd (deleteTransaction id s)
  | OpCreateCategory now c => snd (createCategory now c s)
  | OpCreateIncome now i => snd (createIncome now i s)
  | OpUpdateIncome id p => snd (updateIncome id p s)
  | OpDeleteIncome id => snd (deleteIncome id s)
  | OpCreateBudget b => snd (createBudget b s)
  | OpUpdateBudget id p => snd (updateBudget id p s)
  | OpDeleteBudget id => snd (deleteBudget id s)
  | OpCreateGoal g => snd (createGoal g s)
  | OpUpdateGoal id p => snd (updateGoal id p s)
  | OpDeleteGoal id => snd (deleteGoal id s)
  | OpRestoreBackup clock userId data => snd (restoreBackup clock userId data s)
  end.

Definition run (ops : list Op) (s : MemStorage) : MemStorage :=
  fold_left step ops s.

End Model.

Arguments newMemStorage N : clear implicits.
Arguments VText {N}.
Arguments VInherited {N}.
Arguments DataNullish {N}.
Arguments OpCreateUser {N}.
Arguments OpCreateNotification {N}.
Arguments OpMarkNotificationAsRead {N}.
Arguments OpMarkAllNotificationsAsRead {N}.
Arguments OpDeleteTransaction {N}.
Arguments OpCreateCategory {N}.
Arguments OpDeleteIncome {N}.
Arguments OpDeleteBudget {N}.
Arguments OpDeleteGoal {N}.

(* ================================================================== *)
(** * Vocabulary of the specification *)
(* ================================================================== *)

(** ** The identifier discipline of a table (a map and its counter) *)

Section Discipline.
Context {V : Type}.

(** Every row is filed under its own [id]. *)
Definition rowsFiled (idOf : V -> Z) (m : JsMap.t V) : Prop :=
  forall k v, In (k, v) m -> idOf v = k.

(** Every key in use was handed out by the counter. *)
Definition keysBelow (c : Z) (m : JsMap.t V) : Prop :=
  forall k, In k (JsMap.keys m) -> k < c.

(** The rows filed by a loop of [create] calls that starts at counter [c]
    and clock index [k]; [mk id k item] is the row built for [item]. *)
Fixpoint rowsFrom {I : Type} (mk : Z -> nat -> I -> V) (c : Z) (k : nat)
  (items : list I) : list (Z * V) :=
  match items with
  | [] => []
  | item :: rest => (c, mk c k item) :: rowsFrom mk (c + 1) (S k) rest
  end.

(** One [create] call of such a loop, on the map, the counter and the
    clock index. *)
Definition insertStep {I : Type} (mk : Z -> nat -> I -> V)
  (st : JsMap.t V * Z * nat) (item : I) : JsMap.t V * Z * nat :=
  (JsMap.set (snd (fst st)) (mk (snd (fst st)) (snd st) item) (fst (fst st)),
   snd (fst st) + 1, S (snd st)).
End Discipline.

Section Vocabulary.
Context {N : Type} {num : JsNumber N}.

(** The keys of every map are distinct and below the counter of the map. *)
Definition KeysOk (s : MemStorage N) : Prop :=
  (JsMap.wf (users s) /\ keysBelow (currentUserId s) (users s)) /\
  (JsMap.wf (notifications s)
   /\ keysBelow (currentNotificationId s) (notifications s)) /\
  (JsMap.wf (transactions s)
   /\ keysBelow (currentTransactionId s) (transactions s)) /\
  (JsMap.wf (categories s) /\ keysBelow (currentCategoryId s) (categories s)) /\
  (JsMap.wf (incomes s) /\ keysBelow (currentIncomeId s) (incomes s)) /\
  (JsMap.wf (budgets s) /\ keysBelow (currentBudgetId s) (budgets s)) /\
  (JsMap.wf (goals s) /\ keysBelow (currentGoalId s) (goals s)).

(** The [id] property of every row is the key the row is filed under. *)
Definition Filed (s : MemStorage N) : Prop :=
  rowsFiled user_id (users s) /\
  rowsFiled notif_id (notifications s) /\
  rowsFiled tx_id (transactions s) /\
  rowsFiled cat_id (categories s) /\
  rowsFiled inc_id (incomes s) /\
  rowsFiled bud_id (budgets s) /\
  rowsFiled goal_id (goals s).

(** The row [restoreBackup] files for an element of the payload. *)
Definition restoredTransaction (userId : Z) (clock : nat -> Date)
  (id : Z) (k : nat) (item : TransactionItem N) : Transaction N :=
  {| tx_id := id;
     tx_userId := userId;
     tx_amount := xt_amount item;
     tx_category := xt_category item;
     tx_description := xt_description item;
     tx_date := match xt_date item with Some d => d | None => clock k end;
     tx_type := xt_type item;
     tx_recurring := Some (bool_or_false (xt_recurring item));
     tx_note := str_or (xt_note item) None |}.

Definition restoredIncome (userId : Z) (clock : nat -> Date)
  (id : Z) (k : nat) (item : IncomeItem N) : Income N :=
  {| inc_id := id;
     inc_userId := userId;
     inc_source := xi_source item;
     inc_amount := xi_amount item;
     inc_date := match xi_date item with Some d => d | None => clock k end;
     inc_recurring := Some (bool_or_false (xi_recurring item)) |}.

Definition restoredBudget (userId : Z)
  (id : Z) (k : nat) (item : BudgetItem N) : Budget N :=
  {| bud_id := id;
     bud_userId := userId;
     bud_category := xb_category item;
     bud_amount := xb_amount item;
     bud_period := xb_period item |}.

Definition restoredGoal (userId : Z)
  (id : Z) (k : nat) (item : GoalItem N) : Goal N :=
  {| goal_id := id;
     goal_userId := userId;
     goal_name := xg_name item;
     goal_targetAmount := xg_targetAmount item;
     goal_currentAmount := match xg_currentAmount item with
                           | Some a => num_or a num_zero
                           | None => num_zero
                           end;
     goal_deadline := xg_deadline item |}.

Definition restoredCategory (userId : Z) (clock : nat -> Date)
  (id : Z) (k : nat) (item : CategoryItem) : Category :=
  {| cat_id := id;
     cat_userId := userId;
     cat_name := xc_name item;
     cat_type := str_or (xc_type item) (Some "expense"%string);
     cat_createdAt := clock k |}.

(** An array of the payload, empty when the property is skipped. *)
Definition arrayOf {A : Type} (xs : option (list A)) : list A :=
  match xs with Some items => items | None => [] end.

(** The rows of a map that do not belong to a user. *)
Definition rowsOfOthers {V : Type} (owner : V -> Z) (userId : Z)
  (m : JsMap.t V) : JsMap.t V :=
  filter (fun e => negb (owner (snd e) =? userId)) m.

End Vocabulary.

(** ** Rows of a user *)

Section Ownership.
Context {V : Type}.

(** The rows of a user, with their keys, in insertion order. *)
Definition rowsOf (owner : V -> Z) (userId : Z) (m : JsMap.t V) : JsMap.t V :=
  filter (fun e => owner (snd e) =? userId) m.

(** The same rows as [Array.from(map.values()).filter(...)] lists them. *)
Definition ownedRows (owner : V -> Z) (userId : Z) (m : JsMap.t V) : list V :=
  filter (fun r => owner r =? userId) (JsMap.values m).
End Ownership.

(** ** Section 4.2 as written: every array of the backup lists the rows of
    the user in the insertion order of the map. *)
Definition BackupInInsertionOrder {N : Type} (userId : Z) (s : MemStorage N)
  : Prop :=
  createBackup userId s
  = {| b_transactions := ownedRows (@tx_userId N) userId (transactions s);
       b_incomes := ownedRows (@inc_userId N) userId (incomes s);
       b_budgets := ownedRows (@bud_userId N) userId (budgets s);
       b_goals := ownedRows (@goal_userId N) userId (goals s);
       b_categories := ownedRows cat_userId userId (categories s) |}.

(** ** The discipline every operation keeps, whatever its arguments:
    [KeysOk], and the rows of the three maps that have no partial update
    are filed under their own [id]. *)
Definition Disciplined {N : Type} (s : MemStorage N) : Prop :=
  KeysOk s
  /\ rowsFiled user_id (users s)
  /\ rowsFiled notif_id (notifications s)
  /\ rowsFiled cat_id (categories s).

(** An operation that does not assign the [id] property of a row: every
    operation but a partial update whose object has an [id]. *)
Definition keepsId {N : Type} (op : Op N) : Prop :=
  match op with
  | OpUpdateTransaction _ p => pt_id p = None
  | OpUpdateIncome _ p => pi_id p = None
  | OpUpdateBudget _ p => pb_id p = None
  | OpUpdateGoal _ p => pg_id p = None
  | _ => True
  end.

(** The [id] properties of the rows held in each map are pairwise distinct. *)
Definition IdsDistinct {N : Type} (s : MemStorage N) : Prop :=
  NoDup (map user_id (JsMap.values (users s)))
  /\ NoDup (map notif_id (JsMap.values (notifications s)))
  /\ NoDup (map (@tx_id N) (JsMap.values (transactions s)))
  /\ NoDup (map cat_id (JsMap.values (categories s)))
  /\ NoDup (map (@inc_id N) (JsMap.values (incomes s)))
  /\ NoDup (map (@bud_id N) (JsMap.values (budgets s)))
  /\ NoDup (map (@goal_id N) (JsMap.values (goals s))).

(** No counter goes down from [s] to [s']. *)
Definition countersLe {N : Type} (s s' : MemStorage N) : Prop :=
  currentUserId s <= currentUserId s'
  /\ currentNotificationId s <= currentNotificationId s'
  /\ currentTransactionId s <= currentTransactionId s'
  /\ currentCategoryId s <= currentCategoryId s'
  /\ currentIncomeId s <= currentIncomeId s'
  /\ currentBudgetId s <= currentBudgetId s'
  /\ currentGoalId s <= currentGoalId s'.

(** The maps that [markAllNotificationsAsRead] does not assign. *)
Definition mapsButNotifications {N : Type} (s : MemStorage N) :=
  (users s, transactions s, categories s, incomes s, budgets s, goals s).

(** ** What an operation on one table leaves alone: all the fields of the
    store but the map of the table and its counter. *)

Section Frames.
Context {N : Type}.

Definition frameOfTransactions (s : MemStorage N) :=
  (users s, notifications s, categories s, incomes s, budgets s, goals s,
   (currentUserId s, currentNotificationId s, currentCategoryId s,
    currentIncomeId s, currentBudgetId s, currentGoalId s)).

Definition frameOfIncomes (s : MemStorage N) :=
  (users s, notifications s, transactions s, categories s, budgets s, goals s,
   (currentUserId s, currentNotificationId s, currentTransactionId s,
    currentCategoryId s, currentBudgetId s, currentGoalId s)).

Definition frameOfBudgets (s : MemStorage N) :=
  (users s, notifications s, transactions s, categories s, incomes s, goals s,
   (currentUserId s, currentNotificationId s, currentTransactionId s,
    currentCategoryId s, currentIncomeId s, currentGoalId s)).

Definition frameOfGoals (s : MemStorage N) :=
  (users s, notifications s, transactions s, categories s, incomes s, budgets s,
   (currentUserId s, currentNotificationId s, currentTransactionId s,
    currentCategoryId s, currentIncomeId s, currentBudgetId s)).

Definition frameOfCategories (s : MemStorage N) :=
  (users s, notifications s, transactions s, incomes s, budgets s, goals s,
   (currentUserId s, currentNotificationId s, currentTransactionId s,
    currentIncomeId s, currentBudgetId s, currentGoalId s)).

(** The fields [restoreBackup] never assigns while deleting. *)
Definition untouchedByRemoval (s : MemStorage N) :=
  (users s, notifications s,
   (currentUserId s, currentNotificationId s, currentTransactionId s,
    currentCategoryId s, currentIncomeId s, currentBudgetId s, currentGoalId s)).
End Frames.

(** ** Restore: the statements of sections 4.3 and 8 *)

Section RestoreStatements.
Context {N : Type} {num : JsNumber N}.

(** The payload with the [id] and [userId] of every element removed. *)
Definition eraseTransactionIds (x : TransactionItem N) : TransactionItem N :=
  {| xt_id := None; xt_userId := None; xt_amount := xt_amount x;
     xt_category := xt_category x; xt_description := xt_description x;
     xt_date := xt_date x; xt_type := xt_type x;
     xt_recurring := xt_recurring x; xt_note := xt_note x |}.

Definition eraseIncomeIds (x : IncomeItem N) : IncomeItem N :=
  {| xi_id := None; xi_userId := None; xi_source := xi_source x;
     xi_amount := xi_amount x; xi_date := xi_date x;
     xi_recurring := xi_recurring x |}.

Definition eraseBudgetIds (x : BudgetItem N) : BudgetItem N :=
  {| xb_id := None; xb_userId := None; xb_category := xb_category x;
     xb_amount := xb_amount x; xb_period := xb_period x |}.

Definition eraseGoalIds (x : GoalItem N) : GoalItem N :=
  {| xg_id := None; xg_userId := None; xg_name := xg_name x;
     xg_targetAmount := xg_targetAmount x;
     xg_currentAmount := xg_currentAmount x; xg_deadline := xg_deadline x |}.

Definition eraseCategoryIds (x : CategoryItem) : CategoryItem :=
  {| xc_id := None; xc_userId := None; xc_name := xc_name x;
     xc_type := xc_type x; xc_createdAt := xc_createdAt x |}.

Definition eraseIds (o : RestoreObject N) : RestoreObject N :=
  {| d_transactions := option_map (map eraseTransactionIds) (d_transactions o);
     d_incomes := option_map (map eraseIncomeIds) (d_incomes o);
     d_budgets := option_map (map eraseBudgetIds) (d_budgets o);
     d_goals := option_map (map eraseGoalIds) (d_goals o);
     d_categories := option_map (map eraseCategoryIds) (d_categories o) |}.

(** One table after a restore for [userId]: [after] is [remaining] followed
    by one new row per element of [items], in their order; the new rows are
    held under the consecutive keys from [c] on, none of which is a key of
    [before]; each new row is owned by [userId], carries its key as [id],
    and carries the data of its element. *)
Definition filedForCaller {V I : Type} (idOf owner : V -> Z)
  (carries : I -> V -> Prop) (userId c : Z)
  (before remaining after : JsMap.t V) (items : list I) : Prop :=
  exists new : JsMap.t V,
    after = remaining ++ new
    /\ JsMap.keys new = map (fun i => c + Z.of_nat i) (seq 0 (List.length items))
    /\ (forall k, In k (JsMap.keys new) -> ~ In k (JsMap.keys before))
    /\ Forall2 (fun item e =>
                  owner (snd e) = userId /\ idOf (snd e) = fst e
                  /\ carries item (snd e))
               items new.

Definition carriesTransaction (x : TransactionItem N) (t : Transaction N) : Prop :=
  tx_amount t = xt_amount x /\ tx_category t = xt_category x
  /\ tx_description t = xt_description x /\ tx_type t = xt_type x.

Definition carriesIncome (x : IncomeItem N) (i : Income N) : Prop :=
  inc_source i = xi_source x /\ inc_amount i = xi_amount x.

Definition carriesBudget (x : BudgetItem N) (b : Budget N) : Prop :=
  bud_category b = xb_category x /\ bud_amount b = xb_amount x
  /\ bud_period b = xb_period x.

Definition carriesGoal (x : GoalItem N) (g : Goal N) : Prop :=
  goal_name g = xg_name x /\ goal_targetAmount g = xg_targetAmount x
  /\ goal_deadline g = xg_deadline x.

Definition carriesCategory (x : CategoryItem) (c : Category) : Prop :=
  cat_name c = xc_name x.

(** One table cleared for a user and not repopulated: every row the user
    owned is gone, and no row is new. *)
Definition clearedFor {V : Type} (owner : V -> Z) (userId : Z)
  (before after : JsMap.t V) : Prop :=
  (forall e, In e before -> owner (snd e) = userId -> ~ In e after)
  /\ (forall e, In e after -> In e before).

(** C2 as stated: the call returns; a collection whose key is absent from
    the payload is cleared for the user and not repopulated, and is then
    empty for the user. *)
Definition ClearsAbsentCollections (clock : nat -> Date) (userId : Z)
  (o : RestoreObject N) (s : MemStorage N) : Prop :=
  let r := restoreBackup clock userId (DataObject o) s in
  fst r = Returned
  /\ (d_transactions o = None ->
      clearedFor (@tx_userId N) userId (transactions s) (transactions (snd r))
      /\ getTransactions userId (snd r) = [])
  /\ (d_incomes o = None ->
      clearedFor (@inc_userId N) userId (incomes s) (incomes (snd r))
      /\ getIncomes userId (snd r) = [])
  /\ (d_budgets o = None ->
      clearedFor (@bud_userId N) userId (budgets s) (budgets (snd r))
      /\ getBudgets userId (snd r) = [])
  /\ (d_goals o = None ->
      clearedFor (@goal_userId N) userId (goals s) (goals (snd r))
      /\ getGoals userId (snd r) = [])
  /\ (d_categories o = None ->
      clearedFor cat_userId userId (categories s) (categories (snd r))
      /\ getCategories userId (snd r) = []).

(** C10 as stated: a restore for [u] leaves the rows of [v] as they are,
    key by key and in their order, and does not touch users and
    notifications. *)
Definition LeavesOthersAlone (clock : nat -> Date) (u v : Z)
  (data : RestoreData N) (s : MemStorage N) : Prop :=
  let s' := snd (restoreBackup clock u data s) in
  (rowsOf (@tx_userId N) v (transactions s') = rowsOf (@tx_userId N) v (transactions s)
   /\ rowsOf (@inc_userId N) v (incomes s') = rowsOf (@inc_userId N) v (incomes s)
   /\ rowsOf (@bud_userId N) v (budgets s') = rowsOf (@bud_userId N) v (budgets s)
   /\ rowsOf (@goal_userId N) v (goals s') = rowsOf (@goal_userId N) v (goals s)
   /\ rowsOf cat_userId v (categories s') = rowsOf cat_userId v (categories s))
  /\ users s' = users s
  /\ notifications s' = notifications s.

(** A payload with no property at all: [{}]. *)
Definition emptyObject : RestoreObject N :=
  {| d_transactions := None; d_incomes := None; d_budgets := None;
     d_goals := None; d_categories := None |}.
End RestoreStatements.

(** ** Backup then restore *)

Section RoundTripStatements.
Context {N : Type} {num : JsNumber N}.

(** A row of a backup read as an element of a restore payload: the same
    object, seen at the type [any]. *)
Definition transactionAsItem (t : Transaction N) : TransactionItem N :=
  {| xt_id := Some (tx_id t); xt_userId := Some (tx_userId t);
     xt_amount := tx_amount t; xt_category := tx_category t;
     xt_description := tx_description t; xt_date := Some (tx_date t);
     xt_type := tx_type t; xt_recurring := tx_recurring t;
     xt_note := tx_note t |}.

Definition incomeAsItem (i : Income N) : IncomeItem N :=
  {| xi_id := Some (inc_id i); xi_userId := Some (inc_userId i);
     xi_source := inc_source i; xi_amount := inc_amount i;
     xi_date := Some (inc_date i); xi_recurring := inc_recurring i |}.

Definition budgetAsItem (b : Budget N) : BudgetItem N :=
  {| xb_id := Some (bud_id b); xb_userId := Some (bud_userId b);
     xb_category := bud_category b; xb_amount := bud_amount b;
     xb_period := bud_period b |}.

Definition goalAsItem (g : Goal N) : GoalItem N :=
  {| xg_id := Some (goal_id g); xg_userId := Some (goal_userId g);
     xg_name := goal_name g; xg_targetAmount := goal_targetAmount g;
     xg_currentAmount := Some (goal_currentAmount g);
     xg_deadline := goal_deadline g |}.

Definition categoryAsItem (c : Category) : CategoryItem :=
  {| xc_id := Some (cat_id c); xc_userId := Some (cat_userId c);
     xc_name := cat_name c; xc_type := cat_type c;
     xc_createdAt := Some (cat_createdAt c) |}.

(** The output of [createBackup] given to [restoreBackup] as it is. *)
Definition backupAsData (b : Backup N) : RestoreData N :=
  DataObject
    {| d_transactions := Some (map transactionAsItem (b_transactions b));
       d_incomes := Some (map incomeAsItem (b_incomes b));
       d_budgets := Some (map budgetAsItem (b_budgets b));
       d_goals := Some (map goalAsItem (b_goals b));
       d_categories := Some (map categoryAsItem (b_categories b)) |}.

(** Rows with their [id] left out of the comparison. *)
Definition ignoreTransactionId (t : Transaction N) : Transaction N :=
  {| tx_id := 0; tx_userId := tx_userId t; tx_amount := tx_amount t;
     tx_category := tx_category t; tx_description := tx_description t;
     tx_date := tx_date t; tx_type := tx_type t;
     tx_recurring := tx_recurring t; tx_note := tx_note t |}.

Definition ignoreIncomeId (i : Income N) : Income N :=
  {| inc_id := 0; inc_userId := inc_userId i; inc_source := inc_source i;
     inc_amount := inc_amount i; inc_date := inc_date i;
     inc_recurring := inc_recurring i |}.

Definition ignoreBudgetId (b : Budget N) : Budget N :=
  {| bud_id := 0; bud_userId := bud_userId b; bud_category := bud_category b;
     bud_amount := bud_amount b; bud_period := bud_period b |}.

Definition ignoreGoalId (g : Goal N) : Goal N :=
  {| goal_id := 0; goal_userId := goal_userId g; goal_name := goal_name g;
     goal_targetAmount := goal_targetAmount g;
     goal_currentAmount := goal_currentAmount g;
     goal_deadline := goal_deadline g |}.

Definition ignoreCategoryId (c : Category) : Category :=
  {| cat_id := 0; cat_userId := cat_userId c; cat_name := cat_name c;
     cat_type := cat_type c; cat_createdAt := cat_createdAt c |}.

(** A category with its [id] and its [createdAt] left out. *)
Definition ignoreCategoryIdAndCreatedAt (c : Category) : Category :=
  {| cat_id := 0; cat_userId := cat_userId c; cat_name := cat_name c;
     cat_type := cat_type c; cat_createdAt := 0 |}.

(** The store after [createBackup(userId)] and then
    [restoreBackup(userId, b)] with the backup [b] just made. *)
Definition backupThenRestore (clock : nat -> Date) (userId : Z)
  (s : MemStorage N) : MemStorage N :=
  snd (restoreBackup clock userId (backupAsData (createBackup userId s)) s).

(** C1 as stated: the same multiset of rows in the five collections of the
    user, ids ignored. *)
Definition RoundTrip (clock : nat -> Date) (userId : Z) (s : MemStorage N)
  : Prop :=
  let s' := backupThenRestore clock userId s in
  Permutation (map ignoreTransactionId (getTransactions userId s))
              (map ignoreTransactionId (getTransactions userId s'))
  /\ Permutation (map ignoreIncomeId (getIncomes userId s))
                 (map ignoreIncomeId (getIncomes userId s'))
  /\ Permutation (map ignoreBudgetId (getBudgets userId s))
                 (map ignoreBudgetId (getBudgets userId s'))
  /\ Permutation (map ignoreGoalId (getGoals userId s))
                 (map ignoreGoalId (getGoals userId s'))
  /\ Permutation (map ignoreCategoryId (getCategories userId s))
                 (map ignoreCategoryId (getCategories userId s')).

(** The same, with the [createdAt] of the categories ignored as well. *)
Definition RoundTripButCreatedAt (clock : nat -> Date) (userId : Z)
  (s : MemStorage N) : Prop :=
  let s' := backupThenRestore clock userId s in
  Permutation (map ignoreTransactionId (getTransactions userId s))
              (map ignoreTransactionId (getTransactions userId s'))
  /\ Permutation (map ignoreIncomeId (getIncomes userId s))
                 (map ignoreIncomeId (getIncomes userId s'))
  /\ Permutation (map ignoreBudgetId (getBudgets userId s))
                 (map ignoreBudgetId (getBudgets userId s'))
  /\ Permutation (map ignoreGoalId (getGoals userId s))
                 (map ignoreGoalId (getGoals userId s'))
  /\ Permutation (map ignoreCategoryIdAndCreatedAt (getCategories userId s))
                 (map ignoreCategoryIdAndCreatedAt (getCategories userId s')).

(** The rows of the user are as the [create] methods leave them: the
    defaults that [create] applies ([recurring || false], [note || null],
    [currentAmount || 0], [type || 'expense']) change nothing to them. *)
Definition AsCreated (userId : Z) (s : MemStorage N) : Prop :=
  (forall t, In t (getTransactions userId s) ->
             tx_recurring t = Some (bool_or_false (tx_recurring t))
             /\ tx_note t = str_or (tx_note t) None)
  /\ (forall i, In i (getIncomes userId s) ->
                inc_recurring i = Some (bool_or_false (inc_recurring i)))
  /\ (forall g, In g (getGoals userId s) ->
                goal_currentAmount g = num_or (goal_currentAmount g) num_zero)
  /\ (forall c, In c (getCategories userId s) ->
                cat_type c = str_or (cat_type c) (Some "expense"%string)).
End RoundTripStatements.

(** ** Spending: the statements of sections 4.1 and 8 *)

Section SpendingStatements.
Context {N : Type} {num : JsNumber N}.

(** The expense transactions of a user, in the order [getTransactions]
    lists them: the input of both aggregations. *)
Definition expensesOf (userId : Z) (s : MemStorage N) : list (Transaction N) :=
  filter (fun t => String.eqb (tx_type t) "expense") (getTransactions userId s).

(** [xs.reduce((a, b) => a + b, 0)] *)
Definition sumOf (xs : list N) : N := fold_left num_add xs num_zero.

(** The amounts recorded under a category, in order. *)
Definition amountsIn (c : string) (txs : list (Transaction N)) : list N :=
  map (@tx_amount N)
      (filter (fun t => String.eqb (tx_category t) c) txs).

(** What the loop of [getSpendingByCategory] does to one entry of its map
    when it meets an amount of that category. *)
Definition addToEntry (entry : option N) (amount : N) : option N :=
  Some (num_add (match entry with
                 | Some v => num_or v num_zero
                 | None => num_zero
                 end) amount).

(** [a + b] on property values: numbers are added, anything else makes a
    string. *)
Definition valuePlus (a b : JsValue N) : JsValue N :=
  match a, b with
  | VNumber x, VNumber y => VNumber (num_add x y)
  | _, _ => VText
  end.

(** [Object.values(o).reduce((a, b) => a + b, 0)], the values taken in the
    order the properties were created.  (The language lists integer-like
    names first; no statement below depends on the order when sums are
    exact, and the examples use no such name.) *)
Definition sumValues (o : JsObject N) : JsValue N :=
  fold_left valuePlus (map snd o) (VNumber num_zero).

(** C4 as stated. *)
Definition ReportAddsUp (userId : Z) (s : MemStorage N) : Prop :=
  let report := getSpendingReport userId s in
  sumValues (byCategory report) = VNumber (total report).

(** Arithmetic without rounding: what [+] and [||] satisfy on exact numbers
    and, in IEEE arithmetic, only as long as every sum is representable. *)
Class ExactSums : Prop := {
  add_comm : forall a b : N, num_add a b = num_add b a;
  add_assoc : forall a b c : N,
    num_add (num_add a b) c = num_add a (num_add b c);
  add_zero_l : forall a : N, num_add num_zero a = a;
  or_zero : forall a : N, num_or a num_zero = a
}.

(** What [+], [-], [>] and [||] satisfy on positive numbers, in exact
    arithmetic and in IEEE arithmetic alike (where the positive numbers
    include +infinity and exclude NaN). *)
Class PositiveNumbers : Prop := {
  positive_truthy : forall a : N,
    num_gt a num_zero = true -> num_truthy a = true;
  positive_add : forall a b : N,
    num_gt a num_zero = true -> num_gt b num_zero = true ->
    num_gt (num_add a b) num_zero = true;
  zero_add_positive : forall a : N,
    num_gt a num_zero = true -> num_add num_zero a = a;
  zero_not_positive : num_gt (num_zero : N) num_zero = false;
  difference_positive : forall a b : N,
    num_gt a num_zero = true -> num_gt b num_zero = true ->
    num_gt (num_sub b a) num_zero = num_gt b a;
  greater_asym : forall a b : N,
    num_gt a num_zero = true -> num_gt b num_zero = true ->
    num_gt a b = true -> num_gt b a = false;
  not_greater_trans : forall a b c : N,
    num_gt a num_zero = true -> num_gt b num_zero = true ->
    num_gt c num_zero = true ->
    num_gt b a = false -> num_gt c b = false -> num_gt c a = false
}.

(** C6 as stated; the amounts of the data model (section 3) are positive. *)
Definition SpendingByCategorySpec (userId : Z) (s : MemStorage N) : Prop :=
  let expenses := expensesOf userId s in
  let result := getSpendingByCategory userId s in
  let totalSpent := sumOf (map (@tx_amount N) expenses) in
  (* only the expense transactions of the user are considered *)
  (forall t, In t expenses <->
             In t (JsMap.values (transactions s))
             /\ tx_userId t = userId /\ tx_type t = "expense"%string)
  (* one record per distinct category *)
  /\ NoDup (map (@cs_category N) result)
  /\ (forall c, In c (map (@cs_category N) result) <->
                exists t, In t expenses /\ tx_category t = c)
  (* percentage 0 when the total is 0 *)
  /\ (totalSpent = num_zero ->
      forall r, In r result -> cs_percentage r = num_zero)
  /\ ((forall t, In t expenses -> num_gt (tx_amount t) num_zero = true) ->
      (* value and percentage of each record *)
      (forall r, In r result ->
         cs_value r = sumOf (amountsIn (cs_category r) expenses)
         /\ cs_percentage r
            = num_round (num_mul (num_div (cs_value r) totalSpent) num_hundred))
      (* sorted descending by value *)
      /\ StronglySorted (fun a b => num_gt (cs_value b) (cs_value a) = false)
           result).
End SpendingStatements.

Arguments ExactSums N {num}.
Arguments PositiveNumbers N {num}.

(** The record [getSpendingByCategory] builds from an entry of its map. *)
Definition summaryOf {N : Type} {num : JsNumber N} (totalSpent : N)
  (e : string * N) : CategorySummary N :=
  {| cs_category := fst e;
     cs_value := snd e;
     cs_percentage :=
       if num_gt totalSpent num_zero
       then num_round (num_mul (num_div (snd e) totalSpent) num_hundred)
       else num_zero |}.

(** C3 as stated, in the arithmetic of the program. *)
Definition PercentagesWithinOne (userId : Z) (s : MemStorage float) : Prop :=
  expensesOf userId s <> [] ->
  let p := sumOf (map (@cs_percentage float) (getSpendingByCategory userId s)) in
  PrimFloat.leb (PrimFloat.abs (PrimFloat.sub p 100%float)) 1%float = true.

(** C3 as the code has it, in exact arithmetic: the sum of the percentages
    is within half the number of records of 100. *)
Definition PercentagesWithinHalfEach (userId : Z) (s : MemStorage Qc) : Prop :=
  let result := getSpendingByCategory userId s in
  let p := this (sumOf (map (@cs_percentage Qc) result)) in
  let n := inject_Z (Z.of_nat (List.length result)) in
  (100 - n / 2 <= p /\ p <= 100 + n / 2)%Q.

(** A map from category to number, as the own properties of an object. *)
Definition numbers {N : Type} (m : StrMap.t N) : JsObject N :=
  map (fun e => (fst e, VNumber (snd e))) m.

(** The sum of a list of exact numbers, as a rational. *)
Definition qsum (l : list Qc) : Q := fold_right (fun x a => (this x + a)%Q) 0%Q l.

(* ================================================================== *)
(** * Stores and payloads used as examples *)
(* ================================================================== *)

Module Examples.
Local Open Scope string_scope.

Definition expense (userId : Z) (date : Date) (category : string) (amount : float)
  : InsertTransaction float :=
  {| it_userId := userId; it_amount := amount; it_category := category;
     it_description := "paid"; it_date := Some date; it_type := "expense";
     it_recurring := None; it_note := None |}.

Definition salary (userId : Z) (date : Date) (amount : float)
  : InsertIncome float :=
  {| ii_userId := userId; ii_source := "salary"; ii_amount := amount;
     ii_date := Some date; ii_recurring := Some true |}.

(** User 1 records two expenses, the older one first; user 2 one. *)
Definition history : list (Op float) :=
  [ OpCreateTransaction 5000 (expense 1 1000 "food" 50);
    OpCreateTransaction 5000 (expense 2 1500 "rent" 700);
    OpCreateTransaction 5000 (expense 1 2000 "transport" 20);
    OpCreateIncome 5000 (salary 1 1200 3000);
    OpCreateBudget {| ib_userId := 1; ib_category := "food";
                      ib_amount := 400%float; ib_period := "monthly" |};
    OpCreateGoal {| ig_userId := 2; ig_name := "bike";
                    ig_targetAmount := 900%float; ig_currentAmount := None;
                    ig_deadline := None |};
    OpCreateCategory 5000 {| ic_userId := 1; ic_name := "food";
                             ic_type := None |} ].

Definition twoUsers : MemStorage float := run history (newMemStorage float).

(** A [Partial<...>] with no property at all. *)
Definition noTransactionUpdate : PartialTransaction float :=
  {| pt_id := None; pt_userId := None; pt_amount := None; pt_category := None;
     pt_description := None; pt_date := None; pt_type := None;
     pt_recurring := None; pt_note := None |}.

Definition noIncomeUpdate : PartialIncome float :=
  {| pi_id := None; pi_userId := None; pi_source := None; pi_amount := None;
     pi_date := None; pi_recurring := None |}.

Definition noBudgetUpdate : PartialBudget float :=
  {| pb_id := None; pb_userId := None; pb_category := None; pb_amount := None;
     pb_period := None |}.

Definition noGoalUpdate : PartialGoal float :=
  {| pg_id := None; pg_userId := None; pg_name := None; pg_targetAmount := None;
     pg_currentAmount := None; pg_deadline := None |}.

(** [updateTransaction(1, { id: 2 })]. *)
Definition idTwo : PartialTransaction float :=
  {| pt_id := Some 2; pt_userId := None; pt_amount := None; pt_category := None;
     pt_description := None; pt_date := None; pt_type := None;
     pt_recurring := None; pt_note := None |}.

(** User 1 overwrites the [id] of the transaction 1 with the id of the
    transaction of user 2. *)
Definition overwritten : MemStorage float :=
  run [OpUpdateTransaction 1 idTwo] twoUsers.
End Examples.


Module SpendingExamples.
Local Open Scope string_scope.

(** The example of section 8, in exact arithmetic. *)
Definition exactExpense (date : Date) (category : string) (amount : Z)
  : InsertTransaction Qc :=
  {| it_userId := 1; it_amount := Q2Qc (inject_Z amount);
     it_category := category; it_description := "paid";
     it_date := Some date; it_type := "expense";
     it_recurring := None; it_note := None |}.

Definition sectionEight : MemStorage Qc :=
  run [ OpCreateTransaction 5000 (exactExpense 3000 "food" 50);
        OpCreateTransaction 5000 (exactExpense 2000 "food" 30);
        OpCreateTransaction 5000 (exactExpense 1000 "transport" 20) ]
      (newMemStorage Qc).

(** The example of section 8, in the arithmetic of the program. *)
Definition sectionEightFloat : MemStorage float :=
  run [ OpCreateTransaction 5000 (Examples.expense 1 3000 "food" 50);
        OpCreateTransaction 5000 (Examples.expense 1 2000 "food" 30);
        OpCreateTransaction 5000 (Examples.expense 1 1000 "transport" 20) ]
      (newMemStorage float).

(** Three expenses of 0.1, 0.3 and 0.5 in two categories. *)
Definition smallAmounts : MemStorage float :=
  run [ OpCreateTransaction 5000 (Examples.expense 1 3000 "food" 0.1);
        OpCreateTransaction 5000 (Examples.expense 1 2000 "rent" 0.3);
        OpCreateTransaction 5000 (Examples.expense 1 1000 "food" 0.5) ]
      (newMemStorage float).

(** One expense whose category is the name of a member of
    [Object.prototype]. *)
Definition protoCategory : MemStorage float :=
  run [ OpCreateTransaction 5000 (Examples.expense 1 3000 "__proto__" 50) ]
      (newMemStorage float).

Definition constructorCategory : MemStorage float :=
  run [ OpCreateTransaction 5000 (Examples.expense 1 3000 "constructor" 50) ]
      (newMemStorage float).

(** Seven expenses of 1, each in a category of its own. *)
Definition sevenCategories : MemStorage float :=
  run (map (fun c => OpCreateTransaction 5000 (Examples.expense 1 3000 c 1))
           ["a"; "b"; "c"; "d"; "e"; "f"; "g"])
      (newMemStorage float).

Definition sevenCategoriesExact : MemStorage Qc :=
  run (map (fun c => OpCreateTransaction 5000 (exactExpense 3000 c 1))
           ["a"; "b"; "c"; "d"; "e"; "f"; "g"])
      (newMemStorage Qc).
End SpendingExamples.

(* ================================================================== *)
(** * Strings as sequences of code units *)
(* ================================================================== *)

(** A string of the program is a sequence of UTF-16 code units.  The
    strings of this development are those whose code units are below 256,
    one [ascii] per code unit; on them [toLowerCase] maps [A]-[Z] and the
    capital letters of the Latin-1 block (U+00C0 to U+00DE, U+00D7
    excepted) to the letter 32 places further, and nothing else. *)

(** [s.charCodeAt(i)] of the unit at [i]. *)
Definition charCode (c : ascii) : Z := Z.of_N (N_of_ascii c).

Definition toLowerCaseUnit (c : ascii) : ascii :=
  let u := charCode c in
  if ((65 <=? u) && (u <=? 90))
     || ((192 <=? u) && (u <=? 222) && negb (u =? 215))
  then ascii_of_N (Z.to_N (u + 32))
  else c.

Fixpoint toLowerCase (s : string) : string :=
  match s with
  | EmptyString => EmptyString
  | String c s' => String (toLowerCaseUnit c) (toLowerCase s')
  end.

(** [a.slice(start, end)] on arrays and strings, for integer arguments: a
    negative index counts from the end, and both are clamped to the
    length. *)
Definition relativeIndex (len i : Z) : Z :=
  if i <? 0 then Z.max (len + i) 0 else Z.min i len.

Definition jsSlice {A : Type} (start finish : Z) (l : list A) : list A :=
  let len := Z.of_nat (List.length l) in
  let from := relativeIndex len start in
  let to := relativeIndex len finish in
  firstn (Z.to_nat (to - from)) (skipn (Z.to_nat from) l).

Definition strSlice (start finish : Z) (s : string) : string :=
  string_of_list_ascii (jsSlice start finish (list_ascii_of_string s)).

(* ================================================================== *)
(** * The rest of the storage interface *)
(* ================================================================== *)

(** [getCategoryByName]: the first category of the user whose name is the
    given one up to [toLowerCase]. *)
Definition getCategoryByName {N : Type} (userId : Z) (name : string)
  (s : MemStorage N) : option Category :=
  find (fun category =>
          (cat_userId category =? userId)
          && String.eqb (toLowerCase (cat_name category)) (toLowerCase name))
       (JsMap.values (categories s)).

(** ** What the statements about the storage methods say *)

(** A [delete] method on the table read by [lookup]: it answers whether a
    row was held under the id, no row is held under it afterwards, every
    other id reads as before, and a second call finds nothing to delete. *)
Definition DeletesTheRow {S V : Type} (lookup : Z -> S -> option V)
  (delete : Z -> S -> bool * S) (id : Z) (s : S) : Prop :=
  let s' := snd (delete id s) in
  (fst (delete id s) = true <-> lookup id s <> None)
  /\ lookup id s' = None
  /\ (forall id', id' <> id -> lookup id' s' = lookup id' s)
  /\ delete id s' = (false, s').

(** The fields no notification method assigns but the map of the
    notifications. *)
Definition frameOfNotifications {N : Type} (s : MemStorage N) :=
  (users s, transactions s, categories s, incomes s, budgets s, goals s,
   (currentUserId s, currentNotificationId s, currentTransactionId s,
    currentCategoryId s, currentIncomeId s, currentBudgetId s,
    currentGoalId s)).

(** The expense transactions of a user in the insertion order of the map:
    all that the two aggregations read of the store. *)
Definition expenseRows {N : Type} (userId : Z) (s : MemStorage N)
  : list (Transaction N) :=
  filter (fun t => String.eqb (tx_type t) "expense")
         (ownedRows (@tx_userId N) userId (transactions s)).

(** The rows of a list that carry a given date. *)
Definition datedAt {A : Type} (date : A -> Date) (d : Date) (l : list A)
  : list A :=
  filter (fun x => date x =? d) l.

(** The users, the notifications and their counters: what only
    [createUser] and the notification methods assign. *)
Definition accountsOf {N : Type} (s : MemStorage N) :=
  (users s, notifications s, currentUserId s, currentNotificationId s).

(** The ids [1, 2, ..., c - 1]. *)
Definition idsBelow (c : Z) : list Z :=
  map Z.of_nat (seq 1 (Z.to_nat (c - 1))).

(** The ids in use for users and for notifications are those handed out so
    far: [1] to the counter, in order. *)
Definition ConsecutiveIds {N : Type} (s : MemStorage N) : Prop :=
  (1 <= currentUserId s /\ JsMap.keys (users s) = idsBelow (currentUserId s))
  /\ (1 <= currentNotificationId s
      /\ JsMap.keys (notifications s) = idsBelow (currentNotificationId s)).

(* ================================================================== *)
(** * The HTTP routes ([registerRoutes]) *)
(* ================================================================== *)

(** The handlers of the REST API, which call the storage methods.

    Conventions of the embedding.
    - A request is what its handler reads of it: the route, the value of
      [parseInt(req.params.id)] ([None] for [NaN]), and the body.  For a
      route that validates, the body is the outcome of [schema.parse]:
      [None] when it throws a [ZodError], else the parsed object.  The
      handlers parse [{ ...req.body, userId: user.id }]: whatever [userId]
      the body carries is replaced by the caller's before the storage
      method is called.
    - The session of a client is the value [passport.serializeUser] stored
      in it: the id of the user who logged in, or nothing.  For every
      request [passport.deserializeUser] looks the id up with [getUser];
      [req.isAuthenticated()] holds when a user was found, who is then
      [req.user].  The expiry of a session is not modelled.
    - A response is its status code and the value given to [res.json].
    - A handler awaits nothing but storage methods, so a request is handled
      from start to end before the next one.  [clock k] is the reading of
      the system clock at the [k]-th place of the handler that may take
      one.
    - The body of a [PATCH], which the handlers pass on as it comes, is
      taken at the type the storage method declares for it
      ([Partial<...>]).
    - The CSV download, whose body is made by the date and number
      formatting of the language, is left out; [toFixed2 x] stands for
      [x.toFixed(2)]. *)

Section Routes.
Context (N : Type) {num : JsNumber N}.
Variable toFixed2 : N -> string.

(** [const { password, ...userWithoutPassword } = user] *)
Record PublicUser := {
  pu_id : Z;
  pu_username : string;
  pu_name : string;
  pu_email : string;
  pu_createdAt : Date
}.

Definition withoutPassword (user : User) : PublicUser :=
  {| pu_id := user_id user;
     pu_username := user_username user;
     pu_name := user_name user;
     pu_email := user_email user;
     pu_createdAt := user_createdAt user |}.

(** The values the handlers give to [res.json]. *)
Inductive Json :=
| JsonMessage (message : string)
| JsonValidationError
| JsonUser (user : PublicUser)
| JsonNotification (notification : Notification)
| JsonNotifications (notifications : list Notification)
| JsonCategory (category : Category)
| JsonCategories (categories : list Category)
| JsonTransaction (transaction : Transaction N)
| JsonUpdatedTransaction (transaction : option (Transaction N))
| JsonTransactions (transactions : list (Transaction N))
| JsonIncome (income : Income N)
| JsonIncomes (incomes : list (Income N))
| JsonBudget (budget : Budget N)
| JsonBudgets (budgets : list (Budget N))
| JsonGoal (goal : Goal N)
| JsonGoals (goals : list (Goal N))
| JsonInsights (insights : list (CategorySummary N))
| JsonReport (report : SpendingReport N)
| JsonBackup (backup : Backup N).

Record Response := {
  res_status : Z;
  res_body : Json
}.

Definition reply (status : Z) (message : string) : Response :=
  {| res_status := status; res_body := JsonMessage message |}.

Definition ok (body : Json) : Response :=
  {| res_status := 200; res_body := body |}.

Definition created (body : Json) : Response :=
  {| res_status := 201; res_body := body |}.

(** [handleZodError] on a [ZodError], and on any other exception. *)
Definition validationError : Response :=
  {| res_status := 400; res_body := JsonValidationError |}.

Definition internalError : Response := reply 500 "Internal server error".

(** [loginSchema]. *)
Record LoginUser := {
  lu_username : string;
  lu_password : string
}.

Inductive Request :=
| PostRegister (body : option InsertUser)
| PostLogin (body : option LoginUser)
| PostLogout
| GetMe
| GetNotifications
| PostNotificationRead (id : option Z)
| PostNotificationsReadAll
| PostNotification (body : option InsertNotification)
| GetCategories
| PostCategory (body : option InsertCategory)
| GetTransactions
| PostTransaction (body : option (InsertTransaction N))
| GetTransaction (id : option Z)
| PatchTransaction (id : option Z) (body : PartialTransaction N)
| DeleteTransaction (id : option Z)
| GetIncomes
| PostIncome (body : option (InsertIncome N))
| GetBudgets
| PostBudget (body : option (InsertBudget N))
| PatchBudget (id : option Z) (body : PartialBudget N)
| DeleteBudget (id : option Z)
| GetGoals
| PostGoal (body : option (InsertGoal N))
| PatchGoal (id : option Z) (body : PartialGoal N)
| DeleteGoal (id : option Z)
| GetInsights
| GetReport
| PostBackup
| PostRestore (data : RestoreData N).

Definition Session := option Z.

(** [passport.deserializeUser]. *)
Definition deserializeUser (session : Session) (s : MemStorage N) : option User :=
  match session with
  | Some id => getUser id s
  | None => None
  end.

(** [isAuthenticated], in front of a handler. *)
Definition isAuthenticated (session : Session) (s : MemStorage N)
  (next : User -> Response * MemStorage N) : Response * MemStorage N :=
  match deserializeUser session s with
  | Some user => next user
  | None => (reply 401 "Unauthorized", s)
  end.

(** [{ ...body, userId: user.id }] at each insert type. *)
Definition notificationOf (user : User) (body : InsertNotification)
  : InsertNotification :=
  {| in_userId := user_id user;
     in_message := in_message body;
     in_read := in_read body |}.

Definition categoryOf (user : User) (body : InsertCategory) : InsertCategory :=
  {| ic_userId := user_id user;
     ic_name := ic_name body;
     ic_type := ic_type body |}.

Definition transactionOf (user : User) (body : InsertTransaction N)
  : InsertTransaction N :=
  {| it_userId := user_id user;
     it_amount := it_amount body;
     it_category := it_category body;
     it_description := it_description body;
     it_date := it_date body;
     it_type := it_type body;
     it_recurring := it_recurring body;
     it_note := it_note body |}.

Definition incomeOf (user : User) (body : InsertIncome N) : InsertIncome N :=
  {| ii_userId := user_id user;
     ii_source := ii_source body;
     ii_amount := ii_amount body;
     ii_date := ii_date body;
     ii_recurring := ii_recurring body |}.

Definition budgetOf (user : User) (body : InsertBudget N) : InsertBudget N :=
  {| ib_userId := user_id user;
     ib_category := ib_category body;
     ib_amount := ib_amount body;
     ib_period := ib_period body |}.

Definition goalOf (user : User) (body : InsertGoal N) : InsertGoal N :=
  {| ig_userId := user_id user;
     ig_name := ig_name body;
     ig_targetAmount := ig_targetAmount body;
     ig_currentAmount := ig_currentAmount body;
     ig_deadline := ig_deadline body |}.

(** ** Auth routes *)

Definition welcome (user : User) : InsertNotification :=
  {| in_userId := user_id user;
     in_message := "Welcome to FinTrack! Start by adding your first transaction.";
     in_read := Some false |}.

(** [POST /api/register] *)
Definition register (clock : nat -> Date) (body : option InsertUser)
  (s : MemStorage N) : Response * MemStorage N :=
  match body with
  | None => (validationError, s)
  | Some userData =>
      match getUserByUsername (iu_username userData) s with
      | Some _ => (reply 400 "Username already taken", s)
      | None =>
          match getUserByEmail (iu_email userData) s with
          | Some _ => (reply 400 "Email already registered", s)
          | None =>
              let (user, s) := createUser (clock 0%nat) userData s in
              let (_, s) := createNotification (clock 1%nat) (welcome user) s in
              (created (JsonUser (withoutPassword user)), s)
          end
      end
  end.

(** The callback of the [LocalStrategy]: the user to log in, if any. *)
Definition verify (username password : string) (s : MemStorage N) : option User :=
  match getUserByUsername username s with
  | None => None
  | Some user =>
      if String.eqb (user_password user) password then Some user else None
  end.

(** [POST /api/login]: on success [req.logIn] stores the id of the user in
    the session. *)
Definition login (body : option LoginUser) (session : Session) (s : MemStorage N)
  : Response * Session :=
  match body with
  | None => (validationError, session)
  | Some credentials =>
      match verify (lu_username credentials) (lu_password credentials) s with
      | None => (reply 401 "Invalid username or password", session)
      | Some user => (ok (JsonUser (withoutPassword user)), Some (user_id user))
      end
  end.

(** ** Notification routes *)

Definition markRead_route (id : option Z) (s : MemStorage N)
  : Response * MemStorage N :=
  match id with
  | None => (reply 404 "Notification not found", s)
  | Some id =>
      match markNotificationAsRead id s with
      | (None, s) => (reply 404 "Notification not found", s)
      | (Some notification, s) => (ok (JsonNotification notification), s)
      end
  end.

Definition postNotification (clock : nat -> Date) (user : User)
  (body : option InsertNotification) (s : MemStorage N)
  : Response * MemStorage N :=
  match body with
  | None => (validationError, s)
  | Some body =>
      let (notification, s) :=
        createNotification (clock 0%nat) (notificationOf user body) s in
      (created (JsonNotification notification), s)
  end.

(** ** Category routes *)

Definition postCategory (clock : nat -> Date) (user : User)
  (body : option InsertCategory) (s : MemStorage N) : Response * MemStorage N :=
  match body with
  | None => (validationError, s)
  | Some body =>
      let categoryData := categoryOf user body in
      match getCategoryByName (user_id user) (ic_name categoryData) s with
      | Some _ => (reply 400 "Category with this name already exists", s)
      | None =>
          let (category, s) := createCategory (clock 0%nat) categoryData s in
          (created (JsonCategory category), s)
      end
  end.

(** ** Transaction routes *)

Definition largeExpense (user : User) (transaction : Transaction N)
  : InsertNotification :=
  {| in_userId := user_id user;
     in_message :=
       "Large expense of $" ++ toFixed2 (tx_amount transaction)
       ++ " recorded for " ++ tx_category transaction ++ ".";
     in_read := Some false |}.

Definition postTransaction (clock : nat -> Date) (user : User)
  (body : option (InsertTransaction N)) (s : MemStorage N)
  : Response * MemStorage N :=
  match body with
  | None => (validationError, s)
  | Some body =>
      let (transaction, s) :=
        createTransaction (clock 0%nat) (transactionOf user body) s in
      let response := created (JsonTransaction transaction) in
      if String.eqb (tx_type transaction) "expense"
         && num_gt (tx_amount transaction) num_hundred
      then (response,
            snd (createNotification (clock 1%nat) (largeExpense user transaction) s))
      else (response, s)
  end.

(** The look-up and the ownership check the three routes on
    [/api/transactions/:id] start with. *)
Definition ownTransaction (user : User) (id : option Z) (s : MemStorage N)
  (next : Z -> Transaction N -> Response * MemStorage N)
  : Response * MemStorage N :=
  match id with
  | None => (reply 404 "Transaction not found", s)
  | Some id =>
      match getTransactionById id s with
      | None => (reply 404 "Transaction not found", s)
      | Some transaction =>
          if tx_userId transaction =? user_id user
          then next id transaction
          else (reply 403 "Forbidden", s)
      end
  end.

Definition getTransaction (user : User) (id : option Z) (s : MemStorage N)
  : Response * MemStorage N :=
  ownTransaction user id s
    (fun _ transaction => (ok (JsonTransaction transaction), s)).

(** [res.json(updatedTransaction)], of type [Transaction | undefined]. *)
Definition patchTransaction (user : User) (id : option Z)
  (body : PartialTransaction N) (s : MemStorage N) : Response * MemStorage N :=
  ownTransaction user id s
    (fun id _ =>
       let (updatedTransaction, s) := updateTransaction id body s in
       (ok (JsonUpdatedTransaction updatedTransaction), s)).

Definition deleteTransaction_route (user : User) (id : option Z) (s : MemStorage N)
  : Response * MemStorage N :=
  ownTransaction user id s
    (fun id _ =>
       (reply 200 "Transaction deleted successfully", snd (deleteTransaction id s))).

(** ** Income, budget and goal routes *)

Definition postIncome (clock : nat -> Date) (user : User)
  (body : option (InsertIncome N)) (s : MemStorage N) : Response * MemStorage N :=
  match body with
  | None => (validationError, s)
  | Some body =>
      let (income, s) := createIncome (clock 0%nat) (incomeOf user body) s in
      (created (JsonIncome income), s)
  end.

Definition postBudget (user : User) (body : option (InsertBudget N))
  (s : MemStorage N) : Response * MemStorage N :=
  match body with
  | None => (validationError, s)
  | Some body =>
      let (budget, s) := createBudget (budgetOf user body) s in
      (created (JsonBudget budget), s)
  end.

Definition patchBudget (id : option Z) (body : PartialBudget N) (s : MemStorage N)
  : Response * MemStorage N :=
  match id with
  | None => (reply 404 "Budget not found", s)
  | Some id =>
      match updateBudget id body s with
      | (None, s) => (reply 404 "Budget not found", s)
      | (Some budget, s) => (ok (JsonBudget budget), s)
      end
  end.

Definition deleteBudget_route (id : option Z) (s : MemStorage N)
  : Response * MemStorage N :=
  match id with
  | None => (reply 404 "Budget not found", s)
  | Some id =>
      let (deleted, s) := deleteBudget id s in
      if deleted then (reply 200 "Budget deleted successfully", s)
      else (reply 404 "Budget not found", s)
  end.

Definition postGoal (user : User) (body : option (InsertGoal N))
  (s : MemStorage N) : Response * MemStorage N :=
  match body with
  | None => (validationError, s)
  | Some body =>
      let (goal, s) := createGoal (goalOf user body) s in
      (created (JsonGoal goal), s)
  end.

Definition patchGoal (id : option Z) (body : PartialGoal N) (s : MemStorage N)
  : Response * MemStorage N :=
  match id with
  | None => (reply 404 "Goal not found", s)
  | Some id =>
      match updateGoal id body s with
      | (None, s) => (reply 404 "Goal not found", s)
      | (Some updatedGoal, s) => (ok (JsonGoal updatedGoal), s)
      end
  end.

Definition deleteGoal_route (id : option Z) (s : MemStorage N)
  : Response * MemStorage N :=
  match id with
  | None => (reply 404 "Goal not found", s)
  | Some id =>
      let (deleted, s) := deleteGoal id s in
      if deleted then (reply 200 "Goal deleted successfully", s)
      else (reply 404 "Goal not found", s)
  end.

(** ** Backup and restore *)

(** [restoreSchema.parse]: [data] has to be an object whose five
    properties are arrays; the elements are not looked at. *)
Definition parseRestore (data : RestoreData N) : option (RestoreObject N) :=
  match data with
  | DataNullish => None
  | DataObject o =>
      match d_transactions o, d_incomes o, d_budgets o, d_goals o,
            d_categories o with
      | Some _, Some _, Some _, Some _, Some _ => Some o
      | _, _, _, _, _ => None
      end
  end.

Definition payloadSize (o : RestoreObject N) : nat :=
  (List.length (arrayOf (d_transactions o))
   + List.length (arrayOf (d_incomes o))
   + List.length (arrayOf (d_budgets o))
   + List.length (arrayOf (d_goals o))
   + List.length (arrayOf (d_categories o)))%nat.

Definition restored (user : User) : InsertNotification :=
  {| in_userId := user_id user;
     in_message := "Your data has been successfully restored.";
     in_read := Some false |}.

(** [POST /api/restore]: an exception of [restoreBackup] is not a
    [ZodError], so [handleZodError] answers 500. *)
Definition postRestore (clock : nat -> Date) (user : User) (data : RestoreData N)
  (s : MemStorage N) : Response * MemStorage N :=
  match parseRestore data with
  | None => (validationError, s)
  | Some o =>
      match restoreBackup clock (user_id user) (DataObject o) s with
      | (Threw, s) => (internalError, s)
      | (Returned, s) =>
          (reply 200 "Data restored successfully",
           snd (createNotification (clock (payloadSize o)) (restored user) s))
      end
  end.

(** ** The server: a request of a client, given its session *)

Definition handle (clock : nat -> Date) (session : Session) (request : Request)
  (s : MemStorage N) : Response * Session * MemStorage N :=
  let guarded next :=
    let (response, s) := isAuthenticated session s next in
    (response, session, s) in
  match request with
  | PostRegister body =>
      let (response, s) := register clock body s in (response, session, s)
  | PostLogin body =>
      let (response, session) := login body session s in (response, session, s)
  | PostLogout => (reply 200 "Logged out successfully", None, s)
  | GetMe => guarded (fun user => (ok (JsonUser (withoutPassword user)), s))
  | GetNotifications =>
      guarded (fun user =>
        (ok (JsonNotifications (getNotifications (user_id user) s)), s))
  | PostNotificationRead id => guarded (fun _ => markRead_route id s)
  | PostNotificationsReadAll =>
      guarded (fun user =>
        (reply 200 "All notifications marked as read",
         markAllNotificationsAsRead (user_id user) s))
  | PostNotification body => guarded (fun user => postNotification clock user body s)
  | GetCategories =>
      guarded (fun user => (ok (JsonCategories (getCategories (user_id user) s)), s))
  | PostCategory body => guarded (fun user => postCategory clock user body s)
  | GetTransactions =>
      guarded (fun user =>
        (ok (JsonTransactions (getTransactions (user_id user) s)), s))
  | PostTransaction body => guarded (fun user => postTransaction clock user body s)
  | GetTransaction id => guarded (fun user => getTransaction user id s)
  | PatchTransaction id body => guarded (fun user => patchTransaction user id body s)
  | DeleteTransaction id => guarded (fun user => deleteTransaction_route user id s)
  | GetIncomes =>
      guarded (fun user => (ok (JsonIncomes (getIncomes (user_id user) s)), s))
  | PostIncome body => guarded (fun user => postIncome clock user body s)
  | GetBudgets =>
      guarded (fun user => (ok (JsonBudgets (getBudgets (user_id user) s)), s))
  | PostBudget body => guarded (fun user => postBudget user body s)
  | PatchBudget id body => guarded (fun _ => patchBudget id body s)
  | DeleteBudget id => guarded (fun _ => deleteBudget_route id s)
  | GetGoals =>
      guarded (fun user => (ok (JsonGoals (getGoals (user_id user) s)), s))
  | PostGoal body => guarded (fun user => postGoal user body s)
  | PatchGoal id body => guarded (fun _ => patchGoal id body s)
  | DeleteGoal id => guarded (fun _ => deleteGoal_route id s)
  | GetInsights =>
      guarded (fun user =>
        (ok (JsonInsights (getSpendingByCategory (user_id user) s)), s))
  | GetReport =>
      guarded (fun user => (ok (JsonReport (getSpendingReport (user_id user) s)), s))
  | PostBackup =>
      guarded (fun user => (ok (JsonBackup (createBackup (user_id user) s)), s))
  | PostRestore data => guarded (fun user => postRestore clock user data s)
  end.

(** A request as it reaches the server: with the session of its client and
    the readings of the clock taken while it is handled. *)
Record Call := {
  call_clock : nat -> Date;
  call_session : Session;
  call_request : Request
}.

Definition serve (s : MemStorage N) (call : Call) : MemStorage N :=
  snd (handle (call_clock call) (call_session call) (call_request call) s).

(** The store after a sequence of requests, of any clients. *)
Definition serveAll (calls : list Call) (s : MemStorage N) : MemStorage N :=
  fold_left serve calls s.

(** The storage operations that change the store while a request is
    handled. *)
Definition effects (clock : nat -> Date) (session : Session) (request : Request)
  (s : MemStorage N) : list (Op N) :=
  match request with
  | PostRegister (Some userData) =>
      match getUserByUsername (iu_username userData) s,
            getUserByEmail (iu_email userData) s with
      | None, None =>
          [ OpCreateUser (clock 0%nat) userData;
            OpCreateNotification (clock 1%nat)
              (welcome (fst (createUser (clock 0%nat) userData s))) ]
      | _, _ => []
      end
  | PostRegister None | PostLogin _ | PostLogout => []
  | _ =>
      match deserializeUser session s with
      | None => []
      | Some user =>
          let owned id :=
            match getTransactionById id s with
            | Some transaction => tx_userId transaction =? user_id user
            | None => false
            end in
          match request with
          | PostNotificationRead (Some id) => [OpMarkNotificationAsRead id]
          | PostNotificationsReadAll => [OpMarkAllNotificationsAsRead (user_id user)]
          | PostNotification (Some body) =>
              [OpCreateNotification (clock 0%nat) (notificationOf user body)]
          | PostCategory (Some body) =>
              match getCategoryByName (user_id user) (ic_name body) s with
              | Some _ => []
              | None => [OpCreateCategory (clock 0%nat) (categoryOf user body)]
              end
          | PostTransaction (Some body) =>
              let transaction :=
                fst (createTransaction (clock 0%nat) (transactionOf user body) s) in
              OpCreateTransaction (clock 0%nat) (transactionOf user body)
              :: (if String.eqb (tx_type transaction) "expense"
                     && num_gt (tx_amount transaction) num_hundred
                  then [OpCreateNotification (clock 1%nat)
                          (largeExpense user transaction)]
                  else [])
          | PatchTransaction (Some id) body =>
              if owned id then [OpUpdateTransaction id body] else []
          | DeleteTransaction (Some id) =>
              if owned id then [OpDeleteTransaction id] else []
          | PostIncome (Some body) =>
              [OpCreateIncome (clock 0%nat) (incomeOf user body)]
          | PostBudget (Some body) => [OpCreateBudget (budgetOf user body)]
          | PatchBudget (Some id) body => [OpUpdateBudget id body]
          | DeleteBudget (Some id) => [OpDeleteBudget id]
          | PostGoal (Some body) => [OpCreateGoal (goalOf user body)]
          | PatchGoal (Some id) body => [OpUpdateGoal id body]
          | DeleteGoal (Some id) => [OpDeleteGoal id]
          | PostRestore data =>
              match parseRestore data with
              | Some o =>
                  [ OpRestoreBackup clock (user_id user) (DataObject o);
                    OpCreateNotification (clock (payloadSize o)) (restored user) ]
              | None => []
              end
          | _ => []
          end
      end
  end.

End Routes.

Arguments PostRegister {N}.
Arguments PostLogin {N}.
Arguments PostNotification {N}.
Arguments PostCategory {N}.
Arguments reply {N}.
Arguments validationError {N}.
Arguments internalError {N}.
Arguments PostLogout {N}.
Arguments GetMe {N}.
Arguments GetNotifications {N}.
Arguments PostNotificationRead {N}.
Arguments PostNotificationsReadAll {N}.
Arguments GetCategories {N}.
Arguments GetTransactions {N}.
Arguments GetTransaction {N}.
Arguments DeleteTransaction {N}.
Arguments GetIncomes {N}.
Arguments GetBudgets {N}.
Arguments DeleteBudget {N}.
Arguments GetGoals {N}.
Arguments DeleteGoal {N}.
Arguments GetInsights {N}.
Arguments GetReport {N}.
Arguments PostBackup {N}.
Arguments JsonMessage {N}.
Arguments JsonValidationError {N}.
Arguments JsonUser {N}.
Arguments JsonNotification {N}.
Arguments JsonNotifications {N}.
Arguments JsonCategory {N}.
Arguments JsonCategories {N}.

(** ** What the statements about the routes say *)

(** No two users share a username or an email address. *)
Definition UniqueAccounts {N : Type} (s : MemStorage N) : Prop :=
  NoDup (map user_username (JsMap.values (users s)))
  /\ NoDup (map user_email (JsMap.values (users s))).

(** No user has two categories whose names agree up to [toLowerCase]. *)
Definition CategoryNamesDistinct {N : Type} (s : MemStorage N) : Prop :=
  NoDup (map (fun category => (cat_userId category, toLowerCase (cat_name category)))
             (JsMap.values (categories s))).

(** Every notification is addressed to a user that exists. *)
Definition NotificationsAddressed {N : Type} (s : MemStorage N) : Prop :=
  forall id n, In (id, n) (notifications s) -> notif_userId n < currentUserId s.

(** An operation that adds a user. *)
Definition createsUser {N : Type} (op : Op N) : bool :=
  match op with
  | OpCreateUser _ _ => true
  | _ => false
  end.

(** An operation that adds no notification, or one for a user that exists. *)
Definition addressedOp {N : Type} (s : MemStorage N) (op : Op N) : Prop :=
  match op with
  | OpCreateNotification _ n => in_userId n < currentUserId s
  | _ => True
  end.

(** An operation that cannot touch the transaction held under [id]: any
    but an update or a deletion of that id, or a restore. *)
Definition sparesTransaction {N : Type} (id : Z) (op : Op N) : Prop :=
  match op with
  | OpUpdateTransaction id' _ | OpDeleteTransaction id' => id' <> id
  | OpRestoreBackup _ _ _ => False
  | _ => True
  end.

(* ================================================================== *)
(** * The client: helpers of [lib/utils] and of the dashboard *)
(* ================================================================== *)

(** ** [truncateText], for an integer [maxLength] *)

Definition truncateText (text : string) (maxLength : Z) : string :=
  if Z.of_nat (String.length text) <=? maxLength then text
  else (strSlice 0 (maxLength - 3) text ++ "...")%string.

(** ** [stringToColor] *)

(** [ToInt32]: the integer of the same residue modulo 2^32 between -2^31
    and 2^31 - 1. *)
Definition toInt32 (x : Z) : Z := (x + 2 ^ 31) mod 2 ^ 32 - 2 ^ 31.

(** [x << k], [x >> k] and [x & y]. *)
Definition shiftLeft32 (x k : Z) : Z :=
  toInt32 (Z.shiftl (toInt32 x) (k mod 32)).

Definition shiftRight32 (x k : Z) : Z :=
  Z.shiftr (toInt32 x) (k mod 32).

Definition and32 (x y : Z) : Z := toInt32 (Z.land (toInt32 x) (toInt32 y)).

Definition hexDigit (d : Z) : ascii :=
  nth (Z.to_nat d) (list_ascii_of_string "0123456789abcdef") "0"%char.

Fixpoint hexDigits (fuel : nat) (n : Z) : string :=
  match fuel with
  | O => EmptyString
  | S fuel' =>
      ((if (n <? 16)%Z then EmptyString else hexDigits fuel' (n / 16)%Z)
       ++ String (hexDigit (n mod 16)%Z) EmptyString)%string
  end.

(** [n.toString(16)] for an integer [n >= 0]. *)
Definition toString16 (n : Z) : string :=
  hexDigits (S (Z.to_nat (Z.log2 n))) n.

(** [s.substr(start)]: up to the end of the string. *)
Definition substr (start : Z) (s : string) : string :=
  strSlice start (Z.of_nat (String.length s)) s.

(** The body of the first loop: [hash] is a double that holds an integer;
    the additions are exact as long as it stays below 2^53 in absolute
    value, which it does for every string of at most 2^21 code units (see
    [stringToColor_is_a_polynomial_hash]). *)
Definition hashStep (hash : Z) (c : ascii) : Z :=
  charCode c + (shiftLeft32 hash 5 - hash).

Definition hashOf (str : string) : Z :=
  fold_left hashStep (list_ascii_of_string str) 0.

(** The body of the second loop. *)
Definition colorStep (hash : Z) (color : string) (i : Z) : string :=
  let value := and32 (shiftRight32 hash (i * 8)) 255 in
  (color ++ substr (-2)%Z ("00" ++ toString16 value))%string.

Definition stringToColor (str : string) : string :=
  let hash := hashOf str in
  fold_left (colorStep hash) [0; 1; 2] "#"%string.

(** The hash of [java.lang.String.hashCode], before it is reduced. *)
Definition polynomialHash (str : string) : Z :=
  fold_left (fun h c => 31 * h + charCode c) (list_ascii_of_string str) 0.

(** Two hexadecimal digits for a byte. *)
Definition byteHex (b : Z) : string :=
  String (hexDigit (b / 16)) (String (hexDigit (b mod 16)) EmptyString).

(** ** [getRelativeTime] *)

(** [`${n}`] for an integer. *)
Definition decimal (n : Z) : string := NilZero.string_of_int (Z.to_int n).

(** [n > 1 ? 's' : ''] *)
Definition plural (n : Z) : string :=
  if 1 <? n then "s"%string else EmptyString.

Section RelativeTime.
(** [formatDate], which calls [format] of [date-fns]. *)
Variable formatDate : Date -> string.

(** [now] is the reading of the clock; [Math.floor] of a quotient of
    integers is the quotient of [Z]. *)
Definition getRelativeTime (now date : Date) : string :=
  let seconds := (now - date) / 1000 in
  if seconds <? 60 then "Just now"%string
  else
    let minutes := seconds / 60 in
    if minutes <? 60
    then (decimal minutes ++ " minute" ++ plural minutes ++ " ago")%string
    else
      let hours := minutes / 60 in
      if hours <? 24
      then (decimal hours ++ " hour" ++ plural hours ++ " ago")%string
      else
        let days := hours / 24 in
        if days <? 7
        then (decimal days ++ " day" ++ plural days ++ " ago")%string
        else formatDate date.
End RelativeTime.

(** ** The dashboard *)

Section Dashboard.
Context (N : Type) {num : JsNumber N}.

(** The statistics of the page [Dashboard]. *)
Definition totalBalance (transactions : list (Transaction N)) : N :=
  fold_left
    (fun sum transaction =>
       if String.eqb (tx_type transaction) "income"
       then num_add sum (tx_amount transaction)
       else num_sub sum (tx_amount transaction))
    transactions num_zero.

Definition income (transactions : list (Transaction N)) : N :=
  fold_left (fun sum tx => num_add sum (tx_amount tx))
    (filter (fun tx => String.eqb (tx_type tx) "income") transactions) num_zero.

Definition expenses (transactions : list (Transaction N)) : N :=
  fold_left (fun sum tx => num_add sum (tx_amount tx))
    (filter (fun tx => String.eqb (tx_type tx) "expense") transactions) num_zero.

Definition savingsRate (transactions : list (Transaction N)) : N :=
  if num_gt (income transactions) num_zero
  then num_mul
         (num_div (num_sub (income transactions) (expenses transactions))
                  (income transactions))
         num_hundred
  else num_zero.

(** [RecentTransactions]: [transactions.sort(...).slice(0, limit)].  The
    sort is in place: the second component is the array of the caller
    after the call. *)
Definition recentTransactions (limit : Z) (transactions : list (Transaction N))
  : list (Transaction N) * list (Transaction N) :=
  let sorted := jsSort (fun a b => tx_date a <? tx_date b) transactions in
  (jsSlice 0 limit sorted, sorted).

End Dashboard.

(* ================================================================== *)
(** * A household of two users, served over the API *)
(* ================================================================== *)

Module ApiExamples.
Local Open Scope string_scope.

(** [x.toFixed(2)] of an exact number below 10^21 in absolute value: the
    nearest multiple of 1/100, the larger one of two, with its sign. *)
Definition toFixed2 (x : Qc) : string :=
  let n := Qfloor (Qabs (this x) * inject_Z 100 + (1 # 2))%Q in
  (match (this x ?= 0)%Q with Lt => "-" | _ => EmptyString end)
  ++ decimal (n / 100) ++ "." ++ decimal (n mod 100 / 10) ++ decimal (n mod 10).

(** A clock that advances by one millisecond per reading. *)
Definition tick (t : Date) : nat -> Date := fun k => t + Z.of_nat k.

Definition ada : InsertUser :=
  {| iu_username := "ada"; iu_name := "Ada"; iu_email := "ada@example.org";
     iu_password := "analytical" |}.

Definition bob : InsertUser :=
  {| iu_username := "bob"; iu_name := "Bob"; iu_email := "bob@example.org";
     iu_password := "builder" |}.

Definition carol : InsertUser :=
  {| iu_username := "carol"; iu_name := "Carol"; iu_email := "carol@example.org";
     iu_password := "chorus" |}.

(** A body for [POST /api/transactions]; the [userId] it carries is not
    the caller's. *)
Definition spend (category : string) (amount : Z) : InsertTransaction Qc :=
  {| it_userId := 99; it_amount := Q2Qc (inject_Z amount);
     it_category := category; it_description := "paid"; it_date := None;
     it_type := "expense"; it_recurring := None; it_note := None |}.

Definition call (t : Date) (session : Session) (request : Request Qc) : Call Qc :=
  {| call_clock := tick t; call_session := session; call_request := request |}.

(** Ada and Bob register; Ada records her rent, a budget and a category,
    Bob his groceries and a goal. *)
Definition calls : list (Call Qc) :=
  [ call 1000 None (PostRegister (Some ada));
    call 2000 None (PostRegister (Some bob));
    call 3000 (Some 1) (PostTransaction (Some (spend "rent" 250)));
    call 4000 (Some 2) (PostTransaction (Some (spend "food" 40)));
    call 5000 (Some 1)
      (PostBudget (Some {| ib_userId := 1; ib_category := "food";
                           ib_amount := Q2Qc (inject_Z 400);
                           ib_period := "monthly" |}));
    call 6000 (Some 2)
      (PostGoal (Some {| ig_userId := 2; ig_name := "bike";
                         ig_targetAmount := Q2Qc (inject_Z 900);
                         ig_currentAmount := None; ig_deadline := None |}));
    call 7000 (Some 1)
      (PostCategory (Some {| ic_userId := 1; ic_name := "Food";
                             ic_type := None |})) ].

Definition household : MemStorage Qc := serveAll toFixed2 calls (newMemStorage Qc).

(** The rows of Ada in [household]. *)
Definition adaUser : User :=
  {| user_id := 1; user_username := "ada"; user_name := "Ada";
     user_email := "ada@example.org"; user_password := "analytical";
     user_createdAt := 1000 |}.

Definition bobUser : User :=
  {| user_id := 2; user_username := "bob"; user_name := "Bob";
     user_email := "bob@example.org"; user_password := "builder";
     user_createdAt := 2000 |}.

Definition adaWelcome : Notification :=
  {| notif_id := 1; notif_userId := 1;
     notif_message := "Welcome to FinTrack! Start by adding your first transaction.";
     notif_read := false; notif_createdAt := 1001 |}.

Definition adaRent : Transaction Qc :=
  {| tx_id := 1; tx_userId := 1; tx_amount := Q2Qc (inject_Z 250);
     tx_category := "rent"; tx_description := "paid"; tx_date := 3000;
     tx_type := "expense"; tx_recurring := Some false; tx_note := None |}.

Definition adaBudget : Budget Qc :=
  {| bud_id := 1; bud_userId := 1; bud_category := "food";
     bud_amount := Q2Qc (inject_Z 400); bud_period := "monthly" |}.

(** [PATCH] with [{ userId: 2 }]. *)
Definition giveToBob : PartialTransaction Qc :=
  {| pt_id := None; pt_userId := Some 2; pt_amount := None; pt_category := None;
     pt_description := None; pt_date := None; pt_type := None;
     pt_recurring := None; pt_note := None |}.

(** [PATCH] with [{}]. *)
Definition emptyPatch : PartialBudget Qc :=
  {| pb_id := None; pb_userId := None; pb_category := None; pb_amount := None;
     pb_period := None |}.

(** A payload of one budget and two categories. *)
Definition payload : RestoreObject Qc :=
  {| d_transactions := Some [];
     d_incomes := Some [];
     d_budgets :=
       Some [ {| xb_id := Some 7; xb_userId := Some 2; xb_category := "rent";
                 xb_amount := Q2Qc (inject_Z 300); xb_period := "monthly" |} ];
     d_goals := Some [];
     d_categories :=
       Some [ {| xc_id := None; xc_userId := None; xc_name := "rent";
                 xc_type := None; xc_createdAt := None |};
              {| xc_id := None; xc_userId := None; xc_name := "travel";
                 xc_type := Some "expense"; xc_createdAt := None |} ] |}.
End ApiExamples.

Unset Implicit Arguments.
Unset Maximal Implicit Insertion.

(* ================================================================== *)
(** * Facts about lists, [JsMap] and [jsSort] *)
(* ================================================================== *)

Section FoldFacts.
Context {S X A : Type}.

Lemma fold_left_proj (P : S -> A) (f : S -> X -> S) (h : A -> X -> A) :
  (forall s x, P (f s x) = h (P s) x) ->
  forall l s, P (fold_left f l s) = fold_left h l (P s).
Proof.
  intros Hstep l; induction l as [|x l IH]; intro s; simpl.
  - reflexivity.
  - rewrite IH, Hstep. reflexivity.
Qed.

Lemma fold_left_keep (P : S -> A) (f : S -> X -> S) :
  (forall s x, P (f s x) = P s) ->
  forall l s, P (fold_left f l s) = P s.
Proof.
  intros Hstep l; induction l as [|x l IH]; intro s; simpl.
  - reflexivity.
  - rewrite IH. apply Hstep.
Qed.
Lemma fold_left_invariant (Inv : S -> Prop) (f : S -> X -> S) l :
  (forall s x, Inv s -> Inv (f s x)) -> forall s, Inv s -> Inv (fold_left f l s).
Proof.
  intro Hstep. induction l as [|x l IH]; intros s H; simpl; auto.
Qed.
End FoldFacts.

Section JsMapFacts.
Context {V : Type}.
Implicit Types (m : JsMap.t V) (k : Z) (v : V).

Lemma get_In k v m : JsMap.get k m = Some v -> In (k, v) m.
Proof.
  induction m as [|[k' v'] m IH]; simpl; [discriminate|].
  destruct (Z.eqb_spec k' k) as [->|Hne]; intro H.
  - injection H as ->. now left.
  - right. auto.
Qed.

Lemma get_None_iff k m : JsMap.get k m = None <-> ~ In k (JsMap.keys m).
Proof.
  induction m as [|[k' v'] m IH]; simpl.
  - tauto.
  - destruct (Z.eqb_spec k' k) as [->|Hne].
    + split; [discriminate | intros H; exfalso; apply H; now left].
    + rewrite IH. split; [intros H [E|I]; [congruence | exact (H I)] | tauto].
Qed.

Lemma In_get k v m : JsMap.wf m -> In (k, v) m -> JsMap.get k m = Some v.
Proof.
  unfold JsMap.wf. induction m as [|[k' v'] m IH]; simpl; [tauto|].
  intros Hnd [E|I].
  - injection E as -> ->. now rewrite Z.eqb_refl.
  - inversion Hnd as [|? ? Hnotin Hnd']; subst.
    destruct (Z.eqb_spec k' k) as [->|Hne].
    + exfalso. apply Hnotin. apply (in_map fst) in I. exact I.
    + auto.
Qed.

Lemma get_set_same k v m : JsMap.get k (JsMap.set k v m) = Some v.
Proof.
  induction m as [|[k' v'] m IH]; simpl.
  - now rewrite Z.eqb_refl.
  - destruct (Z.eqb_spec k' k) as [->|Hne]; simpl.
    + now rewrite Z.eqb_refl.
    + destruct (Z.eqb_spec k' k); [contradiction | exact IH].
Qed.

Lemma get_set_other k k' v m :
  k <> k' -> JsMap.get k' (JsMap.set k v m) = JsMap.get k' m.
Proof.
  intro Hne. induction m as [|[k0 v0] m IH]; simpl.
  - destruct (Z.eqb_spec k k'); [contradiction | reflexivity].
  - destruct (Z.eqb_spec k0 k) as [->|Hne0]; simpl.
    + destruct (Z.eqb_spec k k'); [contradiction | reflexivity].
    + now rewrite IH.
Qed.

Lemma set_fresh k v m : ~ In k (JsMap.keys m) -> JsMap.set k v m = m ++ [(k, v)].
Proof.
  induction m as [|[k' v'] m IH]; simpl; intro H.
  - reflexivity.
  - destruct (Z.eqb_spec k' k) as [->|Hne].
    + exfalso. apply H. now left.
    + f_equal. apply IH. tauto.
Qed.

Lemma keys_set_present k v m :
  In k (JsMap.keys m) -> JsMap.keys (JsMap.set k v m) = JsMap.keys m.
Proof.
  induction m as [|[k' v'] m IH]; simpl; [tauto|].
  intros H. destruct (Z.eqb_spec k' k) as [->|Hne]; simpl.
  - reflexivity.
  - f_equal. apply IH. destruct H; [contradiction | assumption].
Qed.

Lemma In_set e k v m : In e (JsMap.set k v m) -> e = (k, v) \/ In e m.
Proof.
  induction m as [|[k' v'] m IH]; simpl.
  - intros [<-|[]]. now left.
  - destruct (Z.eqb_spec k' k) as [->|Hne]; simpl.
    + intros [<-|I]; auto.
    + intros [<-|I]; auto. destruct (IH I); auto.
Qed.

Lemma In_keys_set k' k v m :
  In k' (JsMap.keys (JsMap.set k v m)) <-> k' = k \/ In k' (JsMap.keys m).
Proof.
  induction m as [|[k0 v0] m IH]; simpl.
  - split; [intros [<-|[]]; auto | intros [->|[]]; auto].
  - destruct (Z.eqb_spec k0 k) as [->|Hne]; simpl.
    + split; [intros [<-|I]; auto | intros [->|[<-|I]]; auto].
    + rewrite IH. tauto.
Qed.

Lemma wf_set k v m : JsMap.wf m -> JsMap.wf (JsMap.set k v m).
Proof.
  unfold JsMap.wf. induction m as [|[k' v'] m IH]; simpl; intro Hnd.
  - constructor; [tauto | constructor].
  - inversion Hnd as [|? ? Hnotin Hnd']; subst.
    destruct (Z.eqb_spec k' k) as [->|Hne]; simpl.
    + constructor; assumption.
    + constructor; [|auto].
      change (map fst (JsMap.set k v m)) with (JsMap.keys (JsMap.set k v m)).
      rewrite In_keys_set. intros [E|I]; [congruence | exact (Hnotin I)].
Qed.

Lemma In_delete e k m : In e (JsMap.delete k m) <-> In e m /\ fst e <> k.
Proof.
  unfold JsMap.delete. rewrite filter_In.
  destruct (Z.eqb_spec (fst e) k); simpl; intuition congruence.
Qed.

Lemma wf_filter (p : Z * V -> bool) m : JsMap.wf m -> JsMap.wf (filter p m).
Proof.
  unfold JsMap.wf, JsMap.keys. induction m as [|e m IH]; simpl; intro Hnd.
  - constructor.
  - inversion Hnd as [|? ? Hnotin Hnd']; subst.
    destruct (p e); simpl; [constructor|]; auto.
    intro I. apply Hnotin. apply in_map_iff in I as [e' [E I]].
    apply filter_In in I as [I _]. rewrite <- E. now apply in_map.
Qed.

Lemma wf_same_key k v v' m :
  JsMap.wf m -> In (k, v) m -> In (k, v') m -> v = v'.
Proof.
  intros Hwf I I'. apply (In_get _ _ _ Hwf) in I. apply (In_get _ _ _ Hwf) in I'. congruence.
Qed.

(** Deleting a list of keys, one after the other. *)
Lemma delete_all (ks : list Z) m :
  fold_left (fun m k => JsMap.delete k m) ks m
  = filter (fun e => negb (existsb (Z.eqb (fst e)) ks)) m.
Proof.
  revert m. induction ks as [|k ks IH]; intro m; simpl.
  - induction m as [|e m IHm]; simpl; [reflexivity | now f_equal].
  - rewrite IH. unfold JsMap.delete.
    induction m as [|e m IHm]; simpl; [reflexivity|].
    destruct (Z.eqb_spec (fst e) k) as [E|NE]; simpl.
    + exact IHm.
    + destruct (existsb (Z.eqb (fst e)) ks); simpl; [exact IHm | now f_equal].
Qed.
End JsMapFacts.

Section SortFacts.
Context {T : Type} (after : T -> T -> bool).

Lemma insertSorted_perm x l : Permutation (insertSorted after x l) (x :: l).
Proof.
  induction l as [|y l IH]; simpl.
  - reflexivity.
  - destruct (after x y).
    + rewrite IH. apply perm_swap.
    + reflexivity.
Qed.

Lemma jsSort_perm l : Permutation (jsSort after l) l.
Proof.
  induction l as [|x l IH]; simpl.
  - constructor.
  - rewrite insertSorted_perm. now constructor.
Qed.

Lemma In_jsSort x l : In x (jsSort after l) <-> In x l.
Proof.
  split; apply Permutation_in; [|symmetry]; apply jsSort_perm.
Qed.

Lemma insertSorted_ext (after' : T -> T -> bool) x l :
  (forall y, In y l -> after x y = after' x y) ->
  insertSorted after x l = insertSorted after' x l.
Proof.
  induction l as [|y l IH]; intro H; simpl; [reflexivity|].
  rewrite <- (H y) by now left.
  destruct (after x y); [|reflexivity].
  f_equal. apply IH. intros z Hz. apply H. now right.
Qed.

Section SortedOn.
Variable P : T -> Prop.
Hypothesis after_asym :
  forall x y, P x -> P y -> after x y = true -> after y x = false.
Hypothesis not_after_trans :
  forall x y z, P x -> P y -> P z ->
                after x y = false -> after y z = false -> after x z = false.

Lemma insertSorted_sorted_on x l :
  P x -> Forall P l ->
  StronglySorted (fun a b => after a b = false) l ->
  StronglySorted (fun a b => after a b = false) (insertSorted after x l).
Proof.
  intros Px Pl Hs. induction Hs as [|y l Hs IH Hall]; simpl.
  - repeat constructor.
  - inversion Pl as [|? ? Py Pl']; subst.
    destruct (after x y) eqn:E.
    + constructor; [now apply IH|].
      apply Forall_forall. intros z Hz.
      apply (Permutation_in _ (insertSorted_perm x l)) in Hz.
      destruct Hz as [<-|Hz]; [now apply after_asym|].
      rewrite Forall_forall in Hall. now apply Hall.
    + constructor; [now constructor|].
      constructor; [exact E|].
      apply Forall_forall. intros z Hz.
      rewrite Forall_forall in Hall, Pl'.
      apply not_after_trans with y; auto.
Qed.

Lemma jsSort_sorted_on l :
  Forall P l -> StronglySorted (fun a b => after a b = false) (jsSort after l).
Proof.
  induction l as [|x l IH]; intro Pl; simpl; [constructor|].
  inversion Pl as [|? ? Px Pl']; subst.
  apply insertSorted_sorted_on; [exact Px | | now apply IH].
  apply Forall_forall. intros y Hy. apply (proj1 (In_jsSort y l)) in Hy.
  rewrite Forall_forall in Pl'. auto.
Qed.
End SortedOn.

Lemma jsSort_sorted l :
  (forall x y, after x y = true -> after y x = false) ->
  (forall x y z, after x y = false -> after y z = false -> after x z = false) ->
  StronglySorted (fun a b => after a b = false) (jsSort after l).
Proof.
  intros Ha Ht. apply jsSort_sorted_on with (P := fun _ => True).
  - intros x y _ _. apply Ha.
  - intros x y z _ _ _. apply Ht.
  - apply Forall_forall. auto.
Qed.

Lemma jsSort_ext (after' : T -> T -> bool) l :
  (forall x y, In x l -> In y l -> after x y = after' x y) ->
  jsSort after l = jsSort after' l.
Proof.
  induction l as [|x l IH]; intro H; simpl; [reflexivity|].
  transitivity (insertSorted after' x (jsSort after l)).
  - apply insertSorted_ext. intros y Hy. apply H; [now left|].
    right. now apply (proj1 (In_jsSort y l)) in Hy.
  - rewrite IH by (intros; apply H; now right). reflexivity.
Qed.
End SortFacts.

Section TableFacts.
Context {V : Type}.

Lemma keysBelow_filter (p : Z * V -> bool) c (m : JsMap.t V) :
  keysBelow c m -> keysBelow c (filter p m).
Proof.
  intros H k I. apply H. unfold JsMap.keys in *.
  apply in_map_iff in I as [e [E I]]. apply filter_In in I as [I _].
  rewrite <- E. now apply in_map.
Qed.

Lemma rowsFiled_filter (idOf : V -> Z) (p : Z * V -> bool) (m : JsMap.t V) :
  rowsFiled idOf m -> rowsFiled idOf (filter p m).
Proof. intros H k v I. apply filter_In in I as [I _]. now apply H. Qed.

Lemma keysBelow_fresh c (m : JsMap.t V) : keysBelow c m -> ~ In c (JsMap.keys m).
Proof. intros H I. apply H in I. lia. Qed.

Lemma keysBelow_set c k v (m : JsMap.t V) :
  keysBelow c m -> k < c -> keysBelow c (JsMap.set k v m).
Proof.
  intros H Hk k' I. apply In_keys_set in I as [->|I]; auto.
Qed.

Lemma keysBelow_mono c c' (m : JsMap.t V) :
  keysBelow c m -> c <= c' -> keysBelow c' m.
Proof. intros H Hle k I. apply H in I. lia. Qed.

Lemma keys_rowsFrom {I : Type} (mk : Z -> nat -> I -> V) items : forall c k x,
  In x (JsMap.keys (rowsFrom mk c k items)) ->
  c <= x < c + Z.of_nat (List.length items).
Proof.
  induction items as [|item rest IH]; intros c k x; simpl; [tauto|].
  intros [<-|Hin]; [lia|]. apply IH in Hin. lia.
Qed.

(** A loop of [create] calls on a table whose keys are below its counter
    appends one row per element, under consecutive fresh keys. *)
Lemma insert_loop {I : Type} (mk : Z -> nat -> I -> V) items : forall m c k,
  keysBelow c m ->
  fold_left (insertStep mk) items (m, c, k)
  = (m ++ rowsFrom mk c k items, c + Z.of_nat (List.length items),
     (k + List.length items)%nat).
Proof.
  induction items as [|item rest IH]; intros m c k Hb; simpl fold_left.
  - simpl. rewrite app_nil_r, Z.add_0_r, Nat.add_0_r. reflexivity.
  - unfold insertStep at 2. cbn [fst snd]. rewrite IH.
    + rewrite (set_fresh _ _ _ (keysBelow_fresh _ _ Hb)), <- app_assoc.
      cbn [rowsFrom app List.length]. rewrite Nat2Z.inj_succ.
      f_equal; [f_equal; lia | lia].
    + apply keysBelow_set; [|lia]. apply keysBelow_mono with c; [assumption | lia].
Qed.

(** Deleting the rows listed under their own [id] removes exactly the rows
    of the user, when the map files every row under its [id]. *)
Lemma delete_owned (idOf owner : V -> Z) (userId : Z) (rows : list V)
  (m : JsMap.t V) :
  JsMap.wf m -> rowsFiled idOf m ->
  (forall r, In r rows <-> In r (JsMap.values m) /\ owner r = userId) ->
  fold_left (fun m r => JsMap.delete (idOf r) m) rows m
  = rowsOfOthers owner userId m.
Proof.
  intros Hwf Hfiled Hrows.
  transitivity (fold_left (fun m k => JsMap.delete k m) (map idOf rows) m).
  { clear. revert m. induction rows as [|r rows IH]; intro m; simpl; auto. }
  rewrite delete_all. unfold rowsOfOthers. apply filter_ext_in.
  intros [k v] Hin. simpl. f_equal.
  destruct (Z.eqb_spec (owner v) userId) as [Hown|Hown].
  - apply existsb_exists. exists k. split; [|apply Z.eqb_refl].
    apply in_map_iff. exists v. split; [now apply Hfiled|].
    apply Hrows. split; [|assumption].
    unfold JsMap.values. apply in_map_iff. now exists (k, v).
  - apply not_true_is_false. intro Hex.
    apply existsb_exists in Hex as [k' [Hk' Heq]].
    apply Z.eqb_eq in Heq. subst k'.
    apply in_map_iff in Hk' as [r [Hid Hr]].
    apply Hrows in Hr as [Hr Hor].
    unfold JsMap.values in Hr. apply in_map_iff in Hr as [[k2 r2] [E Hr]].
    simpl in E. subst r2.
    assert (k2 = k) by (rewrite <- (Hfiled _ _ Hr); exact Hid). subst k2.
    apply Hown. rewrite (wf_same_key _ _ _ _ Hwf Hin Hr). exact Hor.
Qed.
End TableFacts.

(* ================================================================== *)
(** * Facts about the store *)
(* ================================================================== *)

Section StoreFacts.
Context {N : Type} {num : JsNumber N}.
Implicit Types (s : MemStorage N) (userId : Z).

(** ** The per-user listings *)

Lemma In_getTransactions userId s t :
  In t (getTransactions userId s)
  <-> In t (JsMap.values (transactions s)) /\ tx_userId t = userId.
Proof.
  unfold getTransactions. rewrite In_jsSort, filter_In, Z.eqb_eq. tauto.
Qed.

Lemma In_getIncomes userId s i :
  In i (getIncomes userId s)
  <-> In i (JsMap.values (incomes s)) /\ inc_userId i = userId.
Proof.
  unfold getIncomes. rewrite In_jsSort, filter_In, Z.eqb_eq. tauto.
Qed.

Lemma In_getBudgets userId s b :
  In b (getBudgets userId s)
  <-> In b (JsMap.values (budgets s)) /\ bud_userId b = userId.
Proof. unfold getBudgets. rewrite filter_In, Z.eqb_eq. tauto. Qed.

Lemma In_getGoals userId s g :
  In g (getGoals userId s)
  <-> In g (JsMap.values (goals s)) /\ goal_userId g = userId.
Proof. unfold getGoals. rewrite filter_In, Z.eqb_eq. tauto. Qed.

Lemma In_getCategories userId s c :
  In c (getCategories userId s)
  <-> In c (JsMap.values (categories s)) /\ cat_userId c = userId.
Proof. unfold getCategories. rewrite filter_In, Z.eqb_eq. tauto. Qed.

(** ** The deletions of [restoreBackup] *)

Ltac keep_outer_folds P :=
  repeat (rewrite (fold_left_keep P) by (intros ? ?; reflexivity)).

Lemma removeExisting_transactions userId s :
  transactions (removeExisting userId s)
  = fold_left (fun m t => JsMap.delete (tx_id t) m)
      (getTransactions userId s) (transactions s).
Proof.
  unfold removeExisting. keep_outer_folds (@transactions N).
  apply fold_left_proj. reflexivity.
Qed.

Lemma removeExisting_incomes userId s :
  incomes (removeExisting userId s)
  = fold_left (fun m i => JsMap.delete (inc_id i) m)
      (getIncomes userId s) (incomes s).
Proof.
  unfold removeExisting. keep_outer_folds (@incomes N).
  rewrite (fold_left_proj (@incomes N) _ (fun m i => JsMap.delete (inc_id i) m))
    by reflexivity.
  keep_outer_folds (@incomes N). reflexivity.
Qed.

Lemma removeExisting_budgets userId s :
  budgets (removeExisting userId s)
  = fold_left (fun m b => JsMap.delete (bud_id b) m)
      (getBudgets userId s) (budgets s).
Proof.
  unfold removeExisting. keep_outer_folds (@budgets N).
  rewrite (fold_left_proj (@budgets N) _ (fun m b => JsMap.delete (bud_id b) m))
    by reflexivity.
  keep_outer_folds (@budgets N). reflexivity.
Qed.

Lemma removeExisting_goals userId s :
  goals (removeExisting userId s)
  = fold_left (fun m g => JsMap.delete (goal_id g) m)
      (getGoals userId s) (goals s).
Proof.
  unfold removeExisting. keep_outer_folds (@goals N).
  rewrite (fold_left_proj (@goals N) _ (fun m g => JsMap.delete (goal_id g) m))
    by reflexivity.
  keep_outer_folds (@goals N). reflexivity.
Qed.

Lemma removeExisting_categories userId s :
  categories (removeExisting userId s)
  = fold_left (fun m c => JsMap.delete (cat_id c) m)
      (getCategories userId s) (categories s).
Proof.
  unfold removeExisting.
  rewrite (fold_left_proj (@categories N) _ (fun m c => JsMap.delete (cat_id c) m))
    by reflexivity.
  keep_outer_folds (@categories N). reflexivity.
Qed.

Lemma removeExisting_untouched userId s :
  untouchedByRemoval (removeExisting userId s) = untouchedByRemoval s.
Proof.
  unfold removeExisting.
  repeat (rewrite (fold_left_keep untouchedByRemoval) by (intros ? ?; reflexivity)).
  reflexivity.
Qed.

(** ** The insertions of [restoreBackup] *)

(** The closed form of one of the five loops: [P] projects the map, the
    counter and the clock index, [F] the rest of the store. *)
Ltac loop_closed_form P mk F Hb :=
  match goal with
  | |- context [fold_left ?f ?items (?s, ?k)] =>
      let E := fresh "E" in
      pose proof (fold_left_proj P f (insertStep mk) (fun _ _ => eq_refl)
                    items (s, k)) as E;
      cbn [fst snd] in E; rewrite (insert_loop _ _ _ _ _ Hb) in E;
      injection E as ? ? ?;
      repeat split; try assumption;
      apply (fold_left_keep (fun sk : MemStorage N * nat => F (fst sk)));
      reflexivity
  end.

Lemma restoreTransactions_spec clock userId items s k :
  keysBelow (currentTransactionId s) (transactions s) ->
  let r := restoreTransactions clock userId items (s, k) in
  transactions (fst r)
  = transactions s
    ++ rowsFrom (restoredTransaction userId clock) (currentTransactionId s) k items
  /\ currentTransactionId (fst r)
     = currentTransactionId s + Z.of_nat (List.length items)
  /\ snd r = (k + List.length items)%nat
  /\ frameOfTransactions (fst r) = frameOfTransactions s.
Proof.
  intros Hb r. subst r. unfold restoreTransactions.
  loop_closed_form
    (fun sk : MemStorage N * nat =>
       (transactions (fst sk), currentTransactionId (fst sk), snd sk))
    (restoredTransaction (N:=N) userId clock) (@frameOfTransactions N) Hb.
Qed.

Lemma restoreIncomes_spec clock userId items s k :
  keysBelow (currentIncomeId s) (incomes s) ->
  let r := restoreIncomes clock userId items (s, k) in
  incomes (fst r)
  = incomes s ++ rowsFrom (restoredIncome userId clock) (currentIncomeId s) k items
  /\ currentIncomeId (fst r) = currentIncomeId s + Z.of_nat (List.length items)
  /\ snd r = (k + List.length items)%nat
  /\ frameOfIncomes (fst r) = frameOfIncomes s.
Proof.
  intros Hb r. subst r. unfold restoreIncomes.
  loop_closed_form
    (fun sk : MemStorage N * nat =>
       (incomes (fst sk), currentIncomeId (fst sk), snd sk))
    (restoredIncome (N:=N) userId clock) (@frameOfIncomes N) Hb.
Qed.

Lemma restoreBudgets_spec userId items s k :
  keysBelow (currentBudgetId s) (budgets s) ->
  let r := restoreBudgets userId items (s, k) in
  budgets (fst r)
  = budgets s ++ rowsFrom (restoredBudget userId) (currentBudgetId s) k items
  /\ currentBudgetId (fst r) = currentBudgetId s + Z.of_nat (List.length items)
  /\ snd r = (k + List.length items)%nat
  /\ frameOfBudgets (fst r) = frameOfBudgets s.
Proof.
  intros Hb r. subst r. unfold restoreBudgets.
  loop_closed_form
    (fun sk : MemStorage N * nat =>
       (budgets (fst sk), currentBudgetId (fst sk), snd sk))
    (restoredBudget (N:=N) userId) (@frameOfBudgets N) Hb.
Qed.

Lemma restoreGoals_spec userId items s k :
  keysBelow (currentGoalId s) (goals s) ->
  let r := restoreGoals userId items (s, k) in
  goals (fst r)
  = goals s ++ rowsFrom (restoredGoal userId) (currentGoalId s) k items
  /\ currentGoalId (fst r) = currentGoalId s + Z.of_nat (List.length items)
  /\ snd r = (k + List.length items)%nat
  /\ frameOfGoals (fst r) = frameOfGoals s.
Proof.
  intros Hb r. subst r. unfold restoreGoals.
  loop_closed_form
    (fun sk : MemStorage N * nat =>
       (goals (fst sk), currentGoalId (fst sk), snd sk))
    (restoredGoal (N:=N) userId) (@frameOfGoals N) Hb.
Qed.

Lemma restoreCategories_spec clock userId items s k :
  keysBelow (currentCategoryId s) (categories s) ->
  let r := restoreCategories clock userId items (s, k) in
  categories (fst r)
  = categories s
    ++ rowsFrom (restoredCategory userId clock) (currentCategoryId s) k items
  /\ currentCategoryId (fst r)
     = currentCategoryId s + Z.of_nat (List.length items)
  /\ snd r = (k + List.length items)%nat
  /\ frameOfCategories (fst r) = frameOfCategories s.
Proof.
  intros Hb r. subst r. unfold restoreCategories.
  loop_closed_form
    (fun sk : MemStorage N * nat =>
       (categories (fst sk), currentCategoryId (fst sk), snd sk))
    (restoredCategory userId clock) (@frameOfCategories N) Hb.
Qed.

Lemma whenArray_arrayOf {A : Type} (xs : option (list A)) loop sk :
  loop [] sk = sk -> @whenArray N A xs loop sk = loop (arrayOf xs) sk.
Proof. intro H. destruct xs; simpl; congruence. Qed.

Ltac by_frame :=
  repeat match goal with H : _ = _ |- _ => rewrite H end; assumption.

Lemma restoreFrom_spec clock userId o s :
  keysBelow (currentTransactionId s) (transactions s) ->
  keysBelow (currentIncomeId s) (incomes s) ->
  keysBelow (currentBudgetId s) (budgets s) ->
  keysBelow (currentGoalId s) (goals s) ->
  keysBelow (currentCategoryId s) (categories s) ->
  let s' := restoreFrom clock userId o s in
  let txs := arrayOf (d_transactions o) in
  let incs := arrayOf (d_incomes o) in
  let buds := arrayOf (d_budgets o) in
  let gls := arrayOf (d_goals o) in
  let cats := arrayOf (d_categories o) in
  let ki := List.length txs in
  let kb := (ki + List.length incs)%nat in
  let kg := (kb + List.length buds)%nat in
  let kc := (kg + List.length gls)%nat in
  (transactions s'
   = transactions s
     ++ rowsFrom (restoredTransaction userId clock) (currentTransactionId s) 0 txs
   /\ incomes s'
      = incomes s ++ rowsFrom (restoredIncome userId clock) (currentIncomeId s) ki incs
   /\ budgets s'
      = budgets s ++ rowsFrom (restoredBudget userId) (currentBudgetId s) kb buds
   /\ goals s' = goals s ++ rowsFrom (restoredGoal userId) (currentGoalId s) kg gls
   /\ categories s'
      = categories s
        ++ rowsFrom (restoredCategory userId clock) (currentCategoryId s) kc cats)
  /\ (currentTransactionId s' = currentTransactionId s + Z.of_nat (List.length txs)
      /\ currentIncomeId s' = currentIncomeId s + Z.of_nat (List.length incs)
      /\ currentBudgetId s' = currentBudgetId s + Z.of_nat (List.length buds)
      /\ currentGoalId s' = currentGoalId s + Z.of_nat (List.length gls)
      /\ currentCategoryId s' = currentCategoryId s + Z.of_nat (List.length cats))
  /\ (users s' = users s /\ notifications s' = notifications s
      /\ currentUserId s' = currentUserId s
      /\ currentNotificationId s' = currentNotificationId s).
Proof.
  intros Ht Hi Hb Hg Hc. cbv zeta. unfold restoreFrom.
  rewrite !whenArray_arrayOf by reflexivity.
  destruct (restoreTransactions_spec clock userId (arrayOf (d_transactions o)) s 0 Ht)
    as (T1 & T2 & T3 & T4).
  destruct (restoreTransactions clock userId (arrayOf (d_transactions o)) (s, 0%nat))
    as [s1 k1].
  cbn [fst snd Nat.add] in *. subst k1. injection T4 as ? ? ? ? ? ? ? ? ? ? ? ?.
  destruct (restoreIncomes_spec clock userId (arrayOf (d_incomes o)) s1
              (List.length (arrayOf (d_transactions o)))) as (I1 & I2 & I3 & I4);
    [by_frame|].
  destruct (restoreIncomes clock userId (arrayOf (d_incomes o)) _) as [s2 k2].
  cbn [fst snd Nat.add] in *. subst k2. injection I4 as ? ? ? ? ? ? ? ? ? ? ? ?.
  destruct (restoreBudgets_spec userId (arrayOf (d_budgets o)) s2
              (List.length (arrayOf (d_transactions o))
               + List.length (arrayOf (d_incomes o)))) as (B1 & B2 & B3 & B4);
    [by_frame|].
  destruct (restoreBudgets userId (arrayOf (d_budgets o)) _) as [s3 k3].
  cbn [fst snd Nat.add] in *. subst k3. injection B4 as ? ? ? ? ? ? ? ? ? ? ? ?.
  destruct (restoreGoals_spec userId (arrayOf (d_goals o)) s3
              (List.length (arrayOf (d_transactions o))
               + List.length (arrayOf (d_incomes o))
               + List.length (arrayOf (d_budgets o)))) as (G1 & G2 & G3 & G4);
    [by_frame|].
  destruct (restoreGoals userId (arrayOf (d_goals o)) _) as [s4 k4].
  cbn [fst snd Nat.add] in *. subst k4. injection G4 as ? ? ? ? ? ? ? ? ? ? ? ?.
  destruct (restoreCategories_spec clock userId (arrayOf (d_categories o)) s4
              (List.length (arrayOf (d_transactions o))
               + List.length (arrayOf (d_incomes o))
               + List.length (arrayOf (d_budgets o))
               + List.length (arrayOf (d_goals o)))) as (C1 & C2 & C3 & C4);
    [by_frame|].
  destruct (restoreCategories clock userId (arrayOf (d_categories o)) _) as [s5 k5].
  cbn [fst snd Nat.add] in *. subst k5. injection C4 as ? ? ? ? ? ? ? ? ? ? ? ?.
  repeat split; congruence.
Qed.

(** ** [restoreBackup] on a store that keeps the identifier discipline *)

Lemma removeExisting_spec userId s :
  KeysOk s -> Filed s ->
  transactions (removeExisting userId s)
  = rowsOfOthers (@tx_userId N) userId (transactions s)
  /\ incomes (removeExisting userId s)
     = rowsOfOthers (@inc_userId N) userId (incomes s)
  /\ budgets (removeExisting userId s)
     = rowsOfOthers (@bud_userId N) userId (budgets s)
  /\ goals (removeExisting userId s)
     = rowsOfOthers (@goal_userId N) userId (goals s)
  /\ categories (removeExisting userId s)
     = rowsOfOthers cat_userId userId (categories s).
Proof.
  intros (_ & _ & (Wt & _) & (Wc & _) & (Wi & _) & (Wb & _) & (Wg & _))
         (_ & _ & Ft & Fc & Fi & Fb & Fg).
  rewrite removeExisting_transactions, removeExisting_incomes,
    removeExisting_budgets, removeExisting_goals, removeExisting_categories.
  repeat split.
  - apply delete_owned; auto. intro. apply In_getTransactions.
  - apply delete_owned; auto. intro. apply In_getIncomes.
  - apply delete_owned; auto. intro. apply In_getBudgets.
  - apply delete_owned; auto. intro. apply In_getGoals.
  - apply delete_owned; auto. intro. apply In_getCategories.
Qed.

(** The store after [restoreBackup(userId, data)] has returned, field by
    field: in each of the five maps the rows of the other users, in their
    order, followed by one new row per element of the payload. *)
Lemma restoreBackup_object clock userId o s :
  KeysOk s -> Filed s ->
  let s' := snd (restoreBackup clock userId (DataObject o) s) in
  let txs := arrayOf (d_transactions o) in
  let incs := arrayOf (d_incomes o) in
  let buds := arrayOf (d_budgets o) in
  let gls := arrayOf (d_goals o) in
  let cats := arrayOf (d_categories o) in
  let ki := List.length txs in
  let kb := (ki + List.length incs)%nat in
  let kg := (kb + List.length buds)%nat in
  let kc := (kg + List.length gls)%nat in
  (transactions s'
   = rowsOfOthers (@tx_userId N) userId (transactions s)
     ++ rowsFrom (restoredTransaction userId clock) (currentTransactionId s) 0 txs
   /\ incomes s'
      = rowsOfOthers (@inc_userId N) userId (incomes s)
        ++ rowsFrom (restoredIncome userId clock) (currentIncomeId s) ki incs
   /\ budgets s'
      = rowsOfOthers (@bud_userId N) userId (budgets s)
        ++ rowsFrom (restoredBudget userId) (currentBudgetId s) kb buds
   /\ goals s'
      = rowsOfOthers (@goal_userId N) userId (goals s)
        ++ rowsFrom (restoredGoal userId) (currentGoalId s) kg gls
   /\ categories s'
      = rowsOfOthers cat_userId userId (categories s)
        ++ rowsFrom (restoredCategory userId clock) (currentCategoryId s) kc cats)
  /\ (currentTransactionId s' = currentTransactionId s + Z.of_nat (List.length txs)
      /\ currentIncomeId s' = currentIncomeId s + Z.of_nat (List.length incs)
      /\ currentBudgetId s' = currentBudgetId s + Z.of_nat (List.length buds)
      /\ currentGoalId s' = currentGoalId s + Z.of_nat (List.length gls)
      /\ currentCategoryId s' = currentCategoryId s + Z.of_nat (List.length cats))
  /\ (users s' = users s /\ notifications s' = notifications s
      /\ currentUserId s' = currentUserId s
      /\ currentNotificationId s' = currentNotificationId s).
Proof.
  intros HK HF. cbv zeta. cbn [restoreBackup snd].
  destruct (removeExisting_spec userId s HK HF) as (Rt & Ri & Rb & Rg & Rc).
  pose proof (removeExisting_untouched userId s) as U.
  injection U as ? ? ? ? ? ? ? ? ?.
  destruct HK as (_ & _ & (_ & Bt) & (_ & Bc) & (_ & Bi) & (_ & Bb) & (_ & Bg)).
  destruct (restoreFrom_spec clock userId o (removeExisting userId s))
    as ((E1 & E2 & E3 & E4 & E5) & (C1 & C2 & C3 & C4 & C5) & (U1 & U2 & U3 & U4)).
  1-5: match goal with
       | |- keysBelow _ (?f _) =>
           match goal with
           | H : f _ = rowsOfOthers _ _ _ |- _ => rewrite H
           end
       end;
       apply keysBelow_filter; by_frame.
  rewrite E1, E2, E3, E4, E5, C1, C2, C3, C4, C5, U1, U2, U3, U4.
  rewrite Rt, Ri, Rb, Rg, Rc.
  repeat split; congruence.
Qed.

End StoreFacts.

(* ================================================================== *)
(** * Partial updates of an absent row *)
(* ================================================================== *)

(** C9. For an id that is not a key of the map concerned and for every
    partial-update object, [updateTransaction], [updateIncome],
    [updateBudget] and [updateGoal] return [undefined] and leave the whole
    store as it was. *)
Theorem update_of_absent_id_changes_nothing
  {N : Type} (s : MemStorage N) (id : Z)
  (pt : PartialTransaction N) (pi : PartialIncome N)
  (pb : PartialBudget N) (pg : PartialGoal N) :
  (~ In id (JsMap.keys (transactions s)) -> updateTransaction id pt s = (None, s))
  /\ (~ In id (JsMap.keys (incomes s)) -> updateIncome id pi s = (None, s))
  /\ (~ In id (JsMap.keys (budgets s)) -> updateBudget id pb s = (None, s))
  /\ (~ In id (JsMap.keys (goals s)) -> updateGoal id pg s = (None, s)).
Proof.
  unfold updateTransaction, updateIncome, updateBudget, updateGoal.
  repeat split; intro H; apply get_None_iff in H; rewrite H; reflexivity.
Qed.

Lemma update_of_absent_id_changes_nothing_witness :
  updateTransaction 9 Examples.noTransactionUpdate Examples.twoUsers
  = (None, Examples.twoUsers)
  /\ updateIncome 9 Examples.noIncomeUpdate Examples.twoUsers
     = (None, Examples.twoUsers)
  /\ updateBudget 9 Examples.noBudgetUpdate Examples.twoUsers
     = (None, Examples.twoUsers)
  /\ updateGoal 9 Examples.noGoalUpdate Examples.twoUsers
     = (None, Examples.twoUsers).
Proof.
  destruct (update_of_absent_id_changes_nothing Examples.twoUsers 9
              Examples.noTransactionUpdate Examples.noIncomeUpdate
              Examples.noBudgetUpdate Examples.noGoalUpdate) as (A & B & C & D).
  split; [apply A | split; [apply B | split; [apply C | apply D]]];
    vm_compute; intuition discriminate.
Defined.

(* ================================================================== *)
(** * Backup *)
(* ================================================================== *)

Lemma StronglySorted_weaken {A : Type} (R R' : A -> A -> Prop) (l : list A) :
  (forall x y, R x y -> R' x y) -> StronglySorted R l -> StronglySorted R' l.
Proof.
  intros HR. induction 1 as [|x l Hs IH Hall]; constructor; auto.
  eapply Forall_impl; [|exact Hall]. auto.
Qed.

Lemma sorted_newest_first {A : Type} (date : A -> Date) (l : list A) :
  StronglySorted (fun x y => date y <= date x)
    (jsSort (fun a b => date a <? date b) l).
Proof.
  apply StronglySorted_weaken with (R := fun a b => (date a <? date b) = false).
  - intros x y H. apply Z.ltb_ge in H. exact H.
  - apply jsSort_sorted.
    + intros x y H. apply Z.ltb_lt in H. apply Z.ltb_ge. lia.
    + intros x y z H1 H2. apply Z.ltb_ge in H1, H2. apply Z.ltb_ge. lia.
Qed.

(** C5, as the code has it. [createBackup] returns five arrays that hold
    exactly the rows owned by the user: budgets, goals and categories in the
    insertion order of their maps; transactions and incomes sorted by date,
    newest first. *)
Theorem createBackup_lists_the_rows_of_the_user
  {N : Type} (userId : Z) (s : MemStorage N) :
  let b := createBackup userId s in
  (Permutation (b_transactions b) (ownedRows (@tx_userId N) userId (transactions s))
   /\ StronglySorted (fun x y => tx_date y <= tx_date x) (b_transactions b))
  /\ (Permutation (b_incomes b) (ownedRows (@inc_userId N) userId (incomes s))
      /\ StronglySorted (fun x y => inc_date y <= inc_date x) (b_incomes b))
  /\ b_budgets b = ownedRows (@bud_userId N) userId (budgets s)
  /\ b_goals b = ownedRows (@goal_userId N) userId (goals s)
  /\ b_categories b = ownedRows cat_userId userId (categories s).
Proof.
  cbv zeta. cbn [createBackup b_transactions b_incomes b_budgets b_goals b_categories].
  split; [split|split; [split|]].
  - apply jsSort_perm.
  - apply (sorted_newest_first (@tx_date N)).
  - apply jsSort_perm.
  - apply (sorted_newest_first (@inc_date N)).
  - repeat split.
Qed.

(** C5, as the specification states it, fails: user 1 recorded the expense
    of date 1000 before the expense of date 2000, and the backup lists the
    later one first. *)
Lemma backup_not_in_insertion_order :
  ~ BackupInInsertionOrder 1 Examples.twoUsers.
Proof.
  unfold BackupInInsertionOrder. intro H.
  apply (f_equal (fun b => map (@tx_date float) (b_transactions b))) in H.
  vm_compute in H. discriminate.
Qed.

(* ================================================================== *)
(** * Restore *)
(* ================================================================== *)

Section OwnershipFacts.
Context {V : Type} (owner : V -> Z).

Lemma ownedRows_rowsOf userId (m : JsMap.t V) :
  ownedRows owner userId m = JsMap.values (rowsOf owner userId m).
Proof.
  unfold ownedRows, rowsOf, JsMap.values.
  induction m as [|[k v] m IH]; simpl; [reflexivity|].
  destruct (owner v =? userId); simpl; now rewrite IH.
Qed.

Lemma rowsOf_app userId (m m' : JsMap.t V) :
  rowsOf owner userId (m ++ m') = rowsOf owner userId m ++ rowsOf owner userId m'.
Proof. apply filter_app. Qed.

Lemma rowsOf_others u v (m : JsMap.t V) :
  v <> u -> rowsOf owner v (rowsOfOthers owner u m) = rowsOf owner v m.
Proof.
  intro Hne. unfold rowsOf, rowsOfOthers.
  induction m as [|[k r] m IH]; simpl; [reflexivity|].
  destruct (Z.eqb_spec (owner r) u) as [E|NE]; simpl.
  - destruct (Z.eqb_spec (owner r) v); [congruence | exact IH].
  - destruct (owner r =? v); now rewrite IH.
Qed.

Lemma rowsOf_others_same u (m : JsMap.t V) :
  rowsOf owner u (rowsOfOthers owner u m) = [].
Proof.
  unfold rowsOf, rowsOfOthers.
  induction m as [|[k r] m IH]; simpl; [reflexivity|].
  destruct (Z.eqb_spec (owner r) u) as [E|NE]; simpl; [exact IH|].
  destruct (Z.eqb_spec (owner r) u); [contradiction | exact IH].
Qed.

Lemma rowsOf_rowsFrom {I : Type} (mk : Z -> nat -> I -> V) u v items :
  (forall id k item, owner (mk id k item) = u) ->
  forall c k,
    rowsOf owner v (rowsFrom mk c k items)
    = if v =? u then rowsFrom mk c k items else [].
Proof.
  intros Hown. unfold rowsOf.
  induction items as [|item rest IH]; intros c k; simpl.
  - now destruct (v =? u).
  - rewrite Hown, IH, (Z.eqb_sym u v). now destruct (v =? u).
Qed.

Lemma rowsFrom_keys {I : Type} (mk : Z -> nat -> I -> V) items : forall c k,
  JsMap.keys (rowsFrom mk c k items)
  = map (fun i => c + Z.of_nat i) (seq 0 (List.length items)).
Proof.
  induction items as [|item rest IH]; intros c k; simpl; [reflexivity|].
  rewrite Z.add_0_r. f_equal.
  change (map fst (rowsFrom mk (c + 1) (S k) rest))
    with (JsMap.keys (rowsFrom mk (c + 1) (S k) rest)).
  rewrite IH, <- seq_shift, map_map.
  apply map_ext. intro i. lia.
Qed.

Lemma rowsFrom_Forall2 {I : Type} (mk : Z -> nat -> I -> V)
  (Q : I -> Z * V -> Prop) items :
  (forall id k item, Q item (id, mk id k item)) ->
  forall c k, Forall2 Q items (rowsFrom mk c k items).
Proof.
  intro HQ. induction items as [|item rest IH]; intros c k; simpl; constructor; auto.
Qed.

End OwnershipFacts.

(* ================================================================== *)
(** * The identifier discipline *)
(* ================================================================== *)

Section DisciplineFacts.
Context {V : Type}.
Implicit Types (m : JsMap.t V).

Lemma get_key_below k v c m :
  keysBelow c m -> JsMap.get k m = Some v -> k < c.
Proof.
  intros Hb Hg. apply Hb. apply get_In in Hg.
  unfold JsMap.keys. apply in_map_iff. now exists (k, v).
Qed.

Lemma create_keeps_keys c v m :
  JsMap.wf m /\ keysBelow c m ->
  JsMap.wf (JsMap.set c v m) /\ keysBelow (c + 1) (JsMap.set c v m).
Proof.
  intros [Hwf Hb]. split; [now apply wf_set|].
  apply keysBelow_set; [|lia]. apply keysBelow_mono with c; [assumption | lia].
Qed.

Lemma set_keeps_filed (idOf : V -> Z) k v m :
  rowsFiled idOf m -> idOf v = k -> rowsFiled idOf (JsMap.set k v m).
Proof.
  intros Hf Hid k' v' I. apply In_set in I as [E|I]; [|now apply Hf].
  injection E as -> ->. exact Hid.
Qed.

Lemma get_filed (idOf : V -> Z) k v m :
  rowsFiled idOf m -> JsMap.get k m = Some v -> idOf v = k.
Proof. intros Hf Hg. apply Hf. now apply get_In. Qed.

Lemma filed_ids_are_keys (idOf : V -> Z) m :
  rowsFiled idOf m -> map idOf (JsMap.values m) = JsMap.keys m.
Proof.
  unfold JsMap.values, JsMap.keys. intro Hf. rewrite map_map.
  apply map_ext_in. intros [k v] I. simpl. now apply Hf.
Qed.

End DisciplineFacts.

Section StoreDiscipline.
Context {N : Type} {num : JsNumber N}.
Implicit Types (s : MemStorage N).

Ltac open_discipline :=
  unfold Disciplined, KeysOk;
  intros (((Wu & Bu) & (Wn & Bn) & (Wt & Bt) & (Wc & Bc) & (Wi & Bi)
           & (Wb & Bb) & (Wg & Bg)) & Fu & Fn & Fc).

Ltac close_discipline :=
  simpl; repeat split; try assumption;
  try (apply wf_set; assumption);
  try (apply wf_filter; assumption);
  try (apply keysBelow_filter; assumption);
  try (apply create_keeps_keys; split; assumption);
  try (apply set_keeps_filed; [assumption | reflexivity]);
  try (apply rowsFiled_filter; assumption).

Lemma newMemStorage_Disciplined : Disciplined (newMemStorage N).
Proof.
  unfold Disciplined, KeysOk, JsMap.wf, keysBelow, rowsFiled. simpl.
  repeat split; try constructor; intros; contradiction.
Qed.

Lemma createUser_Disciplined now u s :
  Disciplined s -> Disciplined (snd (createUser now u s)).
Proof. open_discipline. close_discipline. Qed.

Lemma createNotification_Disciplined now n s :
  Disciplined s -> Disciplined (snd (createNotification now n s)).
Proof. open_discipline. close_discipline. Qed.

Lemma createTransaction_Disciplined now t s :
  Disciplined s -> Disciplined (snd (createTransaction now t s)).
Proof. open_discipline. close_discipline. Qed.

Lemma createCategory_Disciplined now c s :
  Disciplined s -> Disciplined (snd (createCategory now c s)).
Proof. open_discipline. close_discipline. Qed.

Lemma createIncome_Disciplined now i s :
  Disciplined s -> Disciplined (snd (createIncome now i s)).
Proof. open_discipline. close_discipline. Qed.

Lemma createBudget_Disciplined b s :
  Disciplined s -> Disciplined (snd (createBudget b s)).
Proof. open_discipline. close_discipline. Qed.

Lemma createGoal_Disciplined g s :
  Disciplined s -> Disciplined (snd (createGoal g s)).
Proof. open_discipline. close_discipline. Qed.

Lemma deleteTransaction_Disciplined id s :
  Disciplined s -> Disciplined (snd (deleteTransaction id s)).
Proof. open_discipline. close_discipline. Qed.

Lemma deleteIncome_Disciplined id s :
  Disciplined s -> Disciplined (snd (deleteIncome id s)).
Proof. open_discipline. close_discipline. Qed.

Lemma deleteBudget_Disciplined id s :
  Disciplined s -> Disciplined (snd (deleteBudget id s)).
Proof. open_discipline. close_discipline. Qed.

Lemma deleteGoal_Disciplined id s :
  Disciplined s -> Disciplined (snd (deleteGoal id s)).
Proof. open_discipline. close_discipline. Qed.

Ltac close_update G :=
  simpl; repeat split; try assumption;
  try (apply wf_set; assumption);
  try (apply keysBelow_set; [assumption | eapply get_key_below; eassumption]).

Lemma updateTransaction_Disciplined id p s :
  Disciplined s -> Disciplined (snd (updateTransaction id p s)).
Proof.
  intro H. unfold updateTransaction.
  destruct (JsMap.get id (transactions s)) eqn:G; [|exact H].
  revert H. open_discipline. close_update G.
Qed.

Lemma updateIncome_Disciplined id p s :
  Disciplined s -> Disciplined (snd (updateIncome id p s)).
Proof.
  intro H. unfold updateIncome.
  destruct (JsMap.get id (incomes s)) eqn:G; [|exact H].
  revert H. open_discipline. close_update G.
Qed.

Lemma updateBudget_Disciplined id p s :
  Disciplined s -> Disciplined (snd (updateBudget id p s)).
Proof.
  intro H. unfold updateBudget.
  destruct (JsMap.get id (budgets s)) eqn:G; [|exact H].
  revert H. open_discipline. close_update G.
Qed.

Lemma updateGoal_Disciplined id p s :
  Disciplined s -> Disciplined (snd (updateGoal id p s)).
Proof.
  intro H. unfold updateGoal.
  destruct (JsMap.get id (goals s)) eqn:G; [|exact H].
  revert H. open_discipline. close_update G.
Qed.

Lemma markNotificationAsRead_Disciplined id s :
  Disciplined s -> Disciplined (snd (markNotificationAsRead id s)).
Proof.
  intro H. unfold markNotificationAsRead.
  destruct (JsMap.get id (notifications s)) eqn:G; [|exact H].
  revert H. open_discipline. close_update G.
  apply set_keeps_filed; [assumption|]. simpl. now apply get_filed with (notifications s).
Qed.

(** One step of the loop of [markAllNotificationsAsRead], on a store that
    holds a row under the [id] of the notification. *)
Lemma markOne_Disciplined (n : Notification) s :
  In (notif_id n) (JsMap.keys (notifications s)) ->
  Disciplined s ->
  Disciplined
    (if negb (notif_read n)
     then set_notifications
            (JsMap.set (notif_id n) (markRead n) (notifications s)) s
     else s)
  /\ JsMap.keys
       (notifications
          (if negb (notif_read n)
           then set_notifications
                  (JsMap.set (notif_id n) (markRead n) (notifications s)) s
           else s))
     = JsMap.keys (notifications s).
Proof.
  intros Hin H. destruct (negb (notif_read n)); [|now split].
  split.
  - revert H. open_discipline. simpl; repeat split; try assumption.
    + now apply wf_set.
    + apply keysBelow_set; [assumption | now apply Bn].
    + apply set_keeps_filed; [assumption | reflexivity].
  - simpl. now apply keys_set_present.
Qed.

Lemma markAllNotificationsAsRead_Disciplined userId s :
  Disciplined s -> Disciplined (markAllNotificationsAsRead userId s).
Proof.
  intro H. unfold markAllNotificationsAsRead.
  assert (Hrows : forall n, In n (getNotifications userId s) ->
                            In (notif_id n) (JsMap.keys (notifications s))).
  { intros n Hn. unfold getNotifications in Hn.
    apply In_jsSort, filter_In in Hn as [Hn _].
    unfold JsMap.values in Hn. apply in_map_iff in Hn as [[k v] [E Hn]].
    simpl in E. subst v. destruct H as (_ & _ & Fn & _).
    rewrite (Fn _ _ Hn). unfold JsMap.keys. apply in_map_iff. now exists (k, n). }
  revert Hrows H. generalize (getNotifications userId s) as rows.
  intros rows. revert s.
  induction rows as [|n rows IH]; intros s Hrows H; simpl; [exact H|].
  destruct (markOne_Disciplined n s) as [H' K'];
    [apply Hrows; now left | exact H |].
  apply IH; [|exact H'].
  intros r Hr. rewrite K'. apply Hrows. now right.
Qed.

Lemma removeExisting_Disciplined userId s :
  Disciplined s -> Disciplined (removeExisting userId s).
Proof.
  intro H. unfold removeExisting.
  repeat (apply fold_left_invariant;
          [intros ? ?; open_discipline; close_discipline|]).
  exact H.
Qed.

Lemma restoreFrom_Disciplined clock userId o s :
  Disciplined s -> Disciplined (restoreFrom clock userId o s).
Proof.
  intro H. unfold restoreFrom.
  change (Disciplined s) with ((fun sk : MemStorage N * nat => Disciplined (fst sk)) (s, 0%nat)) in H.
  revert H. generalize (s, 0%nat) as sk. intros sk H.
  repeat match goal with
  | |- Disciplined (fst (whenArray ?xs ?loop ?sk0)) =>
      cut (Disciplined (fst sk0));
      [ let H' := fresh in
        intro H'; destruct xs as [items|]; [|exact H'];
        unfold whenArray, restoreTransactions, restoreIncomes, restoreBudgets,
          restoreGoals, restoreCategories;
        apply (fold_left_invariant
                 (fun sk : MemStorage N * nat => Disciplined (fst sk)));
        [ intros [s0 k0] x; cbn [fst snd]; open_discipline; close_discipline
        | exact H' ]
      | ]
  end.
  exact H.
Qed.

Lemma restoreBackup_Disciplined clock userId data s :
  Disciplined s -> Disciplined (snd (restoreBackup clock userId data s)).
Proof.
  intro H. unfold restoreBackup.
  destruct data; cbn [snd].
  - now apply removeExisting_Disciplined.
  - now apply restoreFrom_Disciplined, removeExisting_Disciplined.
Qed.

Lemma step_Disciplined s op : Disciplined s -> Disciplined (step s op).
Proof.
  destruct op; cbn [step];
    auto using createUser_Disciplined, createNotification_Disciplined,
      markNotificationAsRead_Disciplined, markAllNotificationsAsRead_Disciplined,
      createTransaction_Disciplined, updateTransaction_Disciplined,
      deleteTransaction_Disciplined, createCategory_Disciplined,
      createIncome_Disciplined, updateIncome_Disciplined, deleteIncome_Disciplined,
      createBudget_Disciplined, updateBudget_Disciplined, deleteBudget_Disciplined,
      createGoal_Disciplined, updateGoal_Disciplined, deleteGoal_Disciplined,
      restoreBackup_Disciplined.
Qed.

Lemma run_Disciplined ops : forall s, Disciplined s -> Disciplined (run ops s).
Proof. apply fold_left_invariant. apply step_Disciplined. Qed.

(** ** Rows stay filed under their [id] when no update assigns [id] *)

Ltac open_filed :=
  unfold Filed; intros (Fu & Fn & Ft & Fc & Fi & Fb & Fg).

Ltac close_filed :=
  simpl; repeat split; try assumption;
  try (apply set_keeps_filed; [assumption | reflexivity]);
  try (apply rowsFiled_filter; assumption).

Lemma removeExisting_Filed userId s : Filed s -> Filed (removeExisting userId s).
Proof.
  intro H. unfold removeExisting.
  repeat (apply fold_left_invariant; [intros ? ?; open_filed; close_filed|]).
  exact H.
Qed.

Lemma restoreFrom_Filed clock userId o s :
  Filed s -> Filed (restoreFrom clock userId o s).
Proof.
  intro H. unfold restoreFrom.
  change (Filed s) with ((fun sk : MemStorage N * nat => Filed (fst sk)) (s, 0%nat)) in H.
  revert H. generalize (s, 0%nat) as sk. intros sk H.
  repeat match goal with
  | |- Filed (fst (whenArray ?xs ?loop ?sk0)) =>
      cut (Filed (fst sk0));
      [ let H' := fresh in
        intro H'; destruct xs as [items|]; [|exact H'];
        unfold whenArray, restoreTransactions, restoreIncomes, restoreBudgets,
          restoreGoals, restoreCategories;
        apply (fold_left_invariant
                 (fun sk : MemStorage N * nat => Filed (fst sk)));
        [ intros [s0 k0] x; cbn [fst snd]; open_filed; close_filed
        | exact H' ]
      | ]
  end.
  exact H.
Qed.

Lemma markAllNotificationsAsRead_others userId s :
  mapsButNotifications (markAllNotificationsAsRead userId s)
  = mapsButNotifications s.
Proof.
  unfold markAllNotificationsAsRead. apply fold_left_keep.
  intros s0 n. now destruct (negb (notif_read n)).
Qed.

Lemma step_Filed s op :
  Disciplined s -> Filed s -> keepsId op -> Filed (step s op).
Proof.
  intros HD HF Hop. destruct op; cbn [step keepsId] in *.
  - revert HF. open_filed. close_filed.
  - revert HF. open_filed. close_filed.
  - unfold markNotificationAsRead.
    destruct (JsMap.get id (notifications s)) eqn:G; [|exact HF].
    revert HF. open_filed. close_filed.
    apply set_keeps_filed; [assumption|]. simpl. now apply get_filed with (notifications s).
  - pose proof (markAllNotificationsAsRead_Disciplined userId s HD) as (_ & _ & Fn' & _).
    pose proof (markAllNotificationsAsRead_others userId s) as E.
    injection E as E1 E2 E3 E4 E5 E6.
    revert HF. open_filed. unfold Filed. rewrite E1, E2, E3, E4, E5, E6.
    repeat split; assumption.
  - revert HF. open_filed. close_filed.
  - unfold updateTransaction.
    destruct (JsMap.get id (transactions s)) eqn:G; [|exact HF].
    revert HF. open_filed. close_filed.
    apply set_keeps_filed; [assumption|]. simpl. rewrite Hop. simpl.
    now apply get_filed with (transactions s).
  - revert HF. open_filed. close_filed.
  - revert HF. open_filed. close_filed.
  - revert HF. open_filed. close_filed.
  - unfold updateIncome.
    destruct (JsMap.get id (incomes s)) eqn:G; [|exact HF].
    revert HF. open_filed. close_filed.
    apply set_keeps_filed; [assumption|]. simpl. rewrite Hop. simpl.
    now apply get_filed with (incomes s).
  - revert HF. open_filed. close_filed.
  - revert HF. open_filed. close_filed.
  - unfold updateBudget.
    destruct (JsMap.get id (budgets s)) eqn:G; [|exact HF].
    revert HF. open_filed. close_filed.
    apply set_keeps_filed; [assumption|]. simpl. rewrite Hop. simpl.
    now apply get_filed with (budgets s).
  - revert HF. open_filed. close_filed.
  - revert HF. open_filed. close_filed.
  - unfold updateGoal.
    destruct (JsMap.get id (goals s)) eqn:G; [|exact HF].
    revert HF. open_filed. close_filed.
    apply set_keeps_filed; [assumption|]. simpl. rewrite Hop. simpl.
    now apply get_filed with (goals s).
  - revert HF. open_filed. close_filed.
  - unfold restoreBackup. destruct data; cbn [snd].
    + now apply removeExisting_Filed.
    + now apply restoreFrom_Filed, removeExisting_Filed.
Qed.

Lemma newMemStorage_Filed : Filed (newMemStorage N).
Proof. unfold Filed, rowsFiled. simpl. repeat split; intros; contradiction. Qed.

Lemma run_Filed ops : forall s,
  Disciplined s -> Filed s -> Forall keepsId ops -> Filed (run ops s).
Proof.
  induction ops as [|op ops IH]; intros s HD HF Hops; simpl; [exact HF|].
  inversion Hops as [|? ? Hop Hops']; subst.
  apply IH; [now apply step_Disciplined | now apply step_Filed | exact Hops'].
Qed.

Lemma Filed_IdsDistinct s : KeysOk s -> Filed s -> IdsDistinct s.
Proof.
  intros ((Wu & _) & (Wn & _) & (Wt & _) & (Wc & _) & (Wi & _) & (Wb & _) & (Wg & _))
         (Fu & Fn & Ft & Fc & Fi & Fb & Fg).
  unfold IdsDistinct.
  rewrite !filed_ids_are_keys by assumption.
  repeat split; assumption.
Qed.

(** ** The counters only go up *)

Lemma countersLe_refl s : countersLe s s.
Proof. unfold countersLe. repeat split; lia. Qed.

Lemma countersLe_trans s1 s2 s3 :
  countersLe s1 s2 -> countersLe s2 s3 -> countersLe s1 s3.
Proof. unfold countersLe. intros H1 H2. repeat split; lia. Qed.

Lemma fold_left_countersLe {X : Type} (f : MemStorage N -> X -> MemStorage N) l :
  (forall s x, countersLe s (f s x)) -> forall s, countersLe s (fold_left f l s).
Proof.
  intro Hstep. induction l as [|x l IH]; intro s; simpl.
  - apply countersLe_refl.
  - eapply countersLe_trans; [apply Hstep | apply IH].
Qed.

Lemma fold_left_pair_countersLe {X : Type}
  (f : MemStorage N * nat -> X -> MemStorage N * nat) l :
  (forall sk x, countersLe (fst sk) (fst (f sk x))) ->
  forall sk, countersLe (fst sk) (fst (fold_left f l sk)).
Proof.
  intro Hstep. induction l as [|x l IH]; intro sk; simpl.
  - apply countersLe_refl.
  - eapply countersLe_trans; [apply Hstep | apply IH].
Qed.

Ltac counters_step := unfold countersLe; simpl; repeat split; lia.

Lemma removeExisting_countersLe userId s : countersLe s (removeExisting userId s).
Proof.
  unfold removeExisting.
  repeat (eapply countersLe_trans;
          [|apply fold_left_countersLe; intros; counters_step]).
  apply countersLe_refl.
Qed.

Lemma restoreFrom_countersLe clock userId o s :
  countersLe s (restoreFrom clock userId o s).
Proof.
  unfold restoreFrom.
  change s with (fst (s, 0%nat)) at 1. generalize (s, 0%nat) as sk. intro sk.
  repeat match goal with
  | |- countersLe _ (fst (whenArray ?xs ?loop ?sk0)) =>
      apply countersLe_trans with (fst sk0);
      [ | destruct xs as [items|]; [|apply countersLe_refl];
          unfold whenArray, restoreTransactions, restoreIncomes, restoreBudgets,
            restoreGoals, restoreCategories;
          apply fold_left_pair_countersLe; intros [s0 k0] x; counters_step ]
  end.
  apply countersLe_refl.
Qed.

Lemma step_countersLe s op : countersLe s (step s op).
Proof.
  destruct op; cbn [step]; try counters_step.
  - unfold markNotificationAsRead.
    destruct (JsMap.get id (notifications s)); counters_step.
  - unfold markAllNotificationsAsRead. apply fold_left_countersLe.
    intros s0 n. destruct (negb (notif_read n)); counters_step.
  - unfold updateTransaction.
    destruct (JsMap.get id (transactions s)); counters_step.
  - unfold updateIncome. destruct (JsMap.get id (incomes s)); counters_step.
  - unfold updateBudget. destruct (JsMap.get id (budgets s)); counters_step.
  - unfold updateGoal. destruct (JsMap.get id (goals s)); counters_step.
  - unfold restoreBackup. destruct data; cbn [snd].
    + apply removeExisting_countersLe.
    + eapply countersLe_trans;
        [apply removeExisting_countersLe | apply restoreFrom_countersLe].
Qed.

Lemma run_countersLe ops : forall s, countersLe s (run ops s).
Proof. apply fold_left_countersLe. intros. apply step_countersLe. Qed.

End StoreDiscipline.

(** C8, as the code has it. In every store reached from the empty store,
    for every entity type: the keys under which rows are held are pairwise
    distinct and below the counter; successive [create] calls assign
    strictly increasing ids, whatever happens in between; and as long as no
    partial update carries an [id] property, every row carries the key it is
    held under as its [id], so that the ids held are pairwise distinct. *)
Theorem identifier_discipline
  {N : Type} {num : JsNumber N} (ops : list (Op N)) :
  let s := run ops (newMemStorage N) in
  KeysOk s
  /\ (Forall keepsId ops -> Filed s /\ IdsDistinct s)
  /\ (forall more : list (Op N),
        (forall now u now' u',
            let r := createUser now u s in
            user_id (fst r)
            < user_id (fst (createUser now' u' (run more (snd r)))))
        /\ (forall now n now' n',
               let r := createNotification now n s in
               notif_id (fst r)
               < notif_id (fst (createNotification now' n' (run more (snd r)))))
        /\ (forall now t now' t',
               let r := createTransaction now t s in
               tx_id (fst r)
               < tx_id (fst (createTransaction now' t' (run more (snd r)))))
        /\ (forall now c now' c',
               let r := createCategory now c s in
               cat_id (fst r)
               < cat_id (fst (createCategory now' c' (run more (snd r)))))
        /\ (forall now i now' i',
               let r := createIncome now i s in
               inc_id (fst r)
               < inc_id (fst (createIncome now' i' (run more (snd r)))))
        /\ (forall b b',
               let r := createBudget b s in
               bud_id (fst r) < bud_id (fst (createBudget b' (run more (snd r)))))
        /\ (forall g g',
               let r := createGoal g s in
               goal_id (fst r) < goal_id (fst (createGoal g' (run more (snd r)))))).
Proof.
  intro s.
  assert (HD : Disciplined s)
    by (apply run_Disciplined, newMemStorage_Disciplined).
  split; [exact (proj1 HD)|]. split.
  - intro Hops.
    assert (HF : Filed s).
    { apply run_Filed;
        [apply newMemStorage_Disciplined | apply newMemStorage_Filed | exact Hops]. }
    split; [exact HF | exact (Filed_IdsDistinct s (proj1 HD) HF)].
  - intro more.
    repeat split; intros; subst r;
      match goal with
      | |- context [run more ?s1] =>
          pose proof (run_countersLe more s1) as H;
          unfold countersLe in H; simpl in *; lia
      end.
Qed.

Lemma identifier_discipline_witness :
  Forall keepsId Examples.history
  /\ Filed Examples.twoUsers /\ IdsDistinct Examples.twoUsers.
Proof.
  assert (H : Forall keepsId Examples.history) by (repeat constructor).
  split; [exact H|].
  exact (proj1 (proj2 (identifier_discipline Examples.history)) H).
Defined.

(** C8, as the specification states it, fails: after
    [updateTransaction(1, { id: 2 })] the map of transactions holds two
    rows whose [id] is 2, under the keys 1 and 2. *)
Lemma ids_not_distinct_after_update :
  map (fun e => (fst e, tx_id (snd e))) (transactions Examples.overwritten)
  = [(1, 2); (2, 2); (3, 3)]
  /\ ~ IdsDistinct Examples.overwritten.
Proof.
  split; [reflexivity|].
  intros (_ & _ & H & _). vm_compute in H.
  inversion H as [|? ? Hnotin _]. apply Hnotin. now left.
Qed.

(* ================================================================== *)
(** * Restore: owner and id of the rows it files *)
(* ================================================================== *)

Lemma fold_left_map_same {S X : Type} (f : S -> X -> S) (g : X -> X) l :
  (forall s x, f s (g x) = f s x) ->
  forall s, fold_left f (map g l) s = fold_left f l s.
Proof.
  intro Hg. induction l as [|x l IH]; intro s; simpl; [reflexivity|].
  now rewrite Hg, IH.
Qed.

Lemma rowsFrom_filedForCaller {V I : Type} (idOf owner : V -> Z)
  (carries : I -> V -> Prop) (mk : Z -> nat -> I -> V) userId c k
  (before remaining : JsMap.t V) items :
  keysBelow c before ->
  (forall id k item,
      owner (mk id k item) = userId /\ idOf (mk id k item) = id
      /\ carries item (mk id k item)) ->
  filedForCaller idOf owner carries userId c before remaining
    (remaining ++ rowsFrom mk c k items) items.
Proof.
  intros Hb Hmk. exists (rowsFrom mk c k items).
  split; [reflexivity|]. split; [apply rowsFrom_keys|]. split.
  - intros x Hx Hin. apply keys_rowsFrom in Hx. apply Hb in Hin. lia.
  - apply rowsFrom_Forall2. intros id k0 item. simpl. apply Hmk.
Qed.

Section RestoreRows.
Context {N : Type} {num : JsNumber N}.

Lemma restoreFrom_eraseIds clock userId (o : RestoreObject N) s :
  restoreFrom clock userId (eraseIds o) s = restoreFrom clock userId o s.
Proof.
  unfold restoreFrom, eraseIds. cbn [d_transactions d_incomes d_budgets d_goals d_categories].
  assert (W : forall (A : Type) (xs : option (list A)) (g : A -> A) loop sk,
             (forall l sk, loop (map g l) sk = loop l sk) ->
             @whenArray N A (option_map (map g) xs) loop sk = whenArray xs loop sk).
  { intros A xs g loop sk Hl. destruct xs; simpl; auto. }
  rewrite !W; [reflexivity|..];
    intros l sk; apply fold_left_map_same; reflexivity.
Qed.

(** C7. In every store reached from the empty store, and for every payload
    that is an object: removing the [id] and the [userId] of every element
    of the payload changes nothing to what [restoreBackup(userId, data)]
    does; and in each of the five maps the call appends, after the rows left
    by its deletions, one row per element of the array, held under the next
    values of the counter (keys that were not in use), owned by [userId],
    with that key as [id]. *)
Theorem restoreBackup_files_rows_for_the_caller
  (ops : list (Op N)) (clock : nat -> Date) (userId : Z) (o : RestoreObject N) :
  let s := run ops (newMemStorage N) in
  let r := restoreBackup clock userId (DataObject o) s in
  restoreBackup clock userId (DataObject (eraseIds o)) s = r
  /\ filedForCaller (@tx_id N) (@tx_userId N) carriesTransaction userId
       (currentTransactionId s) (transactions s)
       (transactions (removeExisting userId s)) (transactions (snd r))
       (arrayOf (d_transactions o))
  /\ filedForCaller (@inc_id N) (@inc_userId N) carriesIncome userId
       (currentIncomeId s) (incomes s)
       (incomes (removeExisting userId s)) (incomes (snd r))
       (arrayOf (d_incomes o))
  /\ filedForCaller (@bud_id N) (@bud_userId N) carriesBudget userId
       (currentBudgetId s) (budgets s)
       (budgets (removeExisting userId s)) (budgets (snd r))
       (arrayOf (d_budgets o))
  /\ filedForCaller (@goal_id N) (@goal_userId N) carriesGoal userId
       (currentGoalId s) (goals s)
       (goals (removeExisting userId s)) (goals (snd r))
       (arrayOf (d_goals o))
  /\ filedForCaller cat_id cat_userId carriesCategory userId
       (currentCategoryId s) (categories s)
       (categories (removeExisting userId s)) (categories (snd r))
       (arrayOf (d_categories o)).
Proof.
  intros s r. subst r. cbn [restoreBackup snd].
  split; [now rewrite restoreFrom_eraseIds|].
  assert (HD : Disciplined s) by (apply run_Disciplined, newMemStorage_Disciplined).
  pose proof (removeExisting_Disciplined userId s HD) as HR.
  destruct HR as ((_ & _ & (_ & Bt) & (_ & Bc) & (_ & Bi) & (_ & Bb) & (_ & Bg)) & _).
  destruct (restoreFrom_spec clock userId o (removeExisting userId s) Bt Bi Bb Bg Bc)
    as ((E1 & E2 & E3 & E4 & E5) & _).
  rewrite E1, E2, E3, E4, E5.
  pose proof (removeExisting_untouched userId s) as U.
  injection U as _ _ _ _ Ct Cc Ci Cb Cg. rewrite Ct, Cc, Ci, Cb, Cg.
  destruct HD as ((_ & _ & (_ & Bt') & (_ & Bc') & (_ & Bi') & (_ & Bb') & (_ & Bg')) & _).
  repeat split; apply rowsFrom_filedForCaller; try assumption;
    intros; repeat split.
Qed.
End RestoreRows.

(* ================================================================== *)
(** * Restore: absent collections, and the rows of the other users *)
(* ================================================================== *)

(** Proves [KeysOk] and [Filed] of a store given by its contents. *)
Ltac concrete_discipline :=
  unfold KeysOk, Filed, JsMap.wf, keysBelow, rowsFiled; vm_compute;
  repeat match goal with
         | |- _ /\ _ => split
         | |- NoDup _ => constructor
         | |- ~ _ => let H := fresh in intro H
         | |- forall _, _ => intro
         | H : _ \/ _ |- _ => destruct H
         | H : In _ (_ :: _) |- _ => destruct H
         | H : In _ [] |- _ => destruct H
         | H : False |- _ => destruct H
         | H : (_, _) = (_, _) |- _ => injection H as <- <-
         | H : ?x = ?y |- _ => is_var y; subst y
         | H : ?x = ?y |- _ => discriminate H
         | |- _ = _ => reflexivity
         end.

Lemma clearedFor_others {V : Type} (owner : V -> Z) userId (m : JsMap.t V) :
  clearedFor owner userId m (rowsOfOthers owner userId m).
Proof.
  unfold clearedFor, rowsOfOthers. split.
  - intros e _ Hown Hin. apply filter_In in Hin as [_ Hne].
    rewrite Hown, Z.eqb_refl in Hne. discriminate.
  - intros e Hin. now apply filter_In in Hin as [Hin _].
Qed.

Section RestoreFrame.
Context {N : Type} {num : JsNumber N}.
Implicit Types (s : MemStorage N).

Lemma getTransactions_rowsOf userId s :
  getTransactions userId s
  = jsSort (fun a b => tx_date a <? tx_date b)
      (JsMap.values (rowsOf (@tx_userId N) userId (transactions s))).
Proof. unfold getTransactions. now rewrite <- ownedRows_rowsOf. Qed.

Lemma getIncomes_rowsOf userId s :
  getIncomes userId s
  = jsSort (fun a b => inc_date a <? inc_date b)
      (JsMap.values (rowsOf (@inc_userId N) userId (incomes s))).
Proof. unfold getIncomes. now rewrite <- ownedRows_rowsOf. Qed.

Lemma getBudgets_rowsOf userId s :
  getBudgets userId s = JsMap.values (rowsOf (@bud_userId N) userId (budgets s)).
Proof. unfold getBudgets. now rewrite <- ownedRows_rowsOf. Qed.

Lemma getGoals_rowsOf userId s :
  getGoals userId s = JsMap.values (rowsOf (@goal_userId N) userId (goals s)).
Proof. unfold getGoals. now rewrite <- ownedRows_rowsOf. Qed.

Lemma getCategories_rowsOf userId s :
  getCategories userId s = JsMap.values (rowsOf cat_userId userId (categories s)).
Proof. unfold getCategories. now rewrite <- ownedRows_rowsOf. Qed.

Ltac absent_collection E listing :=
  let Hn := fresh "Hn" in
  intro Hn; rewrite Hn in E; cbn [arrayOf rowsFrom] in E;
  rewrite app_nil_r in E;
  split;
  [ rewrite E; apply clearedFor_others
  | rewrite listing, E, rowsOf_others_same; reflexivity ].


Lemma others_rows_kept {V I : Type} (owner : V -> Z) (mk : Z -> nat -> I -> V)
  u v (m : JsMap.t V) c k items :
  v <> u ->
  (forall id k item, owner (mk id k item) = u) ->
  rowsOf owner v (rowsOfOthers owner u m ++ rowsFrom mk c k items)
  = rowsOf owner v m.
Proof.
  intros Hne Hown.
  rewrite rowsOf_app, rowsOf_others by assumption.
  rewrite (rowsOf_rowsFrom owner mk u v items Hown).
  destruct (Z.eqb_spec v u); [contradiction | apply app_nil_r].
Qed.

End RestoreFrame.





(* ================================================================== *)
(** * Backup then restore *)
(* ================================================================== *)

Lemma roundtrip_rows {V I W : Type} (mk : Z -> nat -> I -> V)
  (asItem : V -> I) (g : V -> W) (rows : list V) :
  (forall id k t, In t rows -> g (mk id k (asItem t)) = g t) ->
  forall c k,
    map g (JsMap.values (rowsFrom mk c k (map asItem rows))) = map g rows.
Proof.
  induction rows as [|t rows IH]; intros Hg c k; simpl; [reflexivity|].
  rewrite Hg by now left. f_equal.
  apply IH. intros id k0 t0 Hin. apply Hg. now right.
Qed.

Lemma restored_rows_of_caller {V I : Type} (owner : V -> Z)
  (mk : Z -> nat -> I -> V) u (m : JsMap.t V) c k items :
  (forall id k item, owner (mk id k item) = u) ->
  rowsOf owner u (rowsOfOthers owner u m ++ rowsFrom mk c k items)
  = rowsFrom mk c k items.
Proof.
  intro Hown.
  rewrite rowsOf_app, rowsOf_others_same, (rowsOf_rowsFrom owner mk u u items Hown).
  now rewrite Z.eqb_refl.
Qed.

Section RoundTripFacts.
Context {N : Type} {num : JsNumber N}.

Ltac same_rows_back listing E :=
  rewrite (listing _ (backupThenRestore _ _ _));
  unfold backupThenRestore, backupAsData, createBackup;
  cbn [b_transactions b_incomes b_budgets b_goals b_categories];
  rewrite E, restored_rows_of_caller by reflexivity;
  symmetry;
  try (eapply perm_trans; [apply Permutation_map, jsSort_perm|]);
  rewrite roundtrip_rows; [reflexivity|].

(** C1, as the code has it. On a store that keeps the identifier
    discipline and whose rows of the user are as the [create] methods leave
    them, [createBackup(userId)] followed by [restoreBackup(userId, b)] on
    the backup just made leaves the user with the same multiset of
    transactions, incomes, budgets and goals, ids ignored, and with the same
    multiset of categories, ids and [createdAt] ignored. *)
Theorem backup_then_restore_keeps_the_rows
  (clock : nat -> Date) (userId : Z) (s : MemStorage N) :
  KeysOk s -> Filed s -> AsCreated userId s ->
  RoundTripButCreatedAt clock userId s.
Proof.
  intros HK HF (At & Ai & Ag & Ac). unfold RoundTripButCreatedAt. cbv zeta.
  destruct (restoreBackup_object clock userId
              {| d_transactions :=
                   Some (map transactionAsItem (getTransactions userId s));
                 d_incomes := Some (map incomeAsItem (getIncomes userId s));
                 d_budgets := Some (map budgetAsItem (getBudgets userId s));
                 d_goals := Some (map goalAsItem (getGoals userId s));
                 d_categories :=
                   Some (map categoryAsItem (getCategories userId s)) |}
              s HK HF) as ((E1 & E2 & E3 & E4 & E5) & _).
  cbn [arrayOf d_transactions d_incomes d_budgets d_goals d_categories] in *.
  split; [|split; [|split; [|split]]].
  - same_rows_back (@getTransactions_rowsOf N) E1.
    intros id k t Ht. destruct (At t Ht) as [Hr Hn].
    apply In_getTransactions in Ht as [_ Hu].
    destruct t; cbn in *. subst.
    unfold ignoreTransactionId, restoredTransaction, transactionAsItem; cbn.
    f_equal; now symmetry.
  - same_rows_back (@getIncomes_rowsOf N) E2.
    intros id k i Hi. pose proof (Ai i Hi) as Hr.
    apply In_getIncomes in Hi as [_ Hu].
    destruct i; cbn in *. subst.
    unfold ignoreIncomeId, restoredIncome, incomeAsItem; cbn.
    f_equal; now symmetry.
  - same_rows_back (@getBudgets_rowsOf N) E3.
    intros id k b Hb. apply In_getBudgets in Hb as [_ Hu].
    destruct b; cbn in *. now subst.
  - same_rows_back (@getGoals_rowsOf N) E4.
    intros id k g Hg. pose proof (Ag g Hg) as Ha.
    apply In_getGoals in Hg as [_ Hu].
    destruct g; cbn in *. subst.
    unfold ignoreGoalId, restoredGoal, goalAsItem; cbn.
    f_equal; now symmetry.
  - same_rows_back (@getCategories_rowsOf N) E5.
    intros id k c Hc. pose proof (Ac c Hc) as Ht.
    apply In_getCategories in Hc as [_ Hu].
    destruct c; cbn in *. subst.
    unfold ignoreCategoryIdAndCreatedAt, restoredCategory, categoryAsItem; cbn.
    f_equal; now symmetry.
Qed.
End RoundTripFacts.

Lemma backup_then_restore_keeps_the_rows_witness :
  (KeysOk Examples.twoUsers /\ Filed Examples.twoUsers
   /\ AsCreated 1 Examples.twoUsers)
  /\ RoundTripButCreatedAt (fun _ => 9000) 1 Examples.twoUsers.
Proof.
  assert (A : AsCreated 1 Examples.twoUsers).
  { unfold AsCreated. vm_compute.
    repeat split; intros;
      repeat match goal with
             | H : _ \/ _ |- _ => destruct H
             | H : False |- _ => destruct H
             | H : _ = _ |- _ => subst
             end; reflexivity. }
  split; [split; [|split]; [concrete_discipline | concrete_discipline | exact A]|].
  apply backup_then_restore_keeps_the_rows;
    [concrete_discipline | concrete_discipline | exact A].
Defined.

(** C1, as the specification states it, fails: the category of user 1 was
    created at time 5000; restored at time 9000, it carries 9000 as its
    [createdAt], because [createCategory] always writes the current time. *)
Lemma restored_category_has_new_createdAt :
  map cat_createdAt (getCategories 1 Examples.twoUsers) = [5000]
  /\ map cat_createdAt
       (getCategories 1 (backupThenRestore (fun _ => 9000) 1 Examples.twoUsers))
     = [9000]
  /\ ~ RoundTrip (fun _ => 9000) 1 Examples.twoUsers.
Proof.
  split; [reflexivity|]. split; [reflexivity|].
  intros (_ & _ & _ & _ & P).
  apply (Permutation_map cat_createdAt) in P. vm_compute in P.
  apply Permutation_length_1 in P. discriminate P.
Qed.

(* ================================================================== *)
(** * Spending by category *)
(* ================================================================== *)

(** [Float64.round] on the cases that tell [Math.round] apart from the
    other roundings: ties go up, also below zero; the largest number below
    one half goes down. *)
Lemma float64_round_examples :
  Float64.round 2.5%float = 3%float
  /\ Float64.round (-2.5)%float = (-2)%float
  /\ Float64.round 0.49999999999999994%float = 0%float
  /\ Float64.round 14.285714285714286%float = 14%float
  /\ Float64.round 4503599627370497%float = 4503599627370497%float.
Proof. repeat split. Qed.

(** The example of section 8. *)
Lemma section_eight_example :
  getSpendingReport 1 SpendingExamples.sectionEightFloat
  = {| total := 100%float;
       byCategory := [("food"%string, VNumber 80%float);
                      ("transport"%string, VNumber 20%float)] |}
  /\ getSpendingByCategory 1 SpendingExamples.sectionEightFloat
     = [ {| cs_category := "food"; cs_value := 80%float;
            cs_percentage := 80%float |};
         {| cs_category := "transport"; cs_value := 20%float;
            cs_percentage := 20%float |} ].
Proof. split; reflexivity. Qed.

Section StrMapFacts.
Context {V : Type}.
Implicit Types (m : StrMap.t V) (k : string) (v : V).

Lemma str_get_set k k' v m :
  StrMap.get k' (StrMap.set k v m)
  = if String.eqb k k' then Some v else StrMap.get k' m.
Proof.
  induction m as [|[k0 v0] m IH]; simpl.
  - reflexivity.
  - destruct (String.eqb_spec k0 k) as [->|Hne]; simpl.
    + destruct (String.eqb k k'); reflexivity.
    + rewrite IH. destruct (String.eqb_spec k0 k') as [->|Hne'].
      * destruct (String.eqb_spec k k'); [congruence | reflexivity].
      * reflexivity.
Qed.

Lemma str_In_keys_set k k' v m :
  In k' (StrMap.keys (StrMap.set k v m)) <-> k' = k \/ In k' (StrMap.keys m).
Proof.
  induction m as [|[k0 v0] m IH]; simpl.
  - split; [intros [<-|[]]; auto | intros [->|[]]; auto].
  - destruct (String.eqb_spec k0 k) as [->|Hne]; simpl.
    + split; [intros [<-|I]; auto | intros [->|[<-|I]]; auto].
    + rewrite IH. tauto.
Qed.

Lemma str_NoDup_set k v m :
  NoDup (StrMap.keys m) -> NoDup (StrMap.keys (StrMap.set k v m)).
Proof.
  induction m as [|[k0 v0] m IH]; simpl; intro Hnd.
  - constructor; [tauto | constructor].
  - inversion Hnd as [|? ? Hnotin Hnd']; subst.
    destruct (String.eqb_spec k0 k) as [->|Hne]; simpl.
    + constructor; assumption.
    + constructor; [|auto].
      change (map fst (StrMap.set k v m)) with (StrMap.keys (StrMap.set k v m)).
      rewrite str_In_keys_set. intros [E|I]; [congruence | exact (Hnotin I)].
Qed.

Lemma str_In_get k v m :
  NoDup (StrMap.keys m) -> In (k, v) m -> StrMap.get k m = Some v.
Proof.
  induction m as [|[k' v'] m IH]; simpl; [tauto|].
  intros Hnd [E|I].
  - injection E as -> ->. now rewrite String.eqb_refl.
  - inversion Hnd as [|? ? Hnotin Hnd']; subst.
    destruct (String.eqb_spec k' k) as [->|Hne].
    + exfalso. apply Hnotin. apply (in_map fst) in I. exact I.
    + auto.
Qed.

End StrMapFacts.

Section AccumulationFacts.
Context {N : Type} {num : JsNumber N}.
Implicit Types (m : StrMap.t N) (txs : list (Transaction N)).

Lemma accumulate_total txs : forall m tot,
  snd (fold_left spendingStep txs (m, tot))
  = fold_left num_add (map (@tx_amount N) txs) tot.
Proof.
  induction txs as [|t txs IH]; intros m tot; simpl; [reflexivity|].
  apply IH.
Qed.

Lemma accumulate_get c txs : forall m tot,
  StrMap.get c (fst (fold_left spendingStep txs (m, tot)))
  = fold_left addToEntry (amountsIn c txs) (StrMap.get c m).
Proof.
  induction txs as [|t txs IH]; intros m tot; simpl; [reflexivity|].
  rewrite IH, str_get_set. unfold amountsIn. simpl.
  destruct (String.eqb_spec (tx_category t) c) as [->|Hne]; simpl.
  - reflexivity.
  - reflexivity.
Qed.

Lemma accumulate_NoDup txs : forall m tot,
  NoDup (StrMap.keys m) ->
  NoDup (StrMap.keys (fst (fold_left spendingStep txs (m, tot)))).
Proof.
  induction txs as [|t txs IH]; intros m tot H; simpl; [exact H|].
  apply IH. now apply str_NoDup_set.
Qed.

Lemma accumulate_keys c txs : forall m tot,
  In c (StrMap.keys (fst (fold_left spendingStep txs (m, tot))))
  <-> In c (StrMap.keys m) \/ exists t, In t txs /\ tx_category t = c.
Proof.
  induction txs as [|t txs IH]; intros m tot; simpl.
  - split; [auto | intros [H|[t [[] _]]]; exact H].
  - rewrite IH, str_In_keys_set. split.
    + intros [[->|H]|[t' [H1 H2]]]; eauto.
    + intros [H|[t' [[<-|H1] H2]]]; eauto.
Qed.
End AccumulationFacts.

Section PositiveAmounts.
Context {N : Type} {num : JsNumber N} {pos : PositiveNumbers N}.

Lemma positive_or_zero (v : N) :
  num_gt v num_zero = true -> num_or v num_zero = v.
Proof. intro H. unfold num_or. now rewrite positive_truthy. Qed.

Lemma positive_running_sum (l : list N) : forall v,
  num_gt v num_zero = true ->
  Forall (fun a => num_gt a num_zero = true) l ->
  fold_left addToEntry l (Some v) = Some (fold_left num_add l v)
  /\ num_gt (fold_left num_add l v) num_zero = true.
Proof.
  induction l as [|a l IH]; intros v Hv Hl; simpl; [now split|].
  inversion Hl as [|? ? Ha Hl']; subst.
  unfold addToEntry at 2. rewrite positive_or_zero by assumption.
  apply IH; [now apply positive_add | assumption].
Qed.

Lemma positive_entry (l : list N) :
  l <> [] ->
  Forall (fun a => num_gt a num_zero = true) l ->
  fold_left addToEntry l None = Some (sumOf l)
  /\ num_gt (sumOf l) num_zero = true.
Proof.
  destruct l as [|a l]; [congruence|]. intros _ Hl.
  inversion Hl as [|? ? Ha Hl']; subst.
  unfold sumOf. simpl. unfold addToEntry at 2.
  apply positive_running_sum; [|assumption].
  now rewrite zero_add_positive.
Qed.

Lemma amountsIn_positive c (txs : list (Transaction N)) :
  (forall t, In t txs -> num_gt (tx_amount t) num_zero = true) ->
  Forall (fun a => num_gt a num_zero = true) (amountsIn c txs).
Proof.
  intro H. apply Forall_forall. intros a Ha. unfold amountsIn in Ha.
  apply in_map_iff in Ha as [t [<- Ht]]. apply filter_In in Ht as [Ht _]. auto.
Qed.

Lemma getSpendingByCategory_eq userId (s : MemStorage N) :
  getSpendingByCategory userId s
  = jsSort (fun a b => num_gt (num_sub (cs_value b) (cs_value a)) num_zero)
      (map (summaryOf (sumOf (map (@tx_amount N) (expensesOf userId s))))
           (fst (accumulateSpending (expensesOf userId s)))).
Proof.
  unfold getSpendingByCategory, expensesOf.
  set (exps := filter _ (getTransactions userId s)).
  pose proof (accumulate_total exps StrMap.empty num_zero) as Htot.
  unfold accumulateSpending in *.
  destruct (fold_left spendingStep exps (StrMap.empty, num_zero)) as [cm tot].
  cbn [fst snd] in *. subst tot. unfold StrMap.entries.
  f_equal. apply map_ext. intros [c v]. reflexivity.
Qed.

End PositiveAmounts.

(* ================================================================== *)
(** * Exact rational arithmetic satisfies both sets of laws *)
(* ================================================================== *)

Lemma exact_gt_true (a b : Qc) : Exact.gt a b = true <-> (b < a)%Qc.
Proof.
  unfold Exact.gt. rewrite Qclt_alt. unfold Qccompare.
  destruct (this b ?= this a)%Q; split; congruence.
Qed.

Lemma exact_gt_false (a b : Qc) : Exact.gt a b = false <-> (a <= b)%Qc.
Proof.
  rewrite <- not_true_iff_false, exact_gt_true.
  split; [apply Qcnot_lt_le | apply Qcle_not_lt].
Qed.

Lemma exact_truthy_false (a : Qc) : Exact.truthy a = false -> a = 0%Qc.
Proof.
  unfold Exact.truthy. intro H. apply negb_false_iff, Qeq_bool_iff in H.
  apply Qc_is_canon. exact H.
Qed.

Lemma this_plus (a b : Qc) : (this (a + b)%Qc == this a + this b)%Q.
Proof. change (this (a + b)%Qc) with (Qred (this a + this b)). apply Qred_correct. Qed.

#[export] Instance exact_sums : ExactSums Qc.
Proof.
  split; simpl.
  - apply Qcplus_comm.
  - intros a b c. symmetry. apply Qcplus_assoc.
  - apply Qcplus_0_l.
  - intro a. unfold num_or. simpl.
    destruct (Exact.truthy a) eqn:E; [reflexivity|].
    symmetry. now apply exact_truthy_false.
Qed.

#[export] Instance exact_positive : PositiveNumbers Qc.
Proof.
  split; simpl.
  - intros a Ha. apply exact_gt_true in Ha.
    destruct (Exact.truthy a) eqn:E; [reflexivity|].
    apply exact_truthy_false in E. subst a. now apply Qclt_not_eq in Ha.
  - intros a b Ha Hb. apply exact_gt_true in Ha, Hb. apply exact_gt_true.
    unfold Qclt in *. rewrite this_plus. simpl in *. lra.
  - intros a _. apply Qcplus_0_l.
  - apply exact_gt_false. apply Qcle_refl.
  - intros a b _ _. destruct (Exact.gt b a) eqn:E.
    + apply exact_gt_true in E. apply exact_gt_true.
      now apply Qclt_minus_iff in E.
    + apply exact_gt_false in E. apply exact_gt_false.
      apply Qcle_minus_iff in E.
      apply Qcopp_le_compat in E.
      replace (- 0)%Qc with 0%Qc in E by reflexivity.
      replace (- (a + - b))%Qc with (b - a)%Qc in E by ring.
      exact E.
  - intros a b _ _ H. apply exact_gt_true in H. apply exact_gt_false.
    now apply Qclt_le_weak.
  - intros a b c _ _ _ H1 H2. apply exact_gt_false in H1, H2.
    apply exact_gt_false. now apply Qcle_trans with b.
Qed.


(* ================================================================== *)
(** * The spending report *)
(* ================================================================== *)

Section ExactReport.
Context {N : Type} {num : JsNumber N} {exactness : ExactSums N}.

Lemma fold_add_start (l : list N) : forall z,
  fold_left num_add l z = num_add z (sumOf l).
Proof.
  unfold sumOf. induction l as [|x l IH]; intro z; simpl.
  - now rewrite add_comm, add_zero_l.
  - rewrite IH, (IH (num_add num_zero x)), add_zero_l. apply add_assoc.
Qed.

Lemma sumOf_cons (x : N) (l : list N) : sumOf (x :: l) = num_add x (sumOf l).
Proof. unfold sumOf at 1. simpl. now rewrite fold_add_start, add_zero_l. Qed.

Lemma sumOf_perm (l l' : list N) : Permutation l l' -> sumOf l = sumOf l'.
Proof.
  induction 1 as [|x l l' _ IH|x y l|l1 l2 l3 _ IH1 _ IH2].
  - reflexivity.
  - now rewrite !sumOf_cons, IH.
  - rewrite !sumOf_cons, <- !add_assoc. f_equal. apply add_comm.
  - congruence.
Qed.

(** Writing [current + amount] into the map adds [amount] to the sum of
    its values. *)
Lemma set_adds_to_sum c amount (m : StrMap.t N) :
  sumOf (map snd (StrMap.set c
                    (num_add (match StrMap.get c m with
                              | Some v => num_or v num_zero
                              | None => num_zero
                              end) amount) m))
  = num_add (sumOf (map snd m)) amount.
Proof.
  induction m as [|[k v] m IH]; simpl.
  - rewrite !sumOf_cons. unfold sumOf. simpl.
    now rewrite add_zero_l, add_comm, add_zero_l.
  - destruct (String.eqb k c); simpl.
    + rewrite !sumOf_cons, or_zero, !add_assoc. f_equal. apply add_comm.
    + rewrite !sumOf_cons, IH. now rewrite add_assoc.
Qed.

Lemma accumulate_sum (txs : list (Transaction N)) : forall m tot,
  sumOf (map snd m) = tot ->
  sumOf (map snd (fst (fold_left spendingStep txs (m, tot))))
  = snd (fold_left spendingStep txs (m, tot)).
Proof.
  induction txs as [|t txs IH]; intros m tot H; simpl; [exact H|].
  apply IH. rewrite set_adds_to_sum. now rewrite H.
Qed.
End ExactReport.

Section ReportFacts.
Context {N : Type} {num : JsNumber N}.

Lemma get_numbers c (m : StrMap.t N) :
  StrMap.get c (numbers m) = option_map VNumber (StrMap.get c m).
Proof.
  induction m as [|[k v] m IH]; simpl; [reflexivity|].
  destruct (String.eqb k c); [reflexivity | exact IH].
Qed.

Lemma set_numbers c x (m : StrMap.t N) :
  StrMap.set c (VNumber x) (numbers m) = numbers (StrMap.set c x m).
Proof.
  induction m as [|[k v] m IH]; simpl; [reflexivity|].
  destruct (String.eqb k c); simpl; [reflexivity | now rewrite IH].
Qed.

Lemma not_proto c : onObjectPrototype c = false -> String.eqb c "__proto__" = false.
Proof.
  intro H. destruct (String.eqb_spec c "__proto__") as [->|]; [|reflexivity].
  vm_compute in H. discriminate.
Qed.

(** On categories that are not names of [Object.prototype], the reducer of
    the report and the loop of [getSpendingByCategory] compute the same
    sums. *)
Lemma report_matches_accumulation (txs : list (Transaction N)) :
  (forall t, In t txs -> onObjectPrototype (tx_category t) = false) ->
  forall m tot,
    fold_left reportStep txs {| total := tot; byCategory := numbers m |}
    = {| total := snd (fold_left spendingStep txs (m, tot));
         byCategory := numbers (fst (fold_left spendingStep txs (m, tot))) |}.
Proof.
  induction txs as [|t txs IH]; intros Hc m tot; simpl; [reflexivity|].
  rewrite <- IH by (intros; apply Hc; now right).
  f_equal. unfold reportStep. cbn [total byCategory].
  assert (Ht : onObjectPrototype (tx_category t) = false) by (apply Hc; now left).
  unfold objSet, objGet. rewrite (not_proto _ Ht), get_numbers, Ht.
  destruct (StrMap.get (tx_category t) m); simpl; now rewrite set_numbers.
Qed.

Lemma sumValues_numbers (m : StrMap.t N) :
  sumValues (numbers m) = VNumber (sumOf (map snd m)).
Proof.
  unfold sumValues, sumOf. generalize (num_zero : N) as z.
  induction m as [|[k v] m IH]; intro z; simpl; [reflexivity|]. apply IH.
Qed.

End ReportFacts.



(** It fails as well, whatever the arithmetic, for a category named like a
    member of [Object.prototype]: reading [byCategory["__proto__"]] finds
    the prototype, the sum becomes a string, and the assignment is ignored;
    [byCategory] stays empty while [total] is 50. *)
Lemma report_loses_prototype_names :
  getSpendingReport 1 SpendingExamples.protoCategory
  = {| total := 50%float; byCategory := [] |}
  /\ getSpendingReport 1 SpendingExamples.constructorCategory
     = {| total := 50%float; byCategory := [("constructor"%string, VText)] |}
  /\ ~ ReportAddsUp 1 SpendingExamples.protoCategory
  /\ ~ ReportAddsUp 1 SpendingExamples.constructorCategory.
Proof.
  split; [reflexivity|]. split; [reflexivity|].
  split; unfold ReportAddsUp; intro H;
    apply (f_equal (fun v => match v with
                             | VNumber x => PrimFloat.eqb x 50%float
                             | _ => false
                             end)) in H;
    vm_compute in H; discriminate.
Qed.

(* ================================================================== *)
(** * The sum of the percentages *)
(* ================================================================== *)


(** The same seven categories in exact arithmetic: 98 again, so the gap is
    not an effect of floating point. *)
Lemma seven_categories_sum_to_98_exactly :
  this (sumOf (map (@cs_percentage Qc)
                 (getSpendingByCategory 1 SpendingExamples.sevenCategoriesExact)))
  = (98 # 1)%Q.
Proof. vm_compute. reflexivity. Qed.

Section ExactPercentages.
Local Open Scope Q_scope.

Lemma this_mult (a b : Qc) : this (a * b)%Qc == this a * this b.
Proof. change (this (a * b)%Qc) with (Qred (this a * this b)). apply Qred_correct. Qed.

Lemma this_inv (a : Qc) : this (/ a)%Qc == / this a.
Proof. change (this (/ a)%Qc) with (Qred (/ this a)). apply Qred_correct. Qed.

Lemma this_div (a b : Qc) : this (a / b)%Qc == this a / this b.
Proof.
  unfold Qcdiv. rewrite this_mult, this_inv. reflexivity.
Qed.

Lemma this_sumOf (l : list Qc) : this (sumOf l) == qsum l.
Proof.
  induction l as [|x l IH].
  - reflexivity.
  - rewrite sumOf_cons. simpl num_add. rewrite this_plus, IH. reflexivity.
Qed.

(** [Math.round] moves an exact number by at most one half. *)
Lemma exact_round_bounds (x : Qc) :
  this x - (1 # 2) <= this (Exact.round x) /\ this (Exact.round x) <= this x + (1 # 2).
Proof.
  unfold Exact.round.
  change (this (Q2Qc (inject_Z (Qfloor (this (x + Exact.half)%Qc)))))
    with (Qred (inject_Z (Qfloor (this (x + Exact.half)%Qc)))).
  rewrite Qred_correct.
  assert (E : this (x + Exact.half)%Qc == this x + (1 # 2)).
  { rewrite this_plus. reflexivity. }
  pose proof (Qfloor_le (this (x + Exact.half)%Qc)) as Hle.
  pose proof (Qlt_floor (this (x + Exact.half)%Qc)) as Hlt.
  pose proof (inject_Z_plus (Qfloor (this (x + Exact.half)%Qc)) 1) as Hp.
  change (inject_Z 1) with 1 in Hp. rewrite Hp in Hlt. clear Hp.
  generalize dependent (inject_Z (Qfloor (this (x + Exact.half)%Qc))).
  generalize dependent (this (x + Exact.half)%Qc).
  intros y E f Hle Hlt. split; lra.
Qed.
Lemma this_percentage (v tot : Qc) :
  this (v / tot * Q2Qc (inject_Z 100))%Qc == this v * / this tot * 100.
Proof.
  rewrite this_mult, this_div. unfold Qdiv.
  change (this (Q2Qc (inject_Z 100))) with (Qred (inject_Z 100)).
  rewrite Qred_correct. reflexivity.
Qed.

Lemma rounded_sum_bound (tot : Qc) (l : list Qc) :
  let rs := map (fun v => Exact.round (v / tot * Q2Qc (inject_Z 100))%Qc) l in
  let n := inject_Z (Z.of_nat (List.length l)) in
  qsum l * / this tot * 100 - n / 2 <= qsum rs
  /\ qsum rs <= qsum l * / this tot * 100 + n / 2.
Proof.
  cbv zeta. induction l as [|v l IH].
  - simpl. change (inject_Z 0) with 0. generalize (/ this tot). intro c.
    unfold Qdiv. split; lra.
  - cbn [map List.length qsum fold_right].
    fold (qsum l).
    fold (qsum (map (fun v => Exact.round (v / tot * Q2Qc (inject_Z 100))%Qc) l)).
    destruct (exact_round_bounds (v / tot * Q2Qc (inject_Z 100))%Qc) as [Hlo Hhi].
    rewrite this_percentage in Hlo, Hhi.
    rewrite Nat2Z.inj_succ, <- Z.add_1_r, inject_Z_plus.
    change (inject_Z 1) with 1.
    assert (E : (this v + qsum l) * / this tot * 100
                == this v * / this tot * 100 + qsum l * / this tot * 100) by ring.
    rewrite E. clear E.
    generalize dependent (qsum (map (fun v => Exact.round (v / tot * Q2Qc (inject_Z 100))%Qc) l)).
    generalize dependent (this (Exact.round (v / tot * Q2Qc (inject_Z 100))%Qc)).
    generalize dependent (this v * / this tot * 100).
    generalize dependent (qsum l * / this tot * 100).
    generalize dependent (inject_Z (Z.of_nat (List.length l))).
    unfold Qdiv. change (/ 2) with (1 # 2).
    intros q q0 q1 q2 Hlo Hhi q3 [IH1 IH2]. split; lra.
Qed.

End ExactPercentages.


(* ================================================================== *)
(** * More facts about [jsSort]: sorting by a date *)
(* ================================================================== *)

Section DateSort.
Context {T : Type} (date : T -> Date).

(** Sorting a list that is already in order changes nothing. *)
Lemma jsSort_sorted_same (l : list T) :
  StronglySorted (fun x y => date y <= date x) l -> jsSort (fun a b => date a <? date b) l = l.
Proof.
  induction 1 as [|x l Hs IH Hall]; simpl; [reflexivity|].
  rewrite IH. destruct l as [|y l']; simpl; [reflexivity|].
  inversion Hall as [|? ? Hy _]; subst.
  destruct (Z.ltb_spec (date x) (date y)); [lia | reflexivity].
Qed.

Lemma insertSorted_first (p : T -> bool) (x : T) (l : list T) :
  Forall (fun z => date z <= date x) l ->
  insertSorted (fun a b => date a <? date b) x (filter p l) = x :: filter p l.
Proof.
  induction l as [|z l IH]; simpl; intro Hl; [reflexivity|].
  inversion Hl as [|? ? Hz Hl']; subst.
  destruct (p z); simpl; [|now apply IH].
  destruct (Z.ltb_spec (date x) (date z)); [lia | reflexivity].
Qed.

Lemma insertSorted_filter (p : T -> bool) (x : T) (l : list T) :
  StronglySorted (fun x y => date y <= date x) l ->
  filter p (insertSorted (fun a b => date a <? date b) x l)
  = if p x then insertSorted (fun a b => date a <? date b) x (filter p l) else filter p l.
Proof.
  induction 1 as [|y l Hs IH Hall]; simpl.
  - destruct (p x); reflexivity.
  - destruct (Z.ltb_spec (date x) (date y)) as [Hlt|Hge]; simpl.
    + destruct (p y) eqn:Py; simpl.
      * rewrite IH. destruct (p x); [|reflexivity]. simpl.
        destruct (Z.ltb_spec (date x) (date y)); [reflexivity | lia].
      * exact IH.
    + destruct (p x) eqn:Px; [|reflexivity].
      change (if p y then y :: filter p l else filter p l) with (filter p (y :: l)).
      symmetry. apply insertSorted_first. constructor; [exact Hge|].
      eapply Forall_impl; [|exact Hall]. simpl. intros; lia.
Qed.

(** The sort is stable: it commutes with the selection of a sublist. *)
Lemma filter_jsSort (p : T -> bool) (l : list T) :
  filter p (jsSort (fun a b => date a <? date b) l) = jsSort (fun a b => date a <? date b) (filter p l).
Proof.
  induction l as [|x l IH]; simpl; [reflexivity|].
  rewrite insertSorted_filter by apply sorted_newest_first.
  rewrite IH. destruct (p x); reflexivity.
Qed.

(** A row newer than all the others is listed first. *)
Lemma jsSort_newest (x : T) (l : list T) :
  Forall (fun y => date y < date x) l ->
  jsSort (fun a b => date a <? date b) (l ++ [x]) = x :: jsSort (fun a b => date a <? date b) l.
Proof.
  induction l as [|y l IH]; simpl; intro H; [reflexivity|].
  inversion H as [|? ? Hy Hl]; subst.
  rewrite IH by assumption. simpl.
  destruct (Z.ltb_spec (date y) (date x)); [reflexivity | lia].
Qed.

(** Rows of one date come out of the sort in the order they went in. *)
Lemma datedAt_jsSort (d : Date) (l : list T) :
  datedAt date d (jsSort (fun a b => date a <? date b) l) = datedAt date d l.
Proof.
  unfold datedAt. rewrite filter_jsSort. apply jsSort_sorted_same.
  induction l as [|x l IH]; simpl; [constructor|].
  destruct (Z.eqb_spec (date x) d) as [E|NE]; [|exact IH].
  constructor; [exact IH|].
  apply Forall_forall. intros y Hy. apply filter_In in Hy as [_ Hy].
  apply Z.eqb_eq in Hy. lia.
Qed.
End DateSort.

(* ================================================================== *)
(** * Rows by id: create, look up, delete *)
(* ================================================================== *)

Section JsMapDelete.
Context {V : Type}.
Implicit Types (m : JsMap.t V) (k : Z).

Lemma has_get k m : JsMap.has k m = true <-> JsMap.get k m <> None.
Proof.
  unfold JsMap.has. destruct (JsMap.get k m); split; congruence.
Qed.

Lemma get_delete_same k m : JsMap.get k (JsMap.delete k m) = None.
Proof.
  apply get_None_iff. unfold JsMap.keys. intro I.
  apply in_map_iff in I as [e [E I]]. apply In_delete in I as [_ NE]. congruence.
Qed.

Lemma get_delete_other k k' m :
  k' <> k -> JsMap.get k' (JsMap.delete k m) = JsMap.get k' m.
Proof.
  intro NE. unfold JsMap.delete.
  induction m as [|[k0 v0] m IH]; simpl; [reflexivity|].
  destruct (Z.eqb_spec k0 k) as [->|NE0]; simpl.
  - destruct (Z.eqb_spec k k'); [congruence | exact IH].
  - now rewrite IH.
Qed.

Lemma delete_delete k m : JsMap.delete k (JsMap.delete k m) = JsMap.delete k m.
Proof.
  unfold JsMap.delete. induction m as [|e m IH]; simpl; [reflexivity|].
  destruct (negb (fst e =? k)) eqn:E; simpl; [rewrite E; now f_equal | exact IH].
Qed.

Lemma has_delete k m : JsMap.has k (JsMap.delete k m) = false.
Proof. unfold JsMap.has. now rewrite get_delete_same. Qed.

Lemma set_set k v v' m : JsMap.set k v' (JsMap.set k v m) = JsMap.set k v' m.
Proof.
  induction m as [|[k0 v0] m IH]; simpl.
  - now rewrite Z.eqb_refl.
  - destruct (Z.eqb_spec k0 k) as [->|NE]; simpl.
    + now rewrite Z.eqb_refl.
    + destruct (Z.eqb_spec k0 k); [contradiction | now f_equal].
Qed.

Lemma keys_set_get k v v' m :
  JsMap.get k m = Some v' -> JsMap.keys (JsMap.set k v m) = JsMap.keys m.
Proof.
  intro G. apply keys_set_present. apply get_In in G.
  unfold JsMap.keys. apply in_map_iff. now exists (k, v').
Qed.

Lemma values_app m m' : JsMap.values (m ++ m') = JsMap.values m ++ JsMap.values m'.
Proof. apply map_app. Qed.
End JsMapDelete.

(** X1. A row is found under the id its [create] call returns: after
    [createUser], [getUser] of the new id (the former value of the counter)
    returns the user created and every other id reads as before; likewise
    [createTransaction] and [getTransactionById]. *)
Theorem created_rows_are_found
  {N : Type} (now : Date) (insertUser : InsertUser)
  (insertTransaction : InsertTransaction N) (s : MemStorage N) :
  (let user := fst (createUser now insertUser s) in
   let s' := snd (createUser now insertUser s) in
   user_id user = currentUserId s
   /\ getUser (user_id user) s' = Some user
   /\ forall id, id <> user_id user -> getUser id s' = getUser id s)
  /\ (let transaction := fst (createTransaction now insertTransaction s) in
      let s' := snd (createTransaction now insertTransaction s) in
      tx_id transaction = currentTransactionId s
      /\ getTransactionById (tx_id transaction) s' = Some transaction
      /\ forall id, id <> tx_id transaction ->
                    getTransactionById id s' = getTransactionById id s).
Proof.
  cbv zeta. unfold getUser, getTransactionById. simpl.
  repeat split; try apply get_set_same; intros id H; apply get_set_other; congruence.
Qed.

(** X2. Each of [deleteTransaction], [deleteIncome], [deleteBudget] and
    [deleteGoal] returns [true] exactly when a row was held under the id;
    afterwards no row is held under it, every other id reads as before, and
    deleting again returns [false] and changes nothing. *)
Theorem delete_removes_the_row {N : Type} (id : Z) (s : MemStorage N) :
  DeletesTheRow getTransactionById deleteTransaction id s
  /\ DeletesTheRow (fun id s => JsMap.get id (incomes s)) deleteIncome id s
  /\ DeletesTheRow (fun id s => JsMap.get id (budgets s)) deleteBudget id s
  /\ DeletesTheRow (fun id s => JsMap.get id (goals s)) deleteGoal id s.
Proof.
  unfold DeletesTheRow, getTransactionById, deleteTransaction, deleteIncome,
    deleteBudget, deleteGoal.
  cbn [fst snd transactions incomes budgets goals set_transactions set_incomes
       set_budgets set_goals].
  repeat split;
    try (apply has_get; assumption);
    try (intro; apply has_get; assumption);
    try apply get_delete_same;
    try (intros; now apply get_delete_other);
    rewrite has_delete, delete_delete; reflexivity.
Qed.

(* ================================================================== *)
(** * Notifications *)
(* ================================================================== *)

(** X3. [getNotifications(userId)] returns exactly the notifications of the
    user, the newest first; notifications created at the same instant keep
    the order in which they were inserted. *)
Theorem getNotifications_lists_newest_first
  {N : Type} (userId : Z) (s : MemStorage N) :
  let listed := getNotifications userId s in
  let owned := ownedRows notif_userId userId (notifications s) in
  Permutation listed owned
  /\ StronglySorted (fun x y => notif_createdAt y <= notif_createdAt x) listed
  /\ forall d, datedAt notif_createdAt d listed = datedAt notif_createdAt d owned.
Proof.
  cbv zeta. unfold getNotifications, ownedRows. split; [|split].
  - apply jsSort_perm.
  - apply (sorted_newest_first notif_createdAt).
  - intro d. apply (datedAt_jsSort notif_createdAt).
Qed.

(** X4. In the listings of [getTransactions] and [getIncomes] too, rows of
    the same date keep the insertion order of the map. *)
Theorem listings_keep_insertion_order_among_equal_dates
  {N : Type} (userId : Z) (d : Date) (s : MemStorage N) :
  datedAt (@tx_date N) d (getTransactions userId s)
  = datedAt (@tx_date N) d (ownedRows (@tx_userId N) userId (transactions s))
  /\ datedAt (@inc_date N) d (getIncomes userId s)
     = datedAt (@inc_date N) d (ownedRows (@inc_userId N) userId (incomes s)).
Proof.
  unfold getTransactions, getIncomes, ownedRows. split.
  - apply (datedAt_jsSort (@tx_date N)).
  - apply (datedAt_jsSort (@inc_date N)).
Qed.

Lemma markRead_read (n : Notification) : notif_read n = true -> markRead n = n.
Proof. destruct n as [i u m r c]. simpl. intros ->. reflexivity. Qed.

Lemma markRead_twice (n : Notification) : markRead (markRead n) = markRead n.
Proof. reflexivity. Qed.

(** X5. [markNotificationAsRead(id)]: when no notification is held under
    the id it returns [undefined] and the store is as before; otherwise it
    returns the notification with [read] set, stores it under the same id,
    and changes no other notification, no other map and no counter; a
    second call returns the same notification and changes nothing. *)
Theorem markNotificationAsRead_marks_the_row
  {N : Type} (id : Z) (s : MemStorage N) :
  let s' := snd (markNotificationAsRead id s) in
  match JsMap.get id (notifications s) with
  | None => markNotificationAsRead id s = (None, s)
  | Some notification =>
      fst (markNotificationAsRead id s) = Some (markRead notification)
      /\ JsMap.get id (notifications s') = Some (markRead notification)
      /\ (forall id', id' <> id ->
            JsMap.get id' (notifications s') = JsMap.get id' (notifications s))
      /\ JsMap.keys (notifications s') = JsMap.keys (notifications s)
      /\ frameOfNotifications s' = frameOfNotifications s
      /\ markNotificationAsRead id s' = (Some (markRead notification), s')
  end.
Proof.
  cbv zeta. unfold markNotificationAsRead.
  destruct (JsMap.get id (notifications s)) as [n|] eqn:G; [|reflexivity].
  cbn [fst snd notifications set_notifications].
  split; [reflexivity|]. split; [apply get_set_same|].
  split; [intros id' H; apply get_set_other; congruence|].
  split; [now apply keys_set_get with n|].
  split; [reflexivity|].
  rewrite get_set_same, set_set. reflexivity.
Qed.

Section MarkAll.
Context {N : Type}.

(** The loop of [markAllNotificationsAsRead], on the map. *)
Lemma markAll_notifications (userId : Z) (s : MemStorage N) :
  notifications (markAllNotificationsAsRead userId s)
  = fold_left
      (fun m n => if negb (notif_read n)
                  then JsMap.set (notif_id n) (markRead n) m else m)
      (getNotifications userId s) (notifications s).
Proof.
  unfold markAllNotificationsAsRead.
  apply (fold_left_proj (@notifications N)).
  intros s0 n. now destruct (negb (notif_read n)).
Qed.

Lemma markAll_frame (userId : Z) (s : MemStorage N) :
  frameOfNotifications (markAllNotificationsAsRead userId s)
  = frameOfNotifications s.
Proof.
  unfold markAllNotificationsAsRead. apply fold_left_keep.
  intros s0 n. now destruct (negb (notif_read n)).
Qed.

Lemma mark_loop (rows : list Notification) (m0 : JsMap.t Notification) :
  (forall n, In n rows -> JsMap.get (notif_id n) m0 = Some n) ->
  let m := fold_left
             (fun m n => if negb (notif_read n)
                         then JsMap.set (notif_id n) (markRead n) m else m)
             rows m0 in
  JsMap.keys m = JsMap.keys m0
  /\ forall k n0, JsMap.get k m0 = Some n0 ->
       JsMap.get k m
       = Some (if existsb (fun n => notif_id n =? k) rows
               then markRead n0 else n0).
Proof.
  cbv zeta. induction rows as [|n rows IH] using rev_ind; intro Hrows.
  - simpl. split; [reflexivity | auto].
  - rewrite fold_left_app. cbn [fold_left].
    destruct IH as [Hkeys Hget].
    { intros r Hr. apply Hrows. apply in_or_app. now left. }
    assert (Hn : JsMap.get (notif_id n) m0 = Some n).
    { apply Hrows. apply in_or_app. right. now left. }
    set (m := fold_left _ rows m0) in *.
    split.
    + destruct (negb (notif_read n)); [|exact Hkeys].
      rewrite <- Hkeys. apply keys_set_present. rewrite Hkeys.
      apply get_In in Hn. unfold JsMap.keys. apply in_map_iff. now exists (notif_id n, n).
    + intros k n0 G. rewrite existsb_app. cbn [existsb]. rewrite orb_false_r.
      destruct (Z.eqb_spec (notif_id n) k) as [E|NE].
      * subst k. rewrite orb_true_r.
        assert (n0 = n) by congruence. subst n0.
        destruct (notif_read n) eqn:R; cbn [negb].
        -- rewrite (Hget _ _ G). rewrite markRead_read by exact R.
           now destruct (existsb _ rows).
        -- apply get_set_same.
      * rewrite orb_false_r.
        destruct (negb (notif_read n)); [|now apply Hget].
        rewrite get_set_other by exact NE. now apply Hget.
Qed.
End MarkAll.

Lemma markAll_rows
  {N : Type} (userId : Z) (s : MemStorage N) :
  Disciplined s ->
  let s' := markAllNotificationsAsRead userId s in
  JsMap.keys (notifications s') = JsMap.keys (notifications s)
  /\ (forall id n, JsMap.get id (notifications s) = Some n ->
        JsMap.get id (notifications s')
        = Some (if notif_userId n =? userId then markRead n else n))
  /\ frameOfNotifications s' = frameOfNotifications s.
Proof.
  intros (((_ & _) & (Wn & _) & _) & _ & Fn & _). cbv zeta.
  rewrite markAll_notifications.
  assert (Hrows : forall n, In n (getNotifications userId s) ->
                            JsMap.get (notif_id n) (notifications s) = Some n).
  { intros n Hn. unfold getNotifications in Hn.
    apply In_jsSort, filter_In in Hn as [Hn _].
    unfold JsMap.values in Hn. apply in_map_iff in Hn as [[k v] [E Hn]].
    simpl in E. subst v. rewrite (Fn _ _ Hn). now apply In_get. }
  destruct (mark_loop _ _ Hrows) as [Hkeys Hget].
  split; [exact Hkeys|]. split; [|apply markAll_frame].
  intros id n G. rewrite (Hget _ _ G). f_equal.
  destruct (Z.eqb_spec (notif_userId n) userId) as [E|NE].
  - replace (existsb _ _) with true; [reflexivity|].
    symmetry. apply existsb_exists. exists n. split.
    + unfold getNotifications. apply In_jsSort, filter_In. split.
      * apply get_In in G. unfold JsMap.values. apply in_map_iff. now exists (id, n).
      * now apply Z.eqb_eq.
    + apply Z.eqb_eq. now apply get_filed with (notifications s).
  - replace (existsb _ _) with false; [reflexivity|].
    symmetry. apply not_true_is_false. intro Hex.
    apply existsb_exists in Hex as [r [Hr Hid]]. apply Z.eqb_eq in Hid.
    pose proof (Hrows _ Hr) as Gr. rewrite Hid in Gr.
    assert (r = n) by congruence. subst r.
    unfold getNotifications in Hr. apply In_jsSort, filter_In in Hr as [_ Hr].
    apply Z.eqb_eq in Hr. contradiction.
Qed.

(** X6. On a store that keeps the identifier discipline,
    [markAllNotificationsAsRead(userId)] sets [read] on every notification
    of the user and changes nothing else: the same ids are in use, each
    notification of the user is stored with [read] set and its other
    properties as they were, the notifications of other users, the other
    maps and the counters are untouched. *)
Theorem markAllNotificationsAsRead_marks_every_row_of_the_user
  {N : Type} (userId : Z) (s : MemStorage N) :
  Disciplined s ->
  let s' := markAllNotificationsAsRead userId s in
  JsMap.keys (notifications s') = JsMap.keys (notifications s)
  /\ (forall id n, JsMap.get id (notifications s) = Some n ->
        JsMap.get id (notifications s')
        = Some (if notif_userId n =? userId then markRead n else n))
  /\ frameOfNotifications s' = frameOfNotifications s.
Proof. exact (markAll_rows userId s). Qed.

Lemma markAllNotificationsAsRead_marks_every_row_of_the_user_witness :
  Disciplined ApiExamples.household
  /\ JsMap.get 3 (notifications (markAllNotificationsAsRead 1 ApiExamples.household))
     = option_map markRead (JsMap.get 3 (notifications ApiExamples.household))
  /\ JsMap.get 2 (notifications (markAllNotificationsAsRead 1 ApiExamples.household))
     = JsMap.get 2 (notifications ApiExamples.household).
Proof.
  assert (D : Disciplined ApiExamples.household) by concrete_discipline.
  split; [exact D|].
  destruct (markAllNotificationsAsRead_marks_every_row_of_the_user
              1 ApiExamples.household D) as (_ & H & _).
  split.
  - destruct (JsMap.get 3 (notifications ApiExamples.household)) as [n|] eqn:G;
      [|discriminate G].
    rewrite (H 3 n G). assert (O : notif_userId n = 1) by (vm_compute in G; now injection G as <-).
    now rewrite O.
  - destruct (JsMap.get 2 (notifications ApiExamples.household)) as [n|] eqn:G;
      [|discriminate G].
    rewrite (H 2 n G). assert (O : notif_userId n = 2) by (vm_compute in G; now injection G as <-).
    now rewrite O.
Defined.


(* ================================================================== *)
(** * What no operation does to users and notifications *)
(* ================================================================== *)

Section Accounts.
Context {N : Type} {num : JsNumber N}.
Implicit Types (s : MemStorage N).

Lemma accountsOf_eq s s' :
  accountsOf s' = accountsOf s ->
  users s' = users s /\ notifications s' = notifications s
  /\ currentUserId s' = currentUserId s
  /\ currentNotificationId s' = currentNotificationId s.
Proof.
  intro H. repeat split.
  - exact (f_equal (fun a => fst (fst (fst a))) H).
  - exact (f_equal (fun a => snd (fst (fst a))) H).
  - exact (f_equal (fun a => snd (fst a)) H).
  - exact (f_equal (fun a => snd a) H).
Qed.

Lemma restoreFrom_accounts clock userId (o : RestoreObject N) s :
  accountsOf (restoreFrom clock userId o s) = accountsOf s.
Proof.
  unfold restoreFrom.
  change (accountsOf s) with (accountsOf (fst (s, 0%nat))).
  generalize (s, 0%nat) as sk. intro sk.
  repeat match goal with
  | |- accountsOf (fst (whenArray ?xs ?loop ?sk0)) = _ =>
      transitivity (accountsOf (fst sk0));
      [ destruct xs as [items|]; [|reflexivity];
        unfold whenArray, restoreTransactions, restoreIncomes, restoreBudgets,
          restoreGoals, restoreCategories;
        apply (fold_left_keep (fun sk : MemStorage N * nat => accountsOf (fst sk)));
        intros [s0 k0] x; reflexivity
      | ]
  end.
  reflexivity.
Qed.

Lemma restoreBackup_accounts clock userId (data : RestoreData N) s :
  accountsOf (snd (restoreBackup clock userId data s)) = accountsOf s.
Proof.
  pose proof (removeExisting_untouched userId s) as E.
  unfold untouchedByRemoval in E. injection E as E1 E2 E3 E4 _ _ _ _ _.
  unfold restoreBackup. destruct data; cbn [snd].
  - unfold accountsOf. now rewrite E1, E2, E3, E4.
  - rewrite restoreFrom_accounts. unfold accountsOf. now rewrite E1, E2, E3, E4.
Qed.

(** Every operation but [createUser] and the notification methods leaves
    users, notifications and their counters alone. *)
Lemma step_accounts s (op : Op N) :
  match op with
  | OpCreateUser _ _ | OpCreateNotification _ _
  | OpMarkNotificationAsRead _ | OpMarkAllNotificationsAsRead _ => True
  | _ => accountsOf (step s op) = accountsOf s
  end.
Proof.
  destruct op; cbn [step]; try exact I; try reflexivity.
  - unfold updateTransaction. now destruct (JsMap.get id (transactions s)).
  - unfold updateIncome. now destruct (JsMap.get id (incomes s)).
  - unfold updateBudget. now destruct (JsMap.get id (budgets s)).
  - unfold updateGoal. now destruct (JsMap.get id (goals s)).
  - apply restoreBackup_accounts.
Qed.

Lemma step_users s (op : Op N) :
  Disciplined s ->
  users (step s op) = users s
  \/ exists now u,
       op = OpCreateUser now u
       /\ users (step s op) = users s ++ [(currentUserId s, fst (createUser now u s))]
       /\ currentUserId (step s op) = currentUserId s + 1.
Proof.
  intros (((Wu & Bu) & _) & _).
  pose proof (step_accounts s op) as H.
  destruct op;
    try (left; cbn beta iota in H; unfold accountsOf in H; congruence).
  - right. exists now, u. split; [reflexivity|]. cbn [step]. simpl.
    split; [|reflexivity]. apply set_fresh. now apply keysBelow_fresh.
  - left. reflexivity.
  - left. cbn [step]. unfold markNotificationAsRead.
    now destruct (JsMap.get id (notifications s)).
  - left. cbn [step].
    pose proof (markAllNotificationsAsRead_others userId s) as E.
    unfold mapsButNotifications in E. now injection E as -> _ _ _ _ _.
Qed.

Lemma step_keeps_notification s (op : Op N) id n :
  Disciplined s ->
  JsMap.get id (notifications s) = Some n ->
  JsMap.get id (notifications (step s op)) = Some n
  \/ JsMap.get id (notifications (step s op)) = Some (markRead n).
Proof.
  intros HD G.
  pose proof (step_accounts s op) as H.
  destruct op;
    try (left; cbn beta iota in H; unfold accountsOf in H; congruence).
  - left. exact G.
  - left. cbn [step]. simpl. rewrite get_set_other; [exact G|].
    destruct HD as ((_ & (_ & Bn) & _) & _).
    apply (get_key_below _ _ _ _ Bn) in G. lia.
  - cbn [step]. unfold markNotificationAsRead.
    destruct (JsMap.get id0 (notifications s)) as [n0|] eqn:G0; [|now left].
    cbn [snd notifications set_notifications].
    destruct (Z.eq_dec id0 id) as [->|NE].
    + right. rewrite get_set_same. congruence.
    + left. now rewrite get_set_other.
  - cbn [step].
    destruct (markAll_rows
                userId s HD) as (_ & Hget & _).
    rewrite (Hget _ _ G). destruct (notif_userId n =? userId); auto.
Qed.
End Accounts.

(** ** Users and notifications over runs of operations *)

Section AccountsOverRuns.
Context {N : Type} {num : JsNumber N}.
Implicit Types (s : MemStorage N).

Lemma get_app_left {V : Type} k (v : V) (m m' : JsMap.t V) :
  JsMap.get k m = Some v -> JsMap.get k (m ++ m') = Some v.
Proof.
  induction m as [|[k0 v0] m IH]; simpl; [discriminate|].
  destruct (k0 =? k); auto.
Qed.

Lemma find_app_left {A : Type} (p : A -> bool) (x : A) (l l' : list A) :
  find p l = Some x -> find p (l ++ l') = Some x.
Proof.
  induction l as [|y l IH]; simpl; [discriminate|].
  destruct (p y); auto.
Qed.

Lemma run_users (ops : list (Op N)) : forall s,
  Disciplined s -> exists added, users (run ops s) = users s ++ added.
Proof.
  induction ops as [|op ops IH]; intros s HD.
  - exists []. simpl. now rewrite app_nil_r.
  - change (run (op :: ops) s) with (run ops (step s op)).
    destruct (IH (step s op) (step_Disciplined s op HD)) as [added E].
    destruct (step_users s op HD) as [Eu|(now & u & _ & Eu & _)].
    + exists added. now rewrite E, Eu.
    + eexists. rewrite E, Eu, <- app_assoc. reflexivity.
Qed.

Lemma run_keeps_notification (ops : list (Op N)) id : forall s n,
  Disciplined s ->
  JsMap.get id (notifications s) = Some n ->
  JsMap.get id (notifications (run ops s)) = Some n
  \/ JsMap.get id (notifications (run ops s)) = Some (markRead n).
Proof.
  induction ops as [|op ops IH]; intros s n HD G; [now left|].
  change (run (op :: ops) s) with (run ops (step s op)).
  pose proof (step_Disciplined s op HD) as HD'.
  destruct (step_keeps_notification s op id n HD G) as [G'|G'].
  - exact (IH _ _ HD' G').
  - destruct (IH _ _ HD' G') as [G''|G'']; right; exact G''.
Qed.
End AccountsOverRuns.

(** X7. No sequence of storage operations deletes or edits a notification:
    on a store that keeps the identifier discipline, a notification held
    under an id is still held under it after any run, unchanged or with
    [read] set; a notification that was read stays read. *)
Theorem notifications_are_kept
  {N : Type} {num : JsNumber N}
  (ops : list (Op N)) (s : MemStorage N) (id : Z) (n : Notification) :
  Disciplined s ->
  JsMap.get id (notifications s) = Some n ->
  exists n',
    JsMap.get id (notifications (run ops s)) = Some n'
    /\ (n' = n \/ n' = markRead n)
    /\ (notif_read n = true -> n' = n).
Proof.
  intros HD G.
  destruct (run_keeps_notification ops id s n HD G) as [G'|G'].
  - exists n. auto.
  - exists (markRead n). split; [exact G'|]. split; [now right|].
    apply markRead_read.
Qed.

Lemma notifications_are_kept_witness :
  (Disciplined ApiExamples.household
   /\ JsMap.get 1 (notifications ApiExamples.household) = Some ApiExamples.adaWelcome)
  /\ exists n',
       JsMap.get 1 (notifications
                      (run [OpMarkAllNotificationsAsRead 2; OpDeleteTransaction 1]
                           ApiExamples.household)) = Some n'
       /\ (n' = ApiExamples.adaWelcome \/ n' = markRead ApiExamples.adaWelcome)
       /\ (notif_read ApiExamples.adaWelcome = true -> n' = ApiExamples.adaWelcome).
Proof.
  assert (D : Disciplined ApiExamples.household) by concrete_discipline.
  split; [split; [exact D | reflexivity]|].
  apply notifications_are_kept; [exact D | reflexivity].
Defined.


(** X8. No sequence of storage operations deletes, edits or shadows a
    user: on a store that keeps the identifier discipline, the users map
    only grows at its end, so [getUser], [getUserByUsername] and
    [getUserByEmail] keep returning the user they returned before. *)
Theorem users_are_kept
  {N : Type} {num : JsNumber N} (ops : list (Op N)) (s : MemStorage N) :
  Disciplined s ->
  (exists added, users (run ops s) = users s ++ added)
  /\ (forall id user, getUser id s = Some user ->
                      getUser id (run ops s) = Some user)
  /\ (forall username user, getUserByUsername username s = Some user ->
                            getUserByUsername username (run ops s) = Some user)
  /\ (forall email user, getUserByEmail email s = Some user ->
                         getUserByEmail email (run ops s) = Some user).
Proof.
  intro HD. destruct (run_users ops s HD) as [added E].
  split; [now exists added|].
  unfold getUser, getUserByUsername, getUserByEmail. rewrite E, values_app.
  repeat split; intros ? ?; [apply get_app_left | apply find_app_left | apply find_app_left].
Qed.

Lemma users_are_kept_witness :
  Disciplined ApiExamples.household
  /\ getUserByEmail "bob@example.org"
       (run [OpCreateUser 8000 ApiExamples.bob; OpMarkAllNotificationsAsRead 2]
            ApiExamples.household)
     = Some ApiExamples.bobUser.
Proof.
  assert (D : Disciplined ApiExamples.household) by concrete_discipline.
  split; [exact D|].
  apply (users_are_kept
           [OpCreateUser 8000 ApiExamples.bob; OpMarkAllNotificationsAsRead 2]
           ApiExamples.household D).
  reflexivity.
Defined.


Lemma idsBelow_succ (c : Z) : 1 <= c -> idsBelow (c + 1) = idsBelow c ++ [c].
Proof.
  intro H. unfold idsBelow.
  replace (Z.to_nat (c + 1 - 1)) with (S (Z.to_nat (c - 1))) by lia.
  rewrite seq_S, map_app. simpl. do 2 f_equal. lia.
Qed.

Lemma In_idsBelow (c k : Z) : In k (idsBelow c) <-> 1 <= k < c.
Proof.
  unfold idsBelow. rewrite in_map_iff. split.
  - intros [n [<- Hn]]. apply in_seq in Hn. lia.
  - intro H. exists (Z.to_nat k). split; [lia|]. apply in_seq. lia.
Qed.

Section ConsecutiveIds.
Context {N : Type} {num : JsNumber N}.

Lemma keys_set_next {V : Type} (c : Z) (v : V) (m : JsMap.t V) :
  1 <= c -> JsMap.keys m = idsBelow c ->
  JsMap.keys (JsMap.set c v m) = idsBelow (c + 1).
Proof.
  intros Hc Hk. rewrite set_fresh.
  - unfold JsMap.keys in *. rewrite map_app, Hk, idsBelow_succ by assumption.
    reflexivity.
  - rewrite Hk, In_idsBelow. lia.
Qed.

Lemma step_consecutive (s : MemStorage N) (op : Op N) :
  Disciplined s -> ConsecutiveIds s -> ConsecutiveIds (step s op).
Proof.
  unfold ConsecutiveIds. intros HD [[Hu Ku] [Hn Kn]].
  pose proof (step_accounts s op) as H.
  destruct op;
    try (apply accountsOf_eq in H as (E1 & E2 & E3 & E4);
         rewrite E1, E2, E3, E4; now repeat split).
  - cbn [step]. simpl. repeat split; try lia; try assumption.
    now apply keys_set_next.
  - cbn [step]. simpl. repeat split; try lia; try assumption.
    now apply keys_set_next.
  - cbn [step]. unfold markNotificationAsRead.
    destruct (JsMap.get id (notifications s)) as [n|] eqn:G; [|now repeat split].
    simpl. repeat split; try assumption.
    now rewrite (keys_set_get _ _ _ _ G).
  - cbn [step].
    destruct (markAll_rows userId s HD) as (K & _ & F).
    unfold frameOfNotifications in F.
    injection F as E1 _ _ _ _ _ E2 E3 _ _ _ _ _.
    rewrite K, E1, E2, E3. now repeat split.
Qed.

Lemma run_consecutive (ops : list (Op N)) : forall s : MemStorage N,
  Disciplined s -> ConsecutiveIds s -> ConsecutiveIds (run ops s).
Proof.
  induction ops as [|op ops IH]; intros s HD HC; [exact HC|].
  change (run (op :: ops) s) with (run ops (step s op)).
  apply IH; [now apply step_Disciplined | now apply step_consecutive].
Qed.
End ConsecutiveIds.

(** X9. User ids and notification ids are handed out consecutively from 1
    and never given up: after any sequence of storage operations on the
    empty store, the users map holds exactly the ids from 1 to
    [currentUserId - 1], in that order, and the notifications map the ids
    from 1 to [currentNotificationId - 1]; so [getUser(id)] finds a user
    exactly when [1 <= id < currentUserId]. *)
Theorem user_and_notification_ids_are_consecutive
  {N : Type} {num : JsNumber N} (ops : list (Op N)) :
  let s := run ops (newMemStorage N) in
  JsMap.keys (users s) = idsBelow (currentUserId s)
  /\ JsMap.keys (notifications s) = idsBelow (currentNotificationId s)
  /\ forall id, getUser id s <> None <-> 1 <= id < currentUserId s.
Proof.
  cbv zeta.
  destruct (run_consecutive ops (newMemStorage N)) as [[Hu Ku] [Hn Kn]].
  - apply newMemStorage_Disciplined.
  - unfold ConsecutiveIds. simpl. repeat split; lia.
  - split; [exact Ku|]. split; [exact Kn|].
    intro id. rewrite <- In_idsBelow, <- Ku. unfold getUser.
    pose proof (get_None_iff id (users (run ops (newMemStorage N)))) as G.
    destruct (JsMap.get id (users (run ops (newMemStorage N)))).
    + split; [intros _|intros _; discriminate].
      destruct (in_dec Z.eq_dec id (JsMap.keys (users (run ops (newMemStorage N)))));
        [assumption|]. apply G in n. discriminate.
    + split; [congruence|]. intro I. exfalso. now apply (proj1 G).
Qed.

(* ================================================================== *)
(** * The two aggregations side by side *)
(* ================================================================== *)

Lemma str_get_In {V : Type} (k : string) (v : V) (m : StrMap.t V) :
  StrMap.get k m = Some v -> In (k, v) m.
Proof.
  induction m as [|[k' v'] m IH]; simpl; [discriminate|].
  destruct (String.eqb_spec k' k) as [->|NE]; intro H.
  - injection H as ->. now left.
  - right. auto.
Qed.

Section Aggregations.
Context {N : Type} {num : JsNumber N}.
Implicit Types (s : MemStorage N) (txs : list (Transaction N)).

Lemma expensesOf_expenseRows userId s :
  expensesOf userId s
  = jsSort (fun a b => tx_date a <? tx_date b) (expenseRows userId s).
Proof.
  unfold expensesOf, expenseRows, getTransactions, ownedRows.
  apply (filter_jsSort (@tx_date N)).
Qed.

Lemma getSpendingReport_eq userId s :
  getSpendingReport userId s
  = fold_left reportStep (expensesOf userId s)
      {| total := num_zero; byCategory := StrMap.empty |}.
Proof. reflexivity. Qed.

Lemma report_total txs : forall acc : SpendingReport N,
  total (fold_left reportStep txs acc)
  = fold_left num_add (map (@tx_amount N) txs) (total acc).
Proof.
  induction txs as [|t txs IH]; intro acc; simpl; [reflexivity|].
  now rewrite IH.
Qed.

(** Under a name that [Object.prototype] does not have, the object of the
    report and the map of the insights go through the same values. *)
Lemma report_entry c txs :
  onObjectPrototype c = false ->
  forall (acc : SpendingReport N) (m : StrMap.t N) (tot : N),
    StrMap.get c (byCategory acc) = option_map VNumber (StrMap.get c m) ->
    StrMap.get c (byCategory (fold_left reportStep txs acc))
    = option_map VNumber (StrMap.get c (fst (fold_left spendingStep txs (m, tot)))).
Proof.
  intro Hc. induction txs as [|t txs IH]; intros acc m tot H; simpl; [exact H|].
  apply IH. cbn [reportStep byCategory]. unfold objSet, objGet.
  rewrite str_get_set.
  destruct (String.eqb_spec (tx_category t) c) as [E|NE].
  - rewrite E, (not_proto c Hc), str_get_set, String.eqb_refl, H, Hc.
    destruct (StrMap.get c m); reflexivity.
  - destruct (String.eqb (tx_category t) "__proto__"); [exact H|].
    rewrite str_get_set.
    destruct (String.eqb_spec (tx_category t) c); [contradiction | exact H].
Qed.

Lemma report_agrees userId s :
  let report := getSpendingReport userId s in
  let insights := getSpendingByCategory userId s in
  (forall r, In r insights ->
     cs_percentage r
     = if num_gt (total report) num_zero
       then num_round (num_mul (num_div (cs_value r) (total report)) num_hundred)
       else num_zero)
  /\ (forall c v, onObjectPrototype c = false ->
        (objGet c (byCategory report) = Some (VNumber v)
         <-> exists r, In r insights /\ cs_category r = c /\ cs_value r = v)).
Proof.
  cbv zeta. rewrite getSpendingByCategory_eq, getSpendingReport_eq.
  set (exps := expensesOf userId s).
  assert (Htot : total (fold_left reportStep exps
                          {| total := num_zero; byCategory := StrMap.empty |})
                 = sumOf (map (@tx_amount N) exps)).
  { now rewrite report_total. }
  split.
  - intros r Hr. apply In_jsSort, in_map_iff in Hr as [e [<- _]].
    rewrite Htot. reflexivity.
  - intros c v Hc. unfold objGet.
    rewrite (report_entry c exps Hc _ StrMap.empty num_zero) by reflexivity.
    fold (accumulateSpending exps). rewrite Hc.
    assert (Hnd : NoDup (StrMap.keys (fst (accumulateSpending exps)))).
    { apply accumulate_NoDup. constructor. }
    split.
    + intro H. destruct (StrMap.get c (fst (accumulateSpending exps))) as [x|] eqn:G;
        [|discriminate].
      assert (x = v).
      { simpl in H. apply (f_equal (fun o => match o with
                                             | Some (VNumber y) => y
                                             | _ => x end)) in H. exact H. }
      subst x. eexists. split.
      * apply In_jsSort, in_map_iff. exists (c, v). split; [reflexivity|].
        now apply str_get_In.
      * now split.
    + intros [r [Hr [Ec Ev]]].
      apply In_jsSort, in_map_iff in Hr as [[c' v'] [<- Hin]].
      simpl in Ec, Ev. subst c' v'.
      now rewrite (str_In_get _ _ _ Hnd Hin).
Qed.

Lemma analytics_of_expenseRows userId s s' :
  expenseRows userId s = expenseRows userId s' ->
  getSpendingByCategory userId s = getSpendingByCategory userId s'
  /\ getSpendingReport userId s = getSpendingReport userId s'.
Proof.
  intro H. rewrite !getSpendingByCategory_eq, !getSpendingReport_eq,
    !expensesOf_expenseRows, H. now split.
Qed.
End Aggregations.

(** X10. The two aggregations agree: every percentage returned by
    [getSpendingByCategory] is computed from the [total] that
    [getSpendingReport] returns (and is 0 unless that total is positive),
    and for every category name that is not a member of [Object.prototype],
    [byCategory] of the report holds a number under the name exactly when
    the insights have a record of that category with that number as its
    value.  This holds in floating point as in exact arithmetic. *)
Theorem report_agrees_with_insights
  {N : Type} {num : JsNumber N} (userId : Z) (s : MemStorage N) :
  let report := getSpendingReport userId s in
  let insights := getSpendingByCategory userId s in
  (forall r, In r insights ->
     cs_percentage r
     = if num_gt (total report) num_zero
       then num_round (num_mul (num_div (cs_value r) (total report)) num_hundred)
       else num_zero)
  /\ (forall c v, onObjectPrototype c = false ->
        (objGet c (byCategory report) = Some (VNumber v)
         <-> exists r, In r insights /\ cs_category r = c /\ cs_value r = v)).
Proof. exact (report_agrees userId s). Qed.

(** X11. [getSpendingByCategory(userId)] and [getSpendingReport(userId)]
    read nothing of the store but the expense transactions of the user, in
    the insertion order of the map: two stores that agree on these give the
    same insights and the same report, whatever else they hold (incomes,
    budgets, transactions of other users or of another type). *)
Theorem analytics_read_only_the_expenses_of_the_user
  {N : Type} {num : JsNumber N} (userId : Z) (s s' : MemStorage N) :
  expenseRows userId s = expenseRows userId s' ->
  getSpendingByCategory userId s = getSpendingByCategory userId s'
  /\ getSpendingReport userId s = getSpendingReport userId s'.
Proof. exact (analytics_of_expenseRows userId s s'). Qed.

Lemma analytics_read_only_the_expenses_of_the_user_witness :
  expenseRows 1 ApiExamples.household
  = expenseRows 1 (run [OpDeleteTransaction 2; OpDeleteBudget 1] ApiExamples.household)
  /\ getSpendingReport 1 ApiExamples.household
     = getSpendingReport 1
         (run [OpDeleteTransaction 2; OpDeleteBudget 1] ApiExamples.household).
Proof.
  assert (E : expenseRows 1 ApiExamples.household
              = expenseRows 1 (run [OpDeleteTransaction 2; OpDeleteBudget 1]
                                   ApiExamples.household)) by reflexivity.
  split; [exact E|].
  exact (proj2 (analytics_read_only_the_expenses_of_the_user 1 _ _ E)).
Defined.


(* ================================================================== *)
(** * Listings after a deletion and after a creation *)
(* ================================================================== *)

Lemma values_delete_filed {V : Type} (idOf : V -> Z) (id : Z) (m : JsMap.t V) :
  rowsFiled idOf m ->
  JsMap.values (JsMap.delete id m)
  = filter (fun v => negb (idOf v =? id)) (JsMap.values m).
Proof.
  unfold JsMap.values, JsMap.delete, rowsFiled.
  induction m as [|[k v] m IH]; intro H; simpl; [reflexivity|].
  rewrite (H k v) by now left.
  destruct (k =? id); simpl; rewrite IH; auto;
    intros k' v' I; apply H; now right.
Qed.

Lemma filter_swap {A : Type} (p q : A -> bool) (l : list A) :
  filter p (filter q l) = filter q (filter p l).
Proof.
  induction l as [|x l IH]; simpl; [reflexivity|].
  destruct (p x) eqn:P, (q x) eqn:Q; simpl; rewrite ?P, ?Q, IH; reflexivity.
Qed.

(** X12. On a store whose transactions are filed under their own id,
    [deleteTransaction(id)] takes the transaction with that id, and no
    other, out of the listing of [getTransactions]; the rows that remain
    keep their order. *)
Theorem deleteTransaction_takes_the_row_out_of_the_listing
  {N : Type} (id userId : Z) (s : MemStorage N) :
  rowsFiled (@tx_id N) (transactions s) ->
  getTransactions userId (snd (deleteTransaction id s))
  = filter (fun t => negb (tx_id t =? id)) (getTransactions userId s).
Proof.
  intro H. unfold getTransactions, deleteTransaction.
  cbn [snd transactions set_transactions].
  rewrite (values_delete_filed (@tx_id N)) by exact H.
  rewrite filter_swap. symmetry. apply (filter_jsSort (@tx_date N)).
Qed.

Lemma deleteTransaction_takes_the_row_out_of_the_listing_witness :
  rowsFiled (@tx_id Qc) (transactions ApiExamples.household)
  /\ getTransactions 1 (snd (deleteTransaction 1 ApiExamples.household))
     = filter (fun t => negb (tx_id t =? 1)) (getTransactions 1 ApiExamples.household).
Proof.
  assert (F : rowsFiled (@tx_id Qc) (transactions ApiExamples.household))
    by concrete_discipline.
  split; [exact F|].
  apply deleteTransaction_takes_the_row_out_of_the_listing, F.
Defined.


(** X13. On a store whose transaction keys are below the counter,
    [createTransaction] changes the listing of no other user, and a
    transaction dated later than every transaction its owner has is listed
    first, before the rows listed until then. *)
Theorem created_transaction_enters_the_listing
  {N : Type} (now : Date) (insertTransaction : InsertTransaction N)
  (s : MemStorage N) :
  keysBelow (currentTransactionId s) (transactions s) ->
  let transaction := fst (createTransaction now insertTransaction s) in
  let s' := snd (createTransaction now insertTransaction s) in
  let owner := it_userId insertTransaction in
  (forall userId, userId <> owner ->
     getTransactions userId s' = getTransactions userId s)
  /\ (Forall (fun t => tx_date t < tx_date transaction) (getTransactions owner s) ->
      getTransactions owner s' = transaction :: getTransactions owner s).
Proof.
  intro Hb. cbv zeta. unfold getTransactions, createTransaction.
  cbn [fst snd transactions set_transactions set_currentTransactionId].
  rewrite (set_fresh _ _ _ (keysBelow_fresh _ _ Hb)), values_app.
  split.
  - intros userId NE. rewrite filter_app.
    cbn [JsMap.values map snd filter tx_userId].
    destruct (Z.eqb_spec (it_userId insertTransaction) userId); [congruence|].
    now rewrite app_nil_r.
  - intro Hnew. rewrite filter_app.
    cbn [JsMap.values map snd filter tx_userId]. rewrite Z.eqb_refl.
    apply (jsSort_newest (@tx_date N)).
    apply Forall_forall. intros t Ht.
    rewrite Forall_forall in Hnew. apply Hnew.
    now apply In_jsSort.
Qed.

Lemma created_transaction_enters_the_listing_witness :
  keysBelow (currentTransactionId ApiExamples.household)
            (transactions ApiExamples.household)
  /\ getTransactions 2
       (snd (createTransaction 9000
               (transactionOf ApiExamples.adaUser (ApiExamples.spend "books" 30))
               ApiExamples.household))
     = getTransactions 2 ApiExamples.household.
Proof.
  assert (K : keysBelow (currentTransactionId ApiExamples.household)
                        (transactions ApiExamples.household))
    by concrete_discipline.
  split; [exact K|].
  apply (created_transaction_enters_the_listing 9000
           (transactionOf ApiExamples.adaUser (ApiExamples.spend "books" 30))
           ApiExamples.household K).
  discriminate.
Defined.


(* ================================================================== *)
(** * Restore, then backup *)
(* ================================================================== *)




(* ================================================================== *)
(** * The routes *)
(* ================================================================== *)

Section RouteFacts.
Context {N : Type} {num : JsNumber N} (toFixed2 : N -> string).
Implicit Types (s : MemStorage N) (session : Session) (request : Request N).

Lemma run_app (ops ops' : list (Op N)) s :
  run (ops ++ ops') s = run ops' (run ops s).
Proof. apply fold_left_app. Qed.

(** A request changes the store as the storage operations of [effects]
    do. *)
Lemma handle_effects clock session request s :
  snd (handle toFixed2 clock session request s)
  = run (effects toFixed2 clock session request s) s.
Proof.
  destruct request as
    [ [userData|] | body | | | | [id|] | | [body|] | | [body|] | | [body|]
    | [id|] | [id|] body | [id|] | | [body|] | | [body|] | [id|] body | [id|]
    | | [body|] | [id|] body | [id|] | | | | data ];
    cbn [handle effects register login];
    try reflexivity;
    try (unfold isAuthenticated;
         destruct (deserializeUser session s) as [user|]; reflexivity).
  - destruct (getUserByUsername (iu_username userData) s); [reflexivity|].
    destruct (getUserByEmail (iu_email userData) s); reflexivity.
  - now destruct (login body session s).
  - unfold isAuthenticated, markRead_route.
    destruct (deserializeUser session s) as [user|]; [|reflexivity].
    cbn [run fold_left step].
    now destruct (markNotificationAsRead id s) as [[n|] s'].
  - unfold isAuthenticated, postCategory.
    destruct (deserializeUser session s) as [user|]; [|reflexivity].
    cbn [categoryOf ic_name].
    now destruct (getCategoryByName (user_id user) (ic_name body) s).
  - unfold isAuthenticated, postTransaction.
    destruct (deserializeUser session s) as [user|]; [|reflexivity].
    cbn [createTransaction fst snd].
    match goal with |- context [if ?c then _ else _] => destruct c end; reflexivity.
  - unfold isAuthenticated, getTransaction, ownTransaction.
    destruct (deserializeUser session s) as [user|]; [|reflexivity].
    destruct (getTransactionById id s) as [t|]; [|reflexivity].
    now destruct (tx_userId t =? user_id user).
  - unfold isAuthenticated, patchTransaction, ownTransaction.
    destruct (deserializeUser session s) as [user|]; [|reflexivity].
    destruct (getTransactionById id s) as [t|]; [|reflexivity].
    destruct (tx_userId t =? user_id user); [|reflexivity].
    cbn [run fold_left step]. now destruct (updateTransaction id body s).
  - unfold isAuthenticated, deleteTransaction_route, ownTransaction.
    destruct (deserializeUser session s) as [user|]; [|reflexivity].
    destruct (getTransactionById id s) as [t|]; [|reflexivity].
    now destruct (tx_userId t =? user_id user).
  - unfold isAuthenticated, patchBudget.
    destruct (deserializeUser session s) as [user|]; [|reflexivity].
    cbn [run fold_left step]. now destruct (updateBudget id body s) as [[b|] s'].
  - unfold isAuthenticated, deleteBudget_route.
    destruct (deserializeUser session s) as [user|]; [|reflexivity].
    cbn [run fold_left step]. unfold deleteBudget.
    now destruct (JsMap.has id (budgets s)).
  - unfold isAuthenticated, patchGoal.
    destruct (deserializeUser session s) as [user|]; [|reflexivity].
    cbn [run fold_left step]. now destruct (updateGoal id body s) as [[g|] s'].
  - unfold isAuthenticated, deleteGoal_route.
    destruct (deserializeUser session s) as [user|]; [|reflexivity].
    cbn [run fold_left step]. unfold deleteGoal.
    now destruct (JsMap.has id (goals s)).
  - unfold isAuthenticated, postRestore.
    destruct (deserializeUser session s) as [user|]; [|reflexivity].
    destruct (parseRestore data) as [o|]; reflexivity.
Qed.

Lemma serve_effects s (call : Call N) :
  serve toFixed2 s call
  = run (effects toFixed2 (call_clock call) (call_session call)
           (call_request call) s) s.
Proof. apply handle_effects. Qed.

Lemma serveAll_run (calls : list (Call N)) : forall s,
  exists ops, serveAll toFixed2 calls s = run ops s.
Proof.
  induction calls as [|call calls IH]; intro s.
  - now exists [].
  - destruct (IH (serve toFixed2 s call)) as [ops E].
    eexists. change (serveAll toFixed2 (call :: calls) s)
      with (serveAll toFixed2 calls (serve toFixed2 s call)).
    rewrite E, serve_effects, <- run_app. reflexivity.
Qed.

Lemma serve_Disciplined s (call : Call N) :
  Disciplined s -> Disciplined (serve toFixed2 s call).
Proof. intro H. rewrite serve_effects. now apply run_Disciplined. Qed.

Lemma serveAll_Disciplined (calls : list (Call N)) s :
  Disciplined s -> Disciplined (serveAll toFixed2 calls s).
Proof.
  intro H. destruct (serveAll_run calls s) as [ops ->]. now apply run_Disciplined.
Qed.
End RouteFacts.

(** ** Accounts *)

Section AccountFacts.
Context {N : Type} {num : JsNumber N} (toFixed2 : N -> string).
Implicit Types (s : MemStorage N) (session : Session) (request : Request N).

Lemma step_users_same s (op : Op N) :
  createsUser op = false ->
  users (step s op) = users s /\ currentUserId (step s op) = currentUserId s.
Proof.
  intro H. pose proof (step_accounts s op) as A.
  destruct op; try discriminate;
    try (apply accountsOf_eq in A as (E1 & _ & E3 & _); now split).
  - now split.
  - cbn [step]. unfold markNotificationAsRead.
    now destruct (JsMap.get id (notifications s)).
  - cbn [step]. pose proof (markAll_frame userId s) as F.
    unfold frameOfNotifications in F.
    split.
    + exact (f_equal (fun a => fst (fst (fst (fst (fst (fst a)))))) F).
    + exact (f_equal (fun a => fst (fst (fst (fst (fst (fst (snd a))))))) F).
Qed.

Lemma run_users_same (ops : list (Op N)) : forall s,
  existsb createsUser ops = false ->
  users (run ops s) = users s /\ currentUserId (run ops s) = currentUserId s.
Proof.
  induction ops as [|op ops IH]; intros s H; [now split|].
  cbn [existsb] in H. apply orb_false_iff in H as [H1 H2].
  change (run (op :: ops) s) with (run ops (step s op)).
  destruct (IH (step s op) H2) as [E1 E2].
  destruct (step_users_same s op H1) as [E3 E4].
  split; congruence.
Qed.

(** Only a registration that finds neither the username nor the email
    address in use adds a user. *)
Lemma effects_creates_user clock session request s :
  existsb createsUser (effects toFixed2 clock session request s) = true ->
  exists userData,
    request = PostRegister (Some userData)
    /\ getUserByUsername (iu_username userData) s = None
    /\ getUserByEmail (iu_email userData) s = None.
Proof.
  destruct request; cbn [effects];
    repeat match goal with
    | |- context [match ?x with _ => _ end] => destruct x eqn:?
    end;
    cbn [existsb createsUser orb]; try discriminate.
  intros _. eauto.
Qed.

Lemma find_none_app {A : Type} (p : A -> bool) (l l' : list A) :
  find p l = None -> find p (l ++ l') = find p l'.
Proof.
  induction l as [|x l IH]; simpl; [reflexivity|].
  destruct (p x); [discriminate | exact IH].
Qed.

Lemma find_none_not_in {A B : Type} (f : A -> B) (eqb : B -> B -> bool)
  (b : B) (l : list A) :
  (forall x y, eqb x y = true <-> x = y) ->
  find (fun x => eqb (f x) b) l = None -> ~ In b (map f l).
Proof.
  intros Heq H I. apply in_map_iff in I as [x [E I]].
  apply (find_none _ _ H) in I. simpl in I.
  rewrite <- E in I. assert (eqb (f x) (f x) = true) by now apply Heq. congruence.
Qed.

Lemma NoDup_snoc {A : Type} (x : A) (l : list A) :
  NoDup l -> ~ In x l -> NoDup (l ++ [x]).
Proof.
  intros Hl Hx. apply (Permutation_NoDup (Permutation_cons_append l x)).
  now constructor.
Qed.

(** The store after a registration that goes through. *)
Lemma register_users clock (userData : InsertUser) s :
  Disciplined s ->
  getUserByUsername (iu_username userData) s = None ->
  getUserByEmail (iu_email userData) s = None ->
  let user := fst (createUser (clock 0%nat) userData s) in
  let s' := snd (register clock (Some userData) s) in
  fst (register clock (Some userData) s) = created (JsonUser (withoutPassword user))
  /\ users s' = users s ++ [(currentUserId s, user)]
  /\ notifications s'
     = notifications s
       ++ [(currentNotificationId s,
            fst (createNotification (clock 1%nat) (welcome user) s))]
  /\ currentUserId s' = currentUserId s + 1.
Proof.
  intros (((Wu & Bu) & (Wn & Bn) & _) & _) Hn He. cbv zeta.
  unfold register. rewrite Hn, He. simpl.
  split; [reflexivity|].
  split; [now apply set_fresh, keysBelow_fresh|].
  split; [now apply set_fresh, keysBelow_fresh | reflexivity].
Qed.

Lemma register_Disciplined clock (body : option InsertUser) s :
  Disciplined s -> Disciplined (snd (register clock body s)).
Proof.
  intro HD. unfold register. destruct body as [userData|]; [|exact HD].
  destruct (getUserByUsername (iu_username userData) s); [exact HD|].
  destruct (getUserByEmail (iu_email userData) s); [exact HD|].
  apply (createNotification_Disciplined (clock 1%nat)
           (welcome (fst (createUser (clock 0%nat) userData s)))
           (snd (createUser (clock 0%nat) userData s))).
  now apply createUser_Disciplined.
Qed.

Lemma serve_UniqueAccounts s (call : Call N) :
  Disciplined s -> UniqueAccounts s -> UniqueAccounts (serve toFixed2 s call).
Proof.
  intros HD [Hname Hmail].
  destruct (existsb createsUser
              (effects toFixed2 (call_clock call) (call_session call)
                 (call_request call) s)) eqn:E.
  - apply effects_creates_user in E as (userData & Er & Hn & He).
    destruct (register_users (call_clock call) userData s HD Hn He)
      as (_ & Eu & _).
    unfold serve, UniqueAccounts. rewrite Er. cbn [handle].
    destruct (register (call_clock call) (Some userData) s) as [r s'] eqn:R.
    cbn [snd] in *. rewrite Eu, values_app, !map_app. simpl.
    split; apply NoDup_snoc; try assumption.
    + apply (find_none_not_in user_username String.eqb); [apply String.eqb_eq | exact Hn].
    + apply (find_none_not_in user_email String.eqb); [apply String.eqb_eq | exact He].
  - rewrite serve_effects. destruct (run_users_same _ s E) as [Eu _].
    unfold UniqueAccounts. rewrite Eu. now split.
Qed.

Lemma serveAll_UniqueAccounts (calls : list (Call N)) : forall s,
  Disciplined s -> UniqueAccounts s -> UniqueAccounts (serveAll toFixed2 calls s).
Proof.
  induction calls as [|call calls IH]; intros s HD HU; [exact HU|].
  change (serveAll toFixed2 (call :: calls) s)
    with (serveAll toFixed2 calls (serve toFixed2 s call)).
  apply IH; [now apply serve_Disciplined | now apply serve_UniqueAccounts].
Qed.
End AccountFacts.

(** X14. Every state the API can reach keeps the identifier discipline of
    the storage layer: after any sequence of requests on the empty store,
    in every map the keys are pairwise distinct and below the counter, and
    users, notifications and categories are filed under their own id. *)
Theorem api_keeps_the_identifier_discipline
  {N : Type} {num : JsNumber N} (toFixed2 : N -> string) (calls : list (Call N)) :
  Disciplined (serveAll toFixed2 calls (newMemStorage N)).
Proof. apply serveAll_Disciplined, newMemStorage_Disciplined. Qed.

(** X15. Usernames and email addresses stay unique: after any sequence of
    requests on the empty store no two users share a username and no two
    share an email address ([/api/register] answers 400 and stores nothing
    when either is taken, and no other route adds a user). *)
Theorem accounts_stay_unique
  {N : Type} {num : JsNumber N} (toFixed2 : N -> string) (calls : list (Call N)) :
  UniqueAccounts (serveAll toFixed2 calls (newMemStorage N)).
Proof.
  apply serveAll_UniqueAccounts.
  - apply newMemStorage_Disciplined.
  - split; constructor.
Qed.

(** ** Logging in, and the answers that refuse *)

Section LoginFacts.
Context {N : Type} {num : JsNumber N} (toFixed2 : N -> string).
Implicit Types (s : MemStorage N) (session : Session).

Lemma registered_then_login clock (userData : InsertUser) s
  (calls : list (Call N)) session :
  Disciplined s ->
  res_status (fst (register clock (Some userData) s)) = 201 ->
  let user := fst (createUser (clock 0%nat) userData s) in
  let s' := serveAll toFixed2 calls (snd (register clock (Some userData) s)) in
  getUser (user_id user) s' = Some user
  /\ login (Some {| lu_username := iu_username userData;
                    lu_password := iu_password userData |}) session s'
     = (ok (JsonUser (withoutPassword user)), Some (user_id user))
  /\ forall password,
       password <> iu_password userData ->
       login (Some {| lu_username := iu_username userData;
                      lu_password := password |}) session s'
       = (reply 401 "Invalid username or password", session).
Proof.
  intros HD Hstatus. cbv zeta.
  assert (Hn : getUserByUsername (iu_username userData) s = None).
  { unfold register in Hstatus.
    destruct (getUserByUsername (iu_username userData) s); [discriminate | reflexivity]. }
  assert (He : getUserByEmail (iu_email userData) s = None).
  { unfold register in Hstatus. rewrite Hn in Hstatus.
    destruct (getUserByEmail (iu_email userData) s); [discriminate | reflexivity]. }
  destruct (register_users clock userData s HD Hn He) as (_ & Eu & _).
  cbv zeta in Eu.
  set (user := fst (createUser (clock 0%nat) userData s)) in *.
  set (s1 := snd (register clock (Some userData) s)) in *.
  assert (HD1 : Disciplined s1).
  { now apply register_Disciplined. }
  destruct (serveAll_run toFixed2 calls s1) as [ops Eops].
  destruct (run_users ops s1 HD1) as [added Ea].
  assert (Hfound : getUserByUsername (iu_username userData)
                     (serveAll toFixed2 calls s1) = Some user).
  { unfold getUserByUsername. rewrite Eops, Ea, Eu, !values_app.
    apply find_app_left. rewrite find_none_app by exact Hn.
    simpl. now rewrite String.eqb_refl. }
  split; [|split].
  - unfold getUser. rewrite Eops, Ea, Eu. apply get_app_left.
    destruct HD as (((Wu & Bu) & _) & _).
    rewrite <- (set_fresh _ _ _ (keysBelow_fresh _ _ Bu)).
    apply get_set_same.
  - unfold login, verify. cbn [lu_username lu_password]. rewrite Hfound.
    simpl. now rewrite String.eqb_refl.
  - intros password NE. unfold login, verify. cbn [lu_username lu_password].
    rewrite Hfound. simpl.
    destruct (String.eqb_spec (iu_password userData) password); [congruence | reflexivity].
Qed.
End LoginFacts.




(** X17. The three routes on [/api/transactions/:id] (GET, PATCH, DELETE)
    refuse without touching the store: 401 when the session holds no user,
    404 when the id is not a number or no transaction is held under it,
    403 when the transaction held under it belongs to another user. *)
Theorem transaction_routes_refuse_without_effect
  {N : Type} {num : JsNumber N} (toFixed2 : N -> string)
  (clock : nat -> Date) (session : Session) (id : option Z)
  (body : PartialTransaction N) (s : MemStorage N) (request : Request N) :
  request = GetTransaction id \/ request = PatchTransaction id body
  \/ request = DeleteTransaction id ->
  let answer := handle toFixed2 clock session request s in
  match deserializeUser session s with
  | None => answer = (reply 401 "Unauthorized", session, s)
  | Some user =>
      match id with
      | None => answer = (reply 404 "Transaction not found", session, s)
      | Some id =>
          match getTransactionById id s with
          | None => answer = (reply 404 "Transaction not found", session, s)
          | Some transaction =>
              tx_userId transaction <> user_id user ->
              answer = (reply 403 "Forbidden", session, s)
          end
      end
  end.
Proof.
  intros [->|[->| ->]]; cbv zeta; cbn [handle];
    unfold isAuthenticated, getTransaction, patchTransaction,
      deleteTransaction_route, ownTransaction;
    (destruct (deserializeUser session s) as [user|]; [|reflexivity]);
    (destruct id as [id|]; [|reflexivity]);
    (destruct (getTransactionById id s) as [t|]; [|reflexivity]);
    intro NE; (destruct (Z.eqb_spec (tx_userId t) (user_id user)); [contradiction|]);
    reflexivity.
Qed.

Lemma transaction_routes_refuse_without_effect_witness :
  handle ApiExamples.toFixed2 (ApiExamples.tick 9000) (Some 2)
         (DeleteTransaction (Some 1)) ApiExamples.household
  = (reply 403 "Forbidden", Some 2, ApiExamples.household).
Proof.
  assert (U : deserializeUser (Some 2) ApiExamples.household
              = Some ApiExamples.bobUser) by reflexivity.
  assert (G : getTransactionById 1 ApiExamples.household
              = Some ApiExamples.adaRent) by reflexivity.
  pose proof (transaction_routes_refuse_without_effect ApiExamples.toFixed2
                (ApiExamples.tick 9000) (Some 2) (Some 1) ApiExamples.giveToBob
                ApiExamples.household (DeleteTransaction (Some 1))
                (or_intror (or_intror eq_refl))) as H.
  cbv zeta in H. rewrite U, G in H.
  apply H. discriminate.
Defined.


(** X18. The routes [PATCH] and [DELETE /api/budgets/:id] and
    [/api/goals/:id], and [POST /api/notifications/:id/read], check no
    owner: for every logged-in user and every row held under the id,
    whoever it belongs to, the update is applied, the row is deleted, the
    notification is marked as read, and the answer is 200. *)
Theorem budget_goal_and_notification_routes_check_no_owner
  {N : Type} {num : JsNumber N} (toFixed2 : N -> string)
  (clock : nat -> Date) (session : Session) (user : User) (id : Z)
  (s : MemStorage N) :
  deserializeUser session s = Some user ->
  (forall budget body,
     JsMap.get id (budgets s) = Some budget ->
     (let answer := handle toFixed2 clock session (PatchBudget (Some id) body) s in
      fst (fst answer) = ok (JsonBudget (spreadBudget budget body))
      /\ JsMap.get id (budgets (snd answer)) = Some (spreadBudget budget body))
     /\ (let answer := handle toFixed2 clock session (DeleteBudget (Some id)) s in
         fst (fst answer) = reply 200 "Budget deleted successfully"
         /\ JsMap.get id (budgets (snd answer)) = None))
  /\ (forall goal body,
        JsMap.get id (goals s) = Some goal ->
        (let answer := handle toFixed2 clock session (PatchGoal (Some id) body) s in
         fst (fst answer) = ok (JsonGoal (spreadGoal goal body))
         /\ JsMap.get id (goals (snd answer)) = Some (spreadGoal goal body))
        /\ (let answer := handle toFixed2 clock session (DeleteGoal (Some id)) s in
            fst (fst answer) = reply 200 "Goal deleted successfully"
            /\ JsMap.get id (goals (snd answer)) = None))
  /\ (forall notification,
        JsMap.get id (notifications s) = Some notification ->
        let answer :=
          handle toFixed2 clock session (PostNotificationRead (Some id)) s in
        fst (fst answer) = ok (JsonNotification (markRead notification))
        /\ JsMap.get id (notifications (snd answer)) = Some (markRead notification)).
Proof.
  intro Huser. cbv zeta. cbn [handle]. unfold isAuthenticated. rewrite Huser.
  split; [|split].
  - intros budget body G. unfold patchBudget, deleteBudget_route, updateBudget,
      deleteBudget, JsMap.has. rewrite G. cbn.
    repeat split; [apply get_set_same | apply get_delete_same].
  - intros goal body G. unfold patchGoal, deleteGoal_route, updateGoal,
      deleteGoal, JsMap.has. rewrite G. cbn.
    repeat split; [apply get_set_same | apply get_delete_same].
  - intros notification G. unfold markRead_route, markNotificationAsRead.
    rewrite G. cbn. split; [reflexivity | apply get_set_same].
Qed.

Lemma budget_goal_and_notification_routes_check_no_owner_witness :
  deserializeUser (Some 2) ApiExamples.household = Some ApiExamples.bobUser
  /\ JsMap.get 1 (budgets ApiExamples.household) = Some ApiExamples.adaBudget
  /\ fst (fst (handle ApiExamples.toFixed2 (ApiExamples.tick 9000) (Some 2)
                 (DeleteBudget (Some 1)) ApiExamples.household))
     = reply 200 "Budget deleted successfully"
  /\ JsMap.get 1 (budgets (snd (handle ApiExamples.toFixed2 (ApiExamples.tick 9000)
                                  (Some 2) (DeleteBudget (Some 1))
                                  ApiExamples.household)))
     = None.
Proof.
  assert (U : deserializeUser (Some 2) ApiExamples.household
              = Some ApiExamples.bobUser) by reflexivity.
  assert (B : JsMap.get 1 (budgets ApiExamples.household)
              = Some ApiExamples.adaBudget) by reflexivity.
  split; [exact U|]. split; [exact B|].
  exact (proj2 (proj1 (budget_goal_and_notification_routes_check_no_owner
                         ApiExamples.toFixed2 (ApiExamples.tick 9000) (Some 2)
                         ApiExamples.bobUser 1 ApiExamples.household U)
                  ApiExamples.adaBudget ApiExamples.emptyPatch B)).
Defined.


(** X19. [POST /api/restore] validates before it deletes: without all of
    the five arrays in [data] it answers 400 and the store is as before
    (so the clearing of a collection whose key is absent, which
    [restoreBackup] does on its own, cannot be reached through the route);
    with the five arrays it answers 200, and the store is the one
    [restoreBackup] leaves, with one more notification for the caller. *)
Theorem restore_route_validates_before_it_deletes
  {N : Type} {num : JsNumber N} (toFixed2 : N -> string)
  (clock : nat -> Date) (session : Session) (user : User)
  (data : RestoreData N) (s : MemStorage N) :
  deserializeUser session s = Some user ->
  let answer := handle toFixed2 clock session (PostRestore data) s in
  match data with
  | DataNullish => answer = (validationError, session, s)
  | DataObject o =>
      match d_transactions o, d_incomes o, d_budgets o, d_goals o,
            d_categories o with
      | Some _, Some _, Some _, Some _, Some _ =>
          answer
          = (reply 200 "Data restored successfully", session,
             snd (createNotification (clock (payloadSize o)) (restored user)
                    (snd (restoreBackup clock (user_id user) data s))))
      | _, _, _, _, _ => answer = (validationError, session, s)
      end
  end.
Proof.
  intro Huser. cbv zeta. cbn [handle]. unfold isAuthenticated. rewrite Huser.
  unfold postRestore, parseRestore.
  destruct data as [|o]; [reflexivity|].
  destruct (d_transactions o), (d_incomes o), (d_budgets o), (d_goals o),
    (d_categories o); reflexivity.
Qed.

Lemma restore_route_validates_before_it_deletes_witness :
  deserializeUser (Some 1) ApiExamples.household = Some ApiExamples.adaUser
  /\ handle ApiExamples.toFixed2 (ApiExamples.tick 9000) (Some 1)
            (PostRestore (DataObject (@emptyObject Qc))) ApiExamples.household
     = (validationError, Some 1, ApiExamples.household).
Proof.
  assert (U : deserializeUser (Some 1) ApiExamples.household
              = Some ApiExamples.adaUser) by reflexivity.
  split; [exact U|].
  exact (restore_route_validates_before_it_deletes ApiExamples.toFixed2
           (ApiExamples.tick 9000) (Some 1) ApiExamples.adaUser
           (DataObject (@emptyObject Qc)) ApiExamples.household U).
Defined.


(** ** Posting transactions and categories *)

(** X20. [POST /api/transactions] files the transaction for the caller,
    whatever [userId] the body carries: on a store that keeps the
    identifier discipline the answer is 201 with the row created, the row
    is owned by the caller and found under the id handed out, and one
    notification is added for the caller exactly when the type is
    "expense" and the amount is greater than 100 (none for 100 itself). *)
Theorem posted_transaction_belongs_to_the_caller
  {N : Type} {num : JsNumber N} (toFixed2 : N -> string)
  (clock : nat -> Date) (session : Session) (user : User)
  (body : InsertTransaction N) (s : MemStorage N) :
  Disciplined s ->
  deserializeUser session s = Some user ->
  let answer := handle toFixed2 clock session (PostTransaction (Some body)) s in
  let transaction :=
    fst (createTransaction (clock 0%nat) (transactionOf user body) s) in
  fst (fst answer) = created (JsonTransaction transaction)
  /\ tx_userId transaction = user_id user
  /\ tx_id transaction = currentTransactionId s
  /\ getTransactionById (tx_id transaction) (snd answer) = Some transaction
  /\ notifications (snd answer)
     = if String.eqb (it_type body) "expense" && num_gt (it_amount body) num_hundred
       then notifications s
            ++ [(currentNotificationId s,
                 {| notif_id := currentNotificationId s;
                    notif_userId := user_id user;
                    notif_message :=
                      "Large expense of $" ++ toFixed2 (it_amount body)
                      ++ " recorded for " ++ it_category body ++ ".";
                    notif_read := false;
                    notif_createdAt := clock 1%nat |})]
       else notifications s.
Proof.
  intros ((_ & (_ & Bn) & _) & _) Huser. cbv zeta. cbn [handle].
  unfold isAuthenticated. rewrite Huser. unfold postTransaction.
  cbn [createTransaction transactionOf fst snd tx_type tx_amount tx_userId tx_id
       it_userId it_amount it_type it_category tx_category].
  destruct (String.eqb (it_type body) "expense" && num_gt (it_amount body) num_hundred);
    cbn [fst snd].
  - repeat split; [apply get_set_same|].
    cbn. now apply set_fresh, keysBelow_fresh.
  - repeat split. apply get_set_same.
Qed.

Lemma posted_transaction_belongs_to_the_caller_witness :
  (Disciplined ApiExamples.household
   /\ deserializeUser (Some 1) ApiExamples.household = Some ApiExamples.adaUser)
  /\ tx_userId (fst (createTransaction 9000
                       (transactionOf ApiExamples.adaUser (ApiExamples.spend "books" 30))
                       ApiExamples.household))
     = 1.
Proof.
  assert (D : Disciplined ApiExamples.household) by concrete_discipline.
  assert (U : deserializeUser (Some 1) ApiExamples.household
              = Some ApiExamples.adaUser) by reflexivity.
  split; [split; [exact D | exact U]|].
  exact (proj1 (proj2 (posted_transaction_belongs_to_the_caller ApiExamples.toFixed2
                         (ApiExamples.tick 9000) (Some 1) ApiExamples.adaUser
                         (ApiExamples.spend "books" 30) ApiExamples.household D U))).
Defined.


Section CategoryFacts.
Context {N : Type}.

Lemma getCategoryByName_Some userId name (s : MemStorage N) c :
  getCategoryByName userId name s = Some c ->
  In c (getCategories userId s)
  /\ toLowerCase (cat_name c) = toLowerCase name.
Proof.
  unfold getCategoryByName, getCategories. intro H.
  apply find_some in H as [I H]. apply andb_true_iff in H as [H1 H2].
  split; [apply filter_In; now split | now apply String.eqb_eq].
Qed.

Lemma getCategoryByName_None userId name (s : MemStorage N) :
  getCategoryByName userId name s = None ->
  forall c, In c (getCategories userId s) ->
            toLowerCase (cat_name c) <> toLowerCase name.
Proof.
  unfold getCategoryByName, getCategories. intros H c I E.
  apply filter_In in I as [I U].
  apply (find_none _ _ H) in I. simpl in I.
  rewrite U, E, String.eqb_refl in I. discriminate.
Qed.
End CategoryFacts.

(** X21. [POST /api/categories] lets no user have two categories whose
    names agree up to [toLowerCase]: when the caller has a category of that
    name, in whatever case, the answer is 400 and the store is as before
    (a category of another user does not count); otherwise the category is
    created for the caller with the name as given; and names that were
    pairwise distinct up to case stay so. *)
Theorem posted_category_names_stay_distinct
  {N : Type} {num : JsNumber N} (toFixed2 : N -> string)
  (clock : nat -> Date) (session : Session) (user : User)
  (body : InsertCategory) (s : MemStorage N) :
  Disciplined s ->
  deserializeUser session s = Some user ->
  let answer := handle toFixed2 clock session (PostCategory (Some body)) s in
  let category := fst (createCategory (clock 0%nat) (categoryOf user body) s) in
  ((exists c, In c (getCategories (user_id user) s)
              /\ toLowerCase (cat_name c) = toLowerCase (ic_name body)) ->
   answer = (reply 400 "Category with this name already exists", session, s))
  /\ ((forall c, In c (getCategories (user_id user) s) ->
                 toLowerCase (cat_name c) <> toLowerCase (ic_name body)) ->
      answer = (created (JsonCategory category), session,
                snd (createCategory (clock 0%nat) (categoryOf user body) s))
      /\ cat_userId category = user_id user
      /\ cat_name category = ic_name body
      /\ categories (snd answer) = categories s ++ [(currentCategoryId s, category)])
  /\ (CategoryNamesDistinct s -> CategoryNamesDistinct (snd answer)).
Proof.
  intros ((_ & _ & _ & (_ & Bc) & _) & _) Huser. cbv zeta. cbn [handle].
  unfold isAuthenticated. rewrite Huser. unfold postCategory.
  cbn [categoryOf ic_name].
  destruct (getCategoryByName (user_id user) (ic_name body) s) as [c0|] eqn:G.
  - split; [reflexivity|]. split; [|intro H; exact H].
    intro Hnone. apply getCategoryByName_Some in G as [I E].
    now apply Hnone in I.
  - pose proof (getCategoryByName_None _ _ _ G) as Hnone.
    split; [intros [c [I E]]; now apply Hnone in I|].
    assert (Eset : categories
                     (snd (createCategory (clock 0%nat)
                             {| ic_userId := user_id user; ic_name := ic_name body;
                                ic_type := ic_type body |} s))
                   = categories s
                     ++ [(currentCategoryId s,
                          fst (createCategory (clock 0%nat)
                                 {| ic_userId := user_id user;
                                    ic_name := ic_name body;
                                    ic_type := ic_type body |} s))]).
    { cbn. now apply set_fresh, keysBelow_fresh. }
    split.
    + intros _. repeat split. exact Eset.
    + intro Hd. unfold CategoryNamesDistinct in *.
      match goal with
      | |- NoDup (map _ (JsMap.values (categories ?x))) =>
          change x with (snd (createCategory (clock 0%nat)
                                {| ic_userId := user_id user;
                                   ic_name := ic_name body;
                                   ic_type := ic_type body |} s))
      end.
      rewrite Eset, values_app, map_app. apply NoDup_snoc; [exact Hd|].
      cbn. intro I. apply in_map_iff in I as [c [E I]].
      injection E as E1 E2.
      apply (Hnone c); [|exact E2].
      unfold getCategories. apply filter_In. split; [exact I | now apply Z.eqb_eq].
Qed.

Lemma posted_category_names_stay_distinct_witness :
  (Disciplined ApiExamples.household
   /\ deserializeUser (Some 1) ApiExamples.household = Some ApiExamples.adaUser)
  /\ handle ApiExamples.toFixed2 (ApiExamples.tick 9000) (Some 1)
            (PostCategory (Some {| ic_userId := 1; ic_name := "FOOD";
                                   ic_type := None |}))
            ApiExamples.household
     = (reply 400 "Category with this name already exists", Some 1,
        ApiExamples.household).
Proof.
  assert (D : Disciplined ApiExamples.household) by concrete_discipline.
  assert (U : deserializeUser (Some 1) ApiExamples.household
              = Some ApiExamples.adaUser) by reflexivity.
  split; [split; [exact D | exact U]|].
  pose proof (posted_category_names_stay_distinct ApiExamples.toFixed2
                (ApiExamples.tick 9000) (Some 1) ApiExamples.adaUser
                {| ic_userId := 1; ic_name := "FOOD"; ic_type := None |}
                ApiExamples.household D U) as H.
  cbv zeta in H. destruct H as (H & _). apply H.
  exists {| cat_id := 1; cat_userId := 1; cat_name := "Food";
            cat_type := Some "expense"%string; cat_createdAt := 7000 |}.
  split; vm_compute; [left; reflexivity | reflexivity].
Defined.


(** ** The notifications of a new account *)

Lemma filter_none {A : Type} (p : A -> bool) (l : list A) :
  (forall x, In x l -> p x = false) -> filter p l = [].
Proof.
  induction l as [|x l IH]; intro H; simpl; [reflexivity|].
  rewrite (H x) by now left. apply IH. intros y I. apply H. now right.
Qed.

Section AddressedFacts.
Context {N : Type} {num : JsNumber N} (toFixed2 : N -> string).
Implicit Types (s : MemStorage N) (session : Session) (request : Request N).

Lemma step_addressed s (op : Op N) :
  Disciplined s -> NotificationsAddressed s -> addressedOp s op ->
  NotificationsAddressed (step s op).
Proof.
  intros HD HA Hop. pose proof (step_accounts s op) as A.
  unfold NotificationsAddressed in *.
  destruct op;
    try (apply accountsOf_eq in A as (_ & E2 & E3 & _);
         rewrite E2, E3; exact HA).
  - cbn [step]. simpl. intros id n I. apply HA in I. lia.
  - cbn [step addressedOp] in *. simpl. intros id n0 I.
    apply In_set in I as [E|I]; [|now apply HA in I].
    injection E as _ ->. exact Hop.
  - cbn [step]. unfold markNotificationAsRead.
    destruct (JsMap.get id (notifications s)) as [n0|] eqn:G; [|exact HA].
    simpl. intros id' n I. apply In_set in I as [E|I]; [|now apply HA in I].
    injection E as _ ->. simpl. apply get_In in G. now apply HA in G.
  - cbn [step]. intros id n' I.
    destruct (markAll_rows userId s HD) as (K & Hget & F).
    pose proof (markAllNotificationsAsRead_Disciplined userId s HD)
      as ((_ & (Wn' & _) & _) & _).
    assert (Ec : currentUserId (markAllNotificationsAsRead userId s)
                 = currentUserId s).
    { exact (f_equal (fun a => fst (fst (fst (fst (fst (fst (snd a))))))) F). }
    rewrite Ec.
    assert (Ik : In id (JsMap.keys (notifications s))).
    { rewrite <- K. unfold JsMap.keys. apply in_map_iff. now exists (id, n'). }
    destruct (JsMap.get id (notifications s)) as [n|] eqn:G.
    + apply (In_get _ _ _ Wn') in I. rewrite (Hget _ _ G) in I.
      injection I as <-. apply get_In in G. apply HA in G.
      now destruct (notif_userId n =? userId).
    + apply get_None_iff in G. contradiction.
Qed.

Lemma addressedOp_mono s s' (op : Op N) :
  currentUserId s <= currentUserId s' -> addressedOp s op -> addressedOp s' op.
Proof. intro H. destruct op; simpl; auto. lia. Qed.

Lemma run_addressed (ops : list (Op N)) : forall s,
  Disciplined s -> NotificationsAddressed s -> Forall (addressedOp s) ops ->
  NotificationsAddressed (run ops s).
Proof.
  induction ops as [|op ops IH]; intros s HD HA Hops; [exact HA|].
  inversion Hops as [|? ? Hop Hops']; subst.
  change (run (op :: ops) s) with (run ops (step s op)).
  apply IH; [now apply step_Disciplined | now apply step_addressed|].
  eapply Forall_impl; [|exact Hops'].
  intro op'. apply addressedOp_mono.
  now destruct (step_countersLe s op) as (H & _).
Qed.

Lemma session_user_exists session s user :
  Disciplined s -> deserializeUser session s = Some user ->
  user_id user < currentUserId s.
Proof.
  intros (((_ & Bu) & _) & Fu & _) H.
  destruct session as [id|]; [|discriminate]. simpl in H. unfold getUser in H.
  rewrite (get_filed user_id id user (users s) Fu H).
  now apply (get_key_below _ _ _ _ Bu) in H.
Qed.

Lemma effects_addressed clock session request s :
  Disciplined s ->
  existsb createsUser (effects toFixed2 clock session request s) = false ->
  Forall (addressedOp s) (effects toFixed2 clock session request s).
Proof.
  intros HD.
  pose proof (session_user_exists session s) as Huser.
  destruct request; cbn [effects];
    repeat match goal with
    | |- context [match ?x with _ => _ end] => destruct x eqn:?
    end;
    cbn [existsb createsUser orb]; try discriminate; intros _;
    repeat constructor; cbn [addressedOp in_userId notificationOf largeExpense restored];
    auto.
Qed.

Lemma serve_addressed s (call : Call N) :
  Disciplined s -> NotificationsAddressed s ->
  NotificationsAddressed (serve toFixed2 s call).
Proof.
  intros HD HA.
  destruct (existsb createsUser
              (effects toFixed2 (call_clock call) (call_session call)
                 (call_request call) s)) eqn:E.
  - apply effects_creates_user in E as (userData & Er & Hn & He).
    destruct (register_users (call_clock call) userData s HD Hn He)
      as (_ & _ & En & Ec).
    unfold serve. rewrite Er. cbn [handle].
    destruct (register (call_clock call) (Some userData) s) as [r s'] eqn:R.
    cbn [snd] in *. unfold NotificationsAddressed in *.
    rewrite En, Ec. intros id n I. apply in_app_or in I as [I|[I|[]]].
    + apply HA in I. lia.
    + injection I as _ <-. simpl. lia.
  - rewrite serve_effects. apply run_addressed; try assumption.
    now apply effects_addressed.
Qed.

Lemma serveAll_addressed (calls : list (Call N)) : forall s,
  Disciplined s -> NotificationsAddressed s ->
  NotificationsAddressed (serveAll toFixed2 calls s).
Proof.
  induction calls as [|call calls IH]; intros s HD HA; [exact HA|].
  change (serveAll toFixed2 (call :: calls) s)
    with (serveAll toFixed2 calls (serve toFixed2 s call)).
  apply IH; [now apply serve_Disciplined | now apply serve_addressed].
Qed.
End AddressedFacts.

(** X22. A new account starts with the welcome message and nothing else:
    in every state the API can reach, when [/api/register] answers 201 the
    notifications of the new user are exactly one, unread, with the text
    of the welcome message (no notification was addressed to the id before
    it was handed out). *)
Theorem new_account_has_the_welcome_notification
  {N : Type} {num : JsNumber N} (toFixed2 : N -> string)
  (calls : list (Call N)) (clock : nat -> Date) (userData : InsertUser) :
  let s := serveAll toFixed2 calls (newMemStorage N) in
  res_status (fst (register clock (Some userData) s)) = 201 ->
  let user := fst (createUser (clock 0%nat) userData s) in
  getNotifications (user_id user) (snd (register clock (Some userData) s))
  = [ {| notif_id := currentNotificationId s;
         notif_userId := user_id user;
         notif_message :=
           "Welcome to FinTrack! Start by adding your first transaction.";
         notif_read := false;
         notif_createdAt := clock 1%nat |} ].
Proof.
  cbv zeta. set (s := serveAll toFixed2 calls (newMemStorage N)).
  intro Hstatus.
  assert (HD : Disciplined s) by apply serveAll_Disciplined, newMemStorage_Disciplined.
  assert (HA : NotificationsAddressed s).
  { apply serveAll_addressed; [apply newMemStorage_Disciplined|].
    intros id n []. }
  assert (Hn : getUserByUsername (iu_username userData) s = None).
  { unfold register in Hstatus.
    destruct (getUserByUsername (iu_username userData) s); [discriminate | reflexivity]. }
  assert (He : getUserByEmail (iu_email userData) s = None).
  { unfold register in Hstatus. rewrite Hn in Hstatus.
    destruct (getUserByEmail (iu_email userData) s); [discriminate | reflexivity]. }
  destruct (register_users clock userData s HD Hn He) as (_ & _ & En & _).
  cbv zeta in En. unfold getNotifications. rewrite En, values_app, filter_app.
  replace (filter _ (JsMap.values (notifications s))) with (@nil Notification).
  - cbn. now rewrite Z.eqb_refl.
  - symmetry. apply filter_none. intros n I.
    unfold JsMap.values in I. apply in_map_iff in I as [[k v] [E I]].
    simpl in E. subst v. apply HA in I. simpl.
    destruct (Z.eqb_spec (notif_userId n) (currentUserId s)); [lia | reflexivity].
Qed.

Lemma new_account_has_the_welcome_notification_witness :
  res_status (fst (register (ApiExamples.tick 8000) (Some ApiExamples.carol)
                     ApiExamples.household)) = 201
  /\ getNotifications 3
       (snd (register (ApiExamples.tick 8000) (Some ApiExamples.carol)
               ApiExamples.household))
     = [ {| notif_id := 4; notif_userId := 3;
            notif_message :=
              "Welcome to FinTrack! Start by adding your first transaction.";
            notif_read := false; notif_createdAt := 8001 |} ].
Proof.
  unfold ApiExamples.household.
  assert (R : res_status
                (fst (register (ApiExamples.tick 8000) (Some ApiExamples.carol)
                        (serveAll ApiExamples.toFixed2 ApiExamples.calls
                           (newMemStorage Qc)))) = 201)
    by (vm_compute; reflexivity).
  split; [exact R|].
  pose proof (new_account_has_the_welcome_notification ApiExamples.toFixed2
                ApiExamples.calls (ApiExamples.tick 8000) ApiExamples.carol) as H.
  cbv zeta in H. specialize (H R).
  vm_compute in H. vm_compute. exact H.
Defined.


(** ** The transactions of the other users *)

Section TransactionSafety.
Context {N : Type} {num : JsNumber N} (toFixed2 : N -> string).
Implicit Types (s : MemStorage N) (session : Session) (request : Request N).

Lemma step_spares s (op : Op N) id t :
  Disciplined s -> sparesTransaction id op ->
  JsMap.get id (transactions s) = Some t ->
  JsMap.get id (transactions (step s op)) = Some t.
Proof.
  intros ((_ & _ & (_ & Bt) & _) & _) Hop G.
  destruct op; cbn [step sparesTransaction] in *; try exact G; try contradiction.
  - unfold markNotificationAsRead.
    now destruct (JsMap.get id0 (notifications s)).
  - pose proof (markAllNotificationsAsRead_others userId s) as F.
    assert (E : transactions (markAllNotificationsAsRead userId s) = transactions s)
      by exact (f_equal (fun a => snd (fst (fst (fst (fst a))))) F).
    now rewrite E.
  - simpl. rewrite get_set_other; [exact G|].
    apply (get_key_below _ _ _ _ Bt) in G. lia.
  - unfold updateTransaction.
    destruct (JsMap.get id0 (transactions s)); [|exact G].
    simpl. now rewrite get_set_other.
  - simpl. now rewrite get_delete_other by congruence.
  - unfold updateIncome. now destruct (JsMap.get id0 (incomes s)).
  - unfold updateBudget. now destruct (JsMap.get id0 (budgets s)).
  - unfold updateGoal. now destruct (JsMap.get id0 (goals s)).
Qed.

Lemma run_spares (ops : list (Op N)) id t : forall s,
  Disciplined s -> Forall (sparesTransaction id) ops ->
  JsMap.get id (transactions s) = Some t ->
  JsMap.get id (transactions (run ops s)) = Some t.
Proof.
  induction ops as [|op ops IH]; intros s HD Hops G; [exact G|].
  inversion Hops as [|? ? Hop Hops']; subst.
  change (run (op :: ops) s) with (run ops (step s op)).
  apply IH; [now apply step_Disciplined | exact Hops' | now apply step_spares].
Qed.

Lemma effects_spare clock session request s id t :
  (forall data, request <> PostRestore data) ->
  JsMap.get id (transactions s) = Some t ->
  (forall user, deserializeUser session s = Some user ->
                tx_userId t <> user_id user) ->
  Forall (sparesTransaction id) (effects toFixed2 clock session request s).
Proof.
  intros Hreq G Hother.
  destruct request; cbn [effects];
    try (exfalso; now apply (Hreq data));
    repeat match goal with
    | |- context [match ?x with _ => _ end] => destruct x eqn:?
    end;
    repeat first [apply Forall_nil | apply Forall_cons];
    cbn [sparesTransaction]; try exact I;
    intros ->;
    match goal with
    | H : match getTransactionById id s with _ => _ end = true |- _ =>
        unfold getTransactionById in H; rewrite G in H; apply Z.eqb_eq in H;
        now apply (Hother _ eq_refl)
    end.
Qed.
End TransactionSafety.

(** X29. Through every route but [/api/restore], the transactions of a
    user are out of reach of the others: on a store that keeps the
    identifier discipline, whatever the request, a transaction that does
    not belong to the user of the session is held under its id, unchanged,
    after the request. *)
Theorem transactions_of_others_are_out_of_reach
  {N : Type} {num : JsNumber N} (toFixed2 : N -> string)
  (clock : nat -> Date) (session : Session) (request : Request N)
  (s : MemStorage N) (id : Z) (transaction : Transaction N) :
  Disciplined s ->
  (forall data, request <> PostRestore data) ->
  JsMap.get id (transactions s) = Some transaction ->
  (forall user, deserializeUser session s = Some user ->
                tx_userId transaction <> user_id user) ->
  JsMap.get id (transactions (snd (handle toFixed2 clock session request s)))
  = Some transaction.
Proof.
  intros HD Hreq G Hother. rewrite handle_effects.
  apply run_spares; [exact HD | now apply effects_spare with transaction | exact G].
Qed.

Lemma transactions_of_others_are_out_of_reach_witness :
  (Disciplined ApiExamples.household
   /\ JsMap.get 1 (transactions ApiExamples.household) = Some ApiExamples.adaRent
   /\ deserializeUser (Some 2) ApiExamples.household = Some ApiExamples.bobUser)
  /\ JsMap.get 1 (transactions
                    (snd (handle ApiExamples.toFixed2 (ApiExamples.tick 9000) (Some 2)
                            (PatchTransaction (Some 1) ApiExamples.giveToBob)
                            ApiExamples.household)))
     = Some ApiExamples.adaRent.
Proof.
  assert (D : Disciplined ApiExamples.household) by concrete_discipline.
  assert (G : JsMap.get 1 (transactions ApiExamples.household)
              = Some ApiExamples.adaRent) by reflexivity.
  assert (U : deserializeUser (Some 2) ApiExamples.household
              = Some ApiExamples.bobUser) by reflexivity.
  split; [split; [exact D | split; [exact G | exact U]]|].
  apply transactions_of_others_are_out_of_reach; [exact D | discriminate | exact G |].
  intros user E. rewrite U in E. injection E as <-. discriminate.
Defined.


(* ================================================================== *)
(** * The helpers of the client *)
(* ================================================================== *)

Lemma string_length_append (a b : string) :
  String.length (a ++ b) = (String.length a + String.length b)%nat.
Proof. induction a as [|c a IH]; simpl; [reflexivity | now rewrite IH]. Qed.

Lemma length_list_ascii_of_string (s : string) :
  List.length (list_ascii_of_string s) = String.length s.
Proof. induction s as [|c s IH]; simpl; [reflexivity | now rewrite IH]. Qed.

Lemma length_string_of_list_ascii (l : list ascii) :
  String.length (string_of_list_ascii l) = List.length l.
Proof. induction l as [|c l IH]; simpl; [reflexivity | now rewrite IH]. Qed.

Lemma jsSlice_from_start {A : Type} (finish : Z) (l : list A) :
  jsSlice 0 finish l
  = firstn (Z.to_nat (relativeIndex (Z.of_nat (List.length l)) finish)) l.
Proof.
  unfold jsSlice. cbv zeta.
  assert (E : relativeIndex (Z.of_nat (List.length l)) 0 = 0).
  { unfold relativeIndex. simpl. lia. }
  rewrite E, Z.sub_0_r. reflexivity.
Qed.

Lemma length_strSlice_from_start (finish : Z) (s : string) :
  Z.of_nat (String.length (strSlice 0 finish s))
  = relativeIndex (Z.of_nat (String.length s)) finish.
Proof.
  unfold strSlice. rewrite length_string_of_list_ascii, jsSlice_from_start,
    length_firstn, length_list_ascii_of_string.
  unfold relativeIndex. destruct (finish <? 0) eqn:E; lia.
Qed.

(** X23. [truncateText] keeps its bound when the bound leaves room for the
    dots: for [maxLength >= 3] the result has at most [maxLength]
    characters; it is the text itself when the text fits, and otherwise
    the first [maxLength - 3] characters followed by three dots, exactly
    [maxLength] characters long. *)
Theorem truncateText_keeps_the_bound (text : string) (maxLength : Z) :
  3 <= maxLength ->
  let result := truncateText text maxLength in
  Z.of_nat (String.length result) <= maxLength
  /\ (Z.of_nat (String.length text) <= maxLength -> result = text)
  /\ (maxLength < Z.of_nat (String.length text) ->
      result = (substring 0 (Z.to_nat (maxLength - 3)) text ++ "...")%string
      /\ Z.of_nat (String.length result) = maxLength).
Proof.
  intro H3. cbv zeta. unfold truncateText.
  destruct (Z.leb_spec (Z.of_nat (String.length text)) maxLength) as [Hfit|Hlong].
  - split; [exact Hfit|]. split; [reflexivity | intros; exfalso; lia].
  - assert (Elen : Z.of_nat (String.length (strSlice 0 (maxLength - 3) text))
                   = maxLength - 3).
    { rewrite length_strSlice_from_start. unfold relativeIndex.
      destruct (Z.ltb_spec (maxLength - 3) 0); lia. }
    rewrite string_length_append. change (String.length "...") with 3%nat.
    split; [lia|]. split; [intros; exfalso; lia|]. intros _. split; [|lia].
    f_equal. unfold strSlice. rewrite jsSlice_from_start.
    unfold relativeIndex. rewrite length_list_ascii_of_string.
    destruct (Z.ltb_spec (maxLength - 3) 0); [lia|].
    rewrite Z.min_l by lia.
    generalize (Z.to_nat (maxLength - 3)). clear. intro n. revert n.
    induction text as [|c text IH]; intro n; destruct n; simpl; try reflexivity.
    now rewrite IH.
Qed.

Lemma truncateText_keeps_the_bound_witness :
  3 <= 5 /\ truncateText "abcdefghij" 5 = "ab..."%string.
Proof.
  split; [lia|].
  apply (proj2 (proj2 (truncateText_keeps_the_bound "abcdefghij" 5 ltac:(lia)))).
  vm_compute. reflexivity.
Defined.


(** X24. Below three, the bound of [truncateText] is not kept: for
    [maxLength < 3] and a text longer than [maxLength], the end index
    [maxLength - 3] is negative and counts from the end of the text, so
    the result has [max (length + maxLength - 3) 0 + 3] characters, which
    is more than [maxLength] and, for [maxLength >= 0], at least as many
    as the text had. *)
Theorem truncateText_overruns_a_bound_below_three (text : string) (maxLength : Z) :
  maxLength < 3 ->
  maxLength < Z.of_nat (String.length text) ->
  let result := truncateText text maxLength in
  Z.of_nat (String.length result)
  = Z.max (Z.of_nat (String.length text) + maxLength - 3) 0 + 3
  /\ maxLength < Z.of_nat (String.length result)
  /\ (0 <= maxLength ->
      Z.of_nat (String.length text) <= Z.of_nat (String.length result)).
Proof.
  intros H3 Hlong. cbv zeta. unfold truncateText.
  destruct (Z.leb_spec (Z.of_nat (String.length text)) maxLength); [lia|].
  rewrite string_length_append. change (String.length "...") with 3%nat.
  rewrite Nat2Z.inj_add, length_strSlice_from_start. unfold relativeIndex.
  destruct (Z.ltb_spec (maxLength - 3) 0); [|lia].
  replace (Z.of_nat (String.length text) + (maxLength - 3))
    with (Z.of_nat (String.length text) + maxLength - 3) by lia.
  simpl Z.of_nat. lia.
Qed.

Lemma truncateText_overruns_a_bound_below_three_witness :
  (2 < 3 /\ 2 < Z.of_nat (String.length "abcdefghij"))
  /\ 2 < Z.of_nat (String.length (truncateText "abcdefghij" 2)).
Proof.
  split; [split; [lia | vm_compute; reflexivity]|].
  apply (truncateText_overruns_a_bound_below_three "abcdefghij" 2);
    [lia | vm_compute; reflexivity].
Defined.


(** ** [stringToColor] *)

Section ColorFacts.

Lemma toInt32_range (x : Z) : - 2 ^ 31 <= toInt32 x < 2 ^ 31.
Proof.
  unfold toInt32. pose proof (Z.mod_pos_bound (x + 2 ^ 31) (2 ^ 32)). lia.
Qed.

Lemma toInt32_mod (x : Z) : toInt32 x mod 2 ^ 32 = x mod 2 ^ 32.
Proof.
  unfold toInt32.
  change (2 ^ 31) with 2147483648. change (2 ^ 32) with 4294967296.
  Z.div_mod_to_equations. lia.
Qed.

Lemma toInt32_small (x : Z) : - 2 ^ 31 <= x < 2 ^ 31 -> toInt32 x = x.
Proof.
  intro H. unfold toInt32.
  change (2 ^ 31) with 2147483648 in *. change (2 ^ 32) with 4294967296.
  Z.div_mod_to_equations. lia.
Qed.

Lemma charCode_range (c : ascii) : 0 <= charCode c < 256.
Proof.
  unfold charCode. pose proof (N_ascii_bounded c) as H.
  change 256 with (Z.of_N 256). lia.
Qed.

Lemma hashStep_mod (hash : Z) (c : ascii) :
  hashStep hash c mod 2 ^ 32 = (31 * hash + charCode c) mod 2 ^ 32.
Proof.
  unfold hashStep, shiftLeft32. change (5 mod 32) with 5.
  rewrite Z.shiftl_mul_pow2 by lia.
  pose proof (toInt32_mod (toInt32 hash * 2 ^ 5)) as E1.
  pose proof (toInt32_mod hash) as E2.
  set (a := toInt32 (toInt32 hash * 2 ^ 5)) in *.
  set (b := toInt32 hash) in *.
  change (2 ^ 5) with 32 in *. change (2 ^ 32) with 4294967296 in *.
  Z.div_mod_to_equations. lia.
Qed.

Lemma hashStep_bound (hash : Z) (c : ascii) :
  Z.abs (hashStep hash c) <= Z.abs hash + 2 ^ 32.
Proof.
  unfold hashStep, shiftLeft32.
  pose proof (toInt32_range (Z.shiftl (toInt32 hash) (5 mod 32))).
  pose proof (charCode_range c).
  change (2 ^ 31) with 2147483648 in *. change (2 ^ 32) with 4294967296. lia.
Qed.

Lemma fold_hash (l : list ascii) : forall h h',
  h mod 2 ^ 32 = h' mod 2 ^ 32 ->
  fold_left hashStep l h mod 2 ^ 32
  = fold_left (fun h c => 31 * h + charCode c) l h' mod 2 ^ 32.
Proof.
  induction l as [|c l IH]; intros h h' H; simpl; [exact H|].
  apply IH. rewrite hashStep_mod.
  rewrite (Z.add_mod (31 * h)), (Z.mul_mod 31 h), H by lia.
  rewrite <- Z.mul_mod, <- Z.add_mod by lia. reflexivity.
Qed.

Lemma fold_hash_bound (l : list ascii) : forall h,
  Z.abs (fold_left hashStep l h) <= Z.abs h + Z.of_nat (List.length l) * 2 ^ 32.
Proof.
  induction l as [|c l IH]; intro h; simpl fold_left; [simpl; lia|].
  specialize (IH (hashStep h c)). pose proof (hashStep_bound h c).
  change (List.length (c :: l)) with (S (List.length l)). lia.
Qed.

(** One byte of the hash. *)
Lemma color_byte (hash i : Z) :
  i = 0 \/ i = 1 \/ i = 2 ->
  and32 (shiftRight32 hash (i * 8)) 255
  = (hash mod 2 ^ 32) / 2 ^ (8 * i) mod 256.
Proof.
  intro Hi. unfold and32, shiftRight32.
  assert (Ek : (i * 8) mod 32 = 8 * i) by (destruct Hi as [->|[->| ->]]; reflexivity).
  rewrite Ek, Z.shiftr_div_pow2 by lia.
  pose proof (toInt32_range hash) as R. pose proof (toInt32_mod hash) as M.
  set (x := toInt32 hash) in *.
  assert (Rx : - 2 ^ 31 <= x / 2 ^ (8 * i) < 2 ^ 31).
  { destruct Hi as [->|[->| ->]]; simpl (2 ^ (8 * _));
      change (2 ^ 31) with 2147483648 in *; Z.div_mod_to_equations; lia. }
  rewrite (toInt32_small (x / 2 ^ (8 * i))) by exact Rx.
  rewrite (toInt32_small 255) by (change (2 ^ 31) with 2147483648; lia).
  change 255 with (Z.ones 8). rewrite Z.land_ones by lia.
  change (2 ^ 8) with 256.
  pose proof (Z.mod_pos_bound (x / 2 ^ (8 * i)) 256).
  rewrite toInt32_small by (change (2 ^ 31) with 2147483648; lia).
  destruct Hi as [->|[->| ->]]; simpl (2 ^ (8 * _));
    change (2 ^ 32) with 4294967296 in *; Z.div_mod_to_equations; lia.
Qed.

Lemma byte_text (v : Z) :
  0 <= v < 256 -> substr (-2) ("00" ++ toString16 v) = byteHex v.
Proof.
  intro H.
  assert (Hall : forallb (fun n => String.eqb
                            (substr (-2) ("00" ++ toString16 (Z.of_nat n)))
                            (byteHex (Z.of_nat n)))
                         (seq 0 256) = true) by (vm_compute; reflexivity).
  rewrite forallb_forall in Hall.
  specialize (Hall (Z.to_nat v)). rewrite Z2Nat.id in Hall by lia.
  apply String.eqb_eq, Hall, in_seq. lia.
Qed.

Lemma stringToColor_eq (str : string) :
  let h := polynomialHash str mod 2 ^ 32 in
  stringToColor str
  = ("#" ++ byteHex (h mod 256) ++ byteHex (h / 256 mod 256)
     ++ byteHex (h / 65536 mod 256))%string.
Proof.
  cbv zeta. unfold stringToColor. cbn [fold_left]. unfold colorStep.
  rewrite !color_byte by auto.
  assert (E : hashOf str mod 2 ^ 32 = polynomialHash str mod 2 ^ 32).
  { apply fold_hash. reflexivity. }
  rewrite E. set (h := polynomialHash str mod 2 ^ 32).
  change (2 ^ (8 * 0)) with 1. change (2 ^ (8 * 1)) with 256.
  change (2 ^ (8 * 2)) with 65536. rewrite Z.div_1_r.
  rewrite !byte_text by (apply Z.mod_pos_bound; lia).
  reflexivity.
Qed.
End ColorFacts.

(** X25. [stringToColor] is a polynomial hash: the colour is ["#"]
    followed by the three low bytes, lowest first, of
    [s[0]*31^(n-1) + ... + s[n-1]] reduced modulo 2^32 (the hash code of
    Java strings), each as two lower-case hexadecimal digits; so it has
    always seven characters, and the high byte of the hash is not used.
    The value of [hash] in the loop is at most [2^32] times the length of
    the string in absolute value, hence an exact double for every string
    of up to 2^21 characters. *)
Theorem stringToColor_is_a_polynomial_hash (str : string) :
  let h := polynomialHash str mod 2 ^ 32 in
  stringToColor str
  = ("#" ++ byteHex (h mod 256) ++ byteHex (h / 256 mod 256)
     ++ byteHex (h / 65536 mod 256))%string
  /\ String.length (stringToColor str) = 7%nat
  /\ Z.abs (hashOf str) <= Z.of_nat (String.length str) * 2 ^ 32.
Proof.
  cbv zeta. split; [apply stringToColor_eq|]. split.
  - rewrite stringToColor_eq. reflexivity.
  - unfold hashOf. rewrite <- length_list_ascii_of_string.
    apply (fold_hash_bound (list_ascii_of_string str) 0).
Qed.

(** ** [getRelativeTime] *)

(** X26. [getRelativeTime] shows whole units of the time elapsed: with
    [elapsed = now - date] in milliseconds, the result is "Just now" below
    one minute (and for a date in the future); below an hour the number of
    whole minutes elapsed, from 1 to 59; below a day the whole hours, from
    1 to 23; below a week the whole days, from 1 to 6; from a week on the
    formatted date.  The unit takes its "s" exactly when the number is
    not 1. *)
Theorem getRelativeTime_shows_whole_units
  (formatDate : Date -> string) (now date : Date) :
  let elapsed := now - date in
  let shown := getRelativeTime formatDate now date in
  let text n unit := (decimal n ++ unit ++ plural n ++ " ago")%string in
  (elapsed < 60000 -> shown = "Just now"%string)
  /\ (60000 <= elapsed < 3600000 ->
      shown = text (elapsed / 60000) " minute"%string
      /\ 1 <= elapsed / 60000 <= 59)
  /\ (3600000 <= elapsed < 86400000 ->
      shown = text (elapsed / 3600000) " hour"%string
      /\ 1 <= elapsed / 3600000 <= 23)
  /\ (86400000 <= elapsed < 604800000 ->
      shown = text (elapsed / 86400000) " day"%string
      /\ 1 <= elapsed / 86400000 <= 6)
  /\ (604800000 <= elapsed -> shown = formatDate date).
Proof.
  cbv zeta. unfold getRelativeTime. cbv zeta.
  set (e := now - date).
  assert (Em : e / 1000 / 60 = e / 60000) by (rewrite Z.div_div by lia; reflexivity).
  assert (Eh : e / 1000 / 60 / 60 = e / 3600000)
    by (rewrite !Z.div_div by lia; reflexivity).
  assert (Ed : e / 1000 / 60 / 60 / 24 = e / 86400000)
    by (rewrite !Z.div_div by lia; reflexivity).
  rewrite Ed, Eh, Em.
  pose proof (Z.div_mod e 1000 ltac:(lia)) as D1.
  pose proof (Z.mod_pos_bound e 1000 ltac:(lia)) as B1.
  pose proof (Z.div_mod e 60000 ltac:(lia)) as D2.
  pose proof (Z.mod_pos_bound e 60000 ltac:(lia)) as B2.
  pose proof (Z.div_mod e 3600000 ltac:(lia)) as D3.
  pose proof (Z.mod_pos_bound e 3600000 ltac:(lia)) as B3.
  pose proof (Z.div_mod e 86400000 ltac:(lia)) as D4.
  pose proof (Z.mod_pos_bound e 86400000 ltac:(lia)) as B4.
  repeat split; intros;
    destruct (Z.ltb_spec (e / 1000) 60);
    destruct (Z.ltb_spec (e / 60000) 60);
    destruct (Z.ltb_spec (e / 3600000) 24);
    destruct (Z.ltb_spec (e / 86400000) 7);
    try reflexivity; try lia.
Qed.

(** ** The statistics of the dashboard *)

Section DashboardFacts.
Local Open Scope Qc_scope.

Lemma fold_add_from (l : list Qc) : forall a : Qc,
  fold_left Qcplus l a = a + fold_left Qcplus l 0.
Proof.
  induction l as [|x l IH]; intro a; simpl.
  - ring.
  - rewrite IH, (IH (0 + x)). ring.
Qed.

Lemma fold_amounts (p : Transaction Qc -> bool) (l : list (Transaction Qc)) :
  fold_left (fun sum tx => sum + tx_amount tx) (filter p l) 0
  = fold_left Qcplus (map (@tx_amount Qc) (filter p l)) 0.
Proof.
  generalize (0 : Qc). induction (filter p l) as [|x l' IH]; intro a; simpl;
    [reflexivity | apply IH].
Qed.

Lemma totalBalance_from (l : list (Transaction Qc)) : forall a : Qc,
  fold_left
    (fun sum transaction =>
       if String.eqb (tx_type transaction) "income"
       then num_add sum (tx_amount transaction)
       else num_sub sum (tx_amount transaction)) l a
  = a + fold_left Qcplus
          (map (@tx_amount Qc)
               (filter (fun tx => String.eqb (tx_type tx) "income") l)) 0
    - fold_left Qcplus
        (map (@tx_amount Qc)
             (filter (fun tx => negb (String.eqb (tx_type tx) "income")) l)) 0.
Proof.
  induction l as [|t l IH]; intro a; simpl.
  - ring.
  - rewrite IH. destruct (String.eqb (tx_type t) "income"); simpl.
    + rewrite (fold_add_from _ (0 + tx_amount t)). ring.
    + rewrite (fold_add_from _ (0 + tx_amount t)). ring.
Qed.

Lemma balance_sheet (transactions : list (Transaction Qc)) :
  totalBalance transactions
  = income transactions
    - sumOf (map (@tx_amount Qc)
               (filter (fun tx => negb (String.eqb (tx_type tx) "income"))
                       transactions)).
Proof.
  unfold totalBalance, income, sumOf. rewrite totalBalance_from, fold_amounts.
  simpl. ring.
Qed.

Lemma other_is_expense (transactions : list (Transaction Qc)) :
  (forall tx, In tx transactions ->
              tx_type tx = "income"%string \/ tx_type tx = "expense"%string) ->
  filter (fun tx => negb (String.eqb (tx_type tx) "income")) transactions
  = filter (fun tx => String.eqb (tx_type tx) "expense") transactions.
Proof.
  intro H. apply filter_ext_in. intros tx I.
  destruct (H tx I) as [E|E]; rewrite E; reflexivity.
Qed.
End DashboardFacts.


(** X28. On the list the server returns, the sort of [RecentTransactions]
    changes nothing: for [limit >= 0] the component shows the first
    [limit] rows of [getTransactions], and the array it sorts in place is
    left as it was. *)
Theorem recent_transactions_are_the_first_listed
  {N : Type} (limit userId : Z) (s : MemStorage N) :
  0 <= limit ->
  recentTransactions limit (getTransactions userId s)
  = (firstn (Z.to_nat limit) (getTransactions userId s), getTransactions userId s).
Proof.
  intro H. unfold recentTransactions.
  rewrite (jsSort_sorted_same (@tx_date N))
    by apply (sorted_newest_first (@tx_date N)).
  f_equal. rewrite jsSlice_from_start. unfold relativeIndex.
  destruct (Z.ltb_spec limit 0); [lia|].
  set (l := getTransactions userId s).
  destruct (Z.le_ge_cases limit (Z.of_nat (List.length l))).
  - now rewrite Z.min_l.
  - rewrite Z.min_r, Nat2Z.id by assumption.
    rewrite firstn_all. symmetry. apply firstn_all2. lia.
Qed.

Lemma recent_transactions_are_the_first_listed_witness :
  0 <= 1
  /\ recentTransactions 1 (getTransactions 1 ApiExamples.household)
     = (firstn 1 (getTransactions 1 ApiExamples.household),
        getTransactions 1 ApiExamples.household).
Proof.
  split; [lia|].
  apply (recent_transactions_are_the_first_listed 1 1 ApiExamples.household). lia.
Defined.

